(** * CVP analysis with a full sliding fee schedule

    A shallow embedding of [cvp_analysis_with_full_sliding_fee] (CVP.py)
    and the properties of the table it returns.

    The Python function is written against whatever numbers its caller
    passes ([int], [float], [fractions.Fraction]); the embedding is
    therefore generic in a [Number] interface, with two instances:
    exact rationals ([Qc], what [fractions.Fraction] computes) and IEEE
    binary64 ([PrimFloat.float], what [float] computes).

    The function is embedded twice.  The first embedding works on
    values: dictionaries are insertion-ordered association lists,
    exceptions are values of an error monad, and the two pandas
    operations the function uses ([pd.DataFrame] on a list of dicts, and
    column selection by a list of labels) are modelled on tables of
    cells.  The second ([Heap]) works on a store of mutable objects, to
    say what a call does to the objects it is handed; [HeapFacts] shows
    that it only extends the store, and that on a store holding the
    inputs of the first embedding it returns the same table. *)

From Stdlib Require Import List String Ascii Bool Arith Lia Permutation.
From Stdlib Require Import ZArith QArith Qcanon Field.
From Stdlib Require Import Floats Uint63.
Import ListNotations.

Close Scope Qc_scope.
Close Scope Q_scope.
Open Scope string_scope.
Open Scope list_scope.

(** ** Numbers *)

(** The arithmetic the function performs on its inputs.  [of_int] is the
    conversion Python applies to an [int] operand ([0], [len(services)])
    when the other operand is of type [T].

    The operations are total: the development is about numbers on
    which Python's [+], [-], [*] and [/] by a non-zero divisor return,
    which floats and [Fraction]s are, and [int]s as long as they and
    their products stay exactly representable in binary64 (there an
    [int] meets the same roundings as the float of its value).  An
    [int] too large for a float makes [/] and [*] raise
    [OverflowError]; such inputs are outside it.  Division by zero is
    kept out of the class: where the function divides by
    [len(services)], its embedding raises [ZeroDivisionError] at 0. *)
Class Number (T : Type) : Type := {
  of_int : nat -> T;
  add : T -> T -> T;
  sub : T -> T -> T;
  mul : T -> T -> T;
  truediv : T -> T -> T
}.

(** Exact rational arithmetic. *)
#[export] Instance Qc_Number : Number Qc := {
  of_int n := Q2Qc (inject_Z (Z.of_nat n));
  add := Qcplus;
  sub := Qcminus;
  mul := Qcmult;
  truediv := Qcdiv
}.

(** IEEE 754 binary64, round to nearest even. *)
#[export] Instance float_Number : Number float := {
  of_int n := PrimFloat.of_uint63 (Uint63.of_Z (Z.of_nat n));
  add := PrimFloat.add;
  sub := PrimFloat.sub;
  mul := PrimFloat.mul;
  truediv := PrimFloat.div
}.

(** ** Exceptions *)

Inductive exception : Type :=
| ZeroDivisionError
| KeyError (key : string)
| UnboundLocalError (name : string)
| TypeError.

(** The name of the exception's class, as [type(e).__name__] gives it. *)
Definition class_name (e : exception) : string :=
  match e with
  | ZeroDivisionError => "ZeroDivisionError"
  | KeyError _ => "KeyError"
  | UnboundLocalError _ => "UnboundLocalError"
  | TypeError => "TypeError"
  end.

Inductive result (A : Type) : Type :=
| Ok (a : A)
| Raise (e : exception).

Arguments Ok {A} a.
Arguments Raise {A} e.

Definition bind {A B : Type} (m : result A) (k : A -> result B) : result B :=
  match m with
  | Ok a => k a
  | Raise e => Raise e
  end.

Notation "x <- m ;; k" := (bind m (fun x => k))
  (at level 61, m at next level, right associativity).
Notation "' p <- m ;; k" := (bind m (fun x => match x with p => k end))
  (at level 61, p pattern, m at next level, right associativity).

(** A [for] loop whose body may raise: the first exception ends it. *)
Fixpoint foldM {A S : Type} (body : S -> A -> result S) (xs : list A) (s : S)
  : result S :=
  match xs with
  | [] => Ok s
  | x :: xs' => s' <- body s x ;; foldM body xs' s'
  end.

Fixpoint mapM {A B : Type} (f : A -> result B) (xs : list A) : result (list B) :=
  match xs with
  | [] => Ok []
  | x :: xs' => y <- f x ;; ys <- mapM f xs' ;; Ok (y :: ys)
  end.

(** ** Dictionaries *)

(** A Python [dict] with string keys: its items in insertion order.  The
    keys of a dict are pairwise distinct; [dict_set] keeps that, and
    [dict_get] does not depend on it. *)
Definition dict (V : Type) : Type := list (string * V).

Definition dict_keys {V : Type} (d : dict V) : list string := map fst d.

Fixpoint dict_find {V : Type} (d : dict V) (k : string) : option V :=
  match d with
  | [] => None
  | (k', v) :: d' => if String.eqb k k' then Some v else dict_find d' k
  end.

(** [d[k]] *)
Definition dict_get {V : Type} (d : dict V) (k : string) : result V :=
  match dict_find d k with
  | Some v => Ok v
  | None => Raise (KeyError k)
  end.

(** [d[k] = v]: an existing key keeps its position, a new one goes last. *)
Fixpoint dict_set {V : Type} (d : dict V) (k : string) (v : V) : dict V :=
  match d with
  | [] => [(k, v)]
  | (k', v') :: d' =>
      if String.eqb k k' then (k', v) :: d' else (k', v') :: dict_set d' k v
  end.

(** [{**d, **other}] *)
Definition dict_update {V : Type} (d other : dict V) : dict V :=
  fold_left (fun acc kv => dict_set acc (fst kv) (snd kv)) other d.

Definition mem (k : string) (ks : list string) : bool :=
  existsb (String.eqb k) ks.

(** Labels in order of first appearance: the columns [pd.DataFrame]
    gives a list of dicts. *)
Definition add_labels (cols ks : list string) : list string :=
  fold_left (fun acc k => if mem k acc then acc else acc ++ [k]) ks cols.

Definition union_keys {V : Type} (rows : list (dict V)) : list string :=
  fold_left (fun acc r => add_labels acc (dict_keys r)) rows [].

(** ** Tables *)

Section Model.

Context {T : Type} {NT : Number T}.

(** A cell of a row or of a table; [NaN] is what pandas puts where a row
    has no value for a column. *)
Inductive cell : Type :=
| CStr (s : string)
| CNum (x : T)
| NaN.

Record DataFrame : Type := {
  columns : list string;
  data : list (list cell)
}.

Definition cell_of (o : option cell) : cell :=
  match o with
  | Some c => c
  | None => NaN
  end.

(** [pd.DataFrame(rows)] for a list of dicts. *)
Definition pd_DataFrame (rows : list (dict cell)) : DataFrame :=
  let cols := union_keys rows in
  {| columns := cols;
     data := map (fun r => map (fun c => cell_of (dict_find r c)) cols) rows |}.

(** [df[labels]]: the listed columns, in the listed order; a label that
    is not a column raises [KeyError]. *)
Definition df_getitem (df : DataFrame) (labels : list string) : result DataFrame :=
  match find (fun c => negb (mem c (columns df))) labels with
  | Some c => Raise (KeyError c)
  | None =>
      Ok {| columns := labels;
            data := map (fun row =>
                           map (fun c => cell_of (dict_find (combine (columns df) row) c))
                               labels)
                        (data df) |}
  end.

(** [df.loc[i, c]] *)
Definition df_loc (df : DataFrame) (i : nat) (c : string) : option cell :=
  match nth_error (data df) i with
  | Some row => dict_find (combine (columns df) row) c
  | None => None
  end.

(** ** The analysis *)

(** An element of [services]: a dict with exactly these three keys. *)
Record service : Type := {
  service_name : string;
  volume : T;
  variable_cost_per_unit : T
}.

(** The tiers of one service, by tier name; a tier is a dict with the
    keys ['price'] and ['percentage']. *)
Definition tier_set : Type := dict (dict T).

Definition schedule : Type := dict tier_set.

(** Lines 43-51: the body of the loop over [service_sliding_fee.items()];
    the state is [(total_revenue, tier_revenues)]. *)
Definition tier_body (volume : T) (st : T * dict T) (item : string * dict T)
  : result (T * dict T) :=
  let '(total_revenue, tier_revenues) := st in
  let '(tier, values) := item in
  percentage <- dict_get values "percentage" ;;
  let tier_volume := mul volume percentage in
  tier_price <- dict_get values "price" ;;
  let tier_revenue := mul tier_volume tier_price in
  let total_revenue := add total_revenue tier_revenue in
  Ok (total_revenue,
      if negb (String.eqb tier "Full Charges")
      then dict_set tier_revenues tier tier_revenue
      else tier_revenues).

(** Lines 63-72: the dict literal appended to [service_data]. *)
Definition result_row (service_name : string) (volume : T) (tier_revenues : dict T)
    (total_revenue total_variable_costs fixed_cost_per_service total_costs profit : T)
  : dict cell :=
  let r := dict_set [] "Service" (CStr service_name) in
  let r := dict_set r "Volume" (CNum volume) in
  let r := dict_update r (map (fun kv => (fst kv, CNum (snd kv))) tier_revenues) in
  let r := dict_set r "Total Revenue" (CNum total_revenue) in
  let r := dict_set r "Total Variable Costs" (CNum total_variable_costs) in
  let r := dict_set r "Fixed Costs" (CNum fixed_cost_per_service) in
  let r := dict_set r "Total Costs" (CNum total_costs) in
  dict_set r "Profit" (CNum profit).

(** Lines 33-72: the body of the loop over [services]; the state is
    [service_data] and the binding of the variable [tier_revenues]
    ([None] while it is unbound). *)
Definition service_body (sliding_fee_schedule : schedule) (fixed_cost_per_service : T)
    (st : list (dict cell) * option (dict T)) (s : service)
  : result (list (dict cell) * option (dict T)) :=
  let '(service_data, _) := st in
  let service_name := service_name s in
  let volume := volume s in
  let variable_cost_per_unit := variable_cost_per_unit s in
  let total_revenue := of_int 0 in
  service_sliding_fee <- dict_get sliding_fee_schedule service_name ;;
  let tier_revenues := [] in
  '(total_revenue, tier_revenues) <-
     foldM (tier_body volume) service_sliding_fee (total_revenue, tier_revenues) ;;
  let total_variable_costs := mul variable_cost_per_unit volume in
  let total_costs := add total_variable_costs fixed_cost_per_service in
  let profit := sub total_revenue total_costs in
  Ok (service_data ++
        [result_row service_name volume tier_revenues total_revenue
                    total_variable_costs fixed_cost_per_service total_costs profit],
      Some tier_revenues).

Definition totals_columns : list string :=
  ["Total Revenue"; "Total Variable Costs"; "Fixed Costs"; "Total Costs"; "Profit"].

Definition cvp_analysis_with_full_sliding_fee
    (services : list service) (sliding_fee_schedule : schedule) (total_fixed_costs : T)
  : result DataFrame :=
  let service_data := [] in
  let num_services := List.length services in
  fixed_cost_per_service <-
    (if Nat.eqb num_services 0 then Raise ZeroDivisionError
     else Ok (truediv total_fixed_costs (of_int num_services))) ;;
  '(service_data, tier_revenues) <-
     foldM (service_body sliding_fee_schedule fixed_cost_per_service)
           services (service_data, None) ;;
  let results_df := pd_DataFrame service_data in
  tier_revenues <-
    match tier_revenues with
    | Some d => Ok d
    | None => Raise (UnboundLocalError "tier_revenues")
    end ;;
  let column_order :=
    ["Service"; "Volume"] ++ dict_keys tier_revenues ++ totals_columns in
  df_getitem results_df column_order.

End Model.

Arguments cell T : clear implicits.
Arguments DataFrame T : clear implicits.
Arguments service T : clear implicits.
Arguments tier_set T : clear implicits.
Arguments schedule T : clear implicits.

(** ** Quantities the statements speak of *)

Section Quantities.

Context {T : Type} {NT : Number T}.

(** Lines 44-46 for one tier: [(volume * percentage) * price]. *)
Definition tier_revenue (volume : T) (values : dict T) : result T :=
  percentage <- dict_get values "percentage" ;;
  tier_price <- dict_get values "price" ;;
  Ok (mul (mul volume percentage) tier_price).

(** [sum(xs)]: from the left, starting at the int [0]. *)
Definition sum_list (xs : list T) : T := fold_left add xs (of_int 0).

(** The statements of line 51 alone, over the tiers and their revenues. *)
Definition record_tiers (tier_revenues : dict T) (kvs : list (string * T)) : dict T :=
  fold_left (fun d kv => if negb (String.eqb (fst kv) "Full Charges")
                         then dict_set d (fst kv) (snd kv) else d)
            kvs tier_revenues.

Definition not_full_charges (tier : string) : bool :=
  negb (String.eqb tier "Full Charges").

(** One pass of the loop over [services], apart from the accumulation:
    the row it appends and the [tier_revenues] it leaves bound. *)
Definition service_row (sliding_fee_schedule : schedule T) (fixed_cost_per_service : T)
    (s : service T) : result (dict (cell T) * dict T) :=
  service_sliding_fee <- dict_get sliding_fee_schedule (service_name s) ;;
  revs <- mapM (fun it => tier_revenue (volume s) (snd it)) service_sliding_fee ;;
  let total_revenue := sum_list revs in
  let tier_revenues := record_tiers [] (combine (dict_keys service_sliding_fee) revs) in
  let total_variable_costs := mul (variable_cost_per_unit s) (volume s) in
  let total_costs := add total_variable_costs fixed_cost_per_service in
  Ok (result_row (service_name s) (volume s) tier_revenues total_revenue
                 total_variable_costs fixed_cost_per_service total_costs
                 (sub total_revenue total_costs),
      tier_revenues).

(** The binding of a variable assigned in every pass of a loop. *)
Definition last_bound {A : Type} (before : option A) (xs : list A) : option A :=
  fold_left (fun _ x => Some x) xs before.

(** [df[c]], a column. *)
Definition df_column (df : DataFrame T) (c : string) : list (cell T) :=
  map (fun row => cell_of (dict_find (combine (columns df) row) c)) (data df).

(** The sum of the numbers of a column, added from the left starting at
    the int [0]; a missing value adds nothing.  It is the sum the
    statements on whole columns speak of.  Over exact numbers it is
    also the value of pandas' [Series.sum()]; in binary64 that method
    adds in another order and skips computed NaNs, and the dashboard,
    which calls it, has it as a parameter. *)
Definition series_sum (cells : list (cell T)) : T :=
  fold_left (fun acc c => match c with CNum x => add acc x | _ => acc end)
            cells (of_int 0).

(** Line 78. *)
Definition column_order (tier_revenues : dict T) : list string :=
  ["Service"; "Volume"] ++ dict_keys tier_revenues ++ totals_columns.

(** The table with the given rows under the given labels. *)
Definition table (rows : list (dict (cell T))) (labels : list string) : DataFrame T :=
  {| columns := labels;
     data := map (fun r => map (fun c => cell_of (dict_find r c)) labels) rows |}.

(** Structural validity of the inputs. *)
Definition has_key {V : Type} (d : dict V) (k : string) : bool :=
  match dict_find d k with Some _ => true | None => false end.

Definition tier_ok (values : dict T) : bool :=
  has_key values "percentage" && has_key values "price".

Definition service_ok (sliding_fee_schedule : schedule T) (s : service T) : bool :=
  match dict_find sliding_fee_schedule (service_name s) with
  | Some tiers => forallb (fun it => tier_ok (snd it)) tiers
  | None => false
  end.

Definition valid_input (services : list (service T)) (sliding_fee_schedule : schedule T)
  : Prop :=
  services <> [] /\ forallb (service_ok sliding_fee_schedule) services = true.

Fixpoint distinct (ks : list string) : bool :=
  match ks with
  | [] => true
  | k :: ks' => negb (mem k ks') && distinct ks'
  end.

(** Every tier set of the schedule is a dict: its tier names are distinct. *)
Definition schedule_wf (sliding_fee_schedule : schedule T) : Prop :=
  forallb (fun e => distinct (dict_keys (snd e))) sliding_fee_schedule = true.

(** [r] is [(volume * percentage) * price] for the tier [values]. *)
Definition is_tier_revenue (volume : T) (values : dict T) (r : T) : Prop :=
  exists percentage price,
    dict_find values "percentage" = Some percentage /\
    dict_find values "price" = Some price /\
    r = mul (mul volume percentage) price.

(** The key a tier without both of its fields fails on: line 44 reads
    ['percentage'] before line 45 reads ['price']. *)
Definition missing_field (values : dict T) : string :=
  if has_key values "percentage" then "price" else "percentage".

(** No tier set of the schedule has a tier of the given name. *)
Definition no_tier_named (name : string) (sliding_fee_schedule : schedule T) : Prop :=
  forallb (fun e => negb (mem name (dict_keys (snd e)))) sliding_fee_schedule = true.

(** The number of rows whose "Service" cell is the given name. *)
Definition rows_named (df : DataFrame T) (name : string) : nat :=
  List.length
    (filter (fun c => match c with CStr s => String.eqb s name | _ => false end)
            (df_column df "Service")).

End Quantities.

(** ** The same function over a store of objects

    Lists and dicts are mutable objects, and [services], the schedule
    and everything in them are references into one store, possibly
    shared.  This second embedding keeps the store: a value is a number,
    a string or a reference; reading goes through the store, [{}], [[]],
    a dict literal and a table allocate, [d[k] = v] and [append] write.
    Operands of the wrong kind raise [TypeError]. *)

Module Heap.

Section HeapModel.

Context {T : Type} {NT : Number T}.

Definition loc : Type := nat.

Inductive value : Type :=
| VNum (x : T)
| VStr (s : string)
| VRef (l : loc).

(** A table holds its cells itself; an absent cell is [NaN]. *)
Inductive object : Type :=
| OList (items : list value)
| ODict (items : dict value)
| OFrame (columns : list string) (data : list (list (option value))).

Definition heap : Type := list object.

(** A computation: its outcome and the store it leaves, also when it
    raises. *)
Definition M (A : Type) : Type := heap -> result A * heap.

Definition ret {A : Type} (a : A) : M A := fun h => (Ok a, h).

Definition raise {A : Type} (e : exception) : M A := fun h => (Raise e, h).

Definition lift {A : Type} (r : result A) : M A := fun h => (r, h).

Definition bind {A B : Type} (m : M A) (k : A -> M B) : M B :=
  fun h =>
    match m h with
    | (Ok a, h') => k a h'
    | (Raise e, h') => (Raise e, h')
    end.

Notation "x <~ m ;; k" := (bind m (fun x => k))
  (at level 61, m at next level, right associativity).

Definition alloc (o : object) : M value :=
  fun h => (Ok (VRef (List.length h)), h ++ [o]).

Definition load (v : value) : M object :=
  fun h =>
    match v with
    | VRef l =>
        match nth_error h l with
        | Some o => (Ok o, h)
        | None => (Raise TypeError, h)
        end
    | _ => (Raise TypeError, h)
    end.

(** The store with the object at [l] replaced. *)
Definition heap_set (l : loc) (o : object) (h : heap) : heap :=
  firstn l h ++ o :: skipn (S l) h.

Definition store (v : value) (o : object) : M unit :=
  fun h =>
    match v with
    | VRef l =>
        if Nat.ltb l (List.length h)
        then (Ok tt, heap_set l o h)
        else (Raise TypeError, h)
    | _ => (Raise TypeError, h)
    end.

Fixpoint for_each {A S : Type} (body : S -> A -> M S) (xs : list A) (s : S) : M S :=
  match xs with
  | [] => ret s
  | x :: xs' => s' <~ body s x ;; for_each body xs' s'
  end.

Fixpoint map_each {A B : Type} (f : A -> M B) (xs : list A) : M (list B) :=
  match xs with
  | [] => ret []
  | x :: xs' => y <~ f x ;; ys <~ map_each f xs' ;; ret (y :: ys)
  end.

(** The items of a list, of a dict. *)
Definition list_items (v : value) : M (list value) :=
  o <~ load v ;;
  match o with
  | OList xs => ret xs
  | _ => raise TypeError
  end.

Definition dict_items (v : value) : M (dict value) :=
  o <~ load v ;;
  match o with
  | ODict d => ret d
  | _ => raise TypeError
  end.

(** [d[k]], [d[k] = x], [l.append(x)] *)
Definition getitem (d : value) (k : string) : M value :=
  items <~ dict_items d ;; lift (dict_get items k).

Definition setitem (d : value) (k : string) (x : value) : M unit :=
  items <~ dict_items d ;; store d (ODict (dict_set items k x)).

Definition append (l x : value) : M unit :=
  xs <~ list_items l ;; store l (OList (xs ++ [x])).

Definition as_str (v : value) : M string :=
  match v with
  | VStr s => ret s
  | _ => raise TypeError
  end.

Definition arith (op : T -> T -> T) (a b : value) : M value :=
  match a, b with
  | VNum x, VNum y => ret (VNum (op x y))
  | _, _ => raise TypeError
  end.

(** [a / n] for an int [n]. *)
Definition truediv_int (a : value) (n : nat) : M value :=
  match a with
  | VNum x =>
      if Nat.eqb n 0 then raise ZeroDivisionError
      else ret (VNum (truediv x (of_int n)))
  | _ => raise TypeError
  end.

(** [pd.DataFrame(rows)] and [df[labels]] *)
Definition pd_DataFrame (rows : value) : M value :=
  refs <~ list_items rows ;;
  dicts <~ map_each dict_items refs ;;
  let cols := union_keys dicts in
  alloc (OFrame cols (map (fun r => map (fun c => dict_find r c) cols) dicts)).

Definition df_getitem (df : value) (labels : list string) : M value :=
  o <~ load df ;;
  match o with
  | OFrame cols data =>
      match find (fun c => negb (mem c cols)) labels with
      | Some c => raise (KeyError c)
      | None =>
          alloc (OFrame labels
                   (map (fun row =>
                           map (fun c => match dict_find (combine cols row) c with
                                         | Some cell => cell
                                         | None => None
                                         end)
                               labels)
                        data))
      end
  | _ => raise TypeError
  end.

(** Lines 43-51; [tier_revenues] is a reference, [total_revenue] the
    state of the loop. *)
Definition tier_body (volume tier_revenues : value) (total_revenue : value)
    (item : string * value) : M value :=
  let '(tier, values) := item in
  percentage <~ getitem values "percentage" ;;
  tier_volume <~ arith mul volume percentage ;;
  tier_price <~ getitem values "price" ;;
  tier_revenue <~ arith mul tier_volume tier_price ;;
  total_revenue <~ arith add total_revenue tier_revenue ;;
  _ <~ (if negb (String.eqb tier "Full Charges")
        then setitem tier_revenues tier tier_revenue
        else ret tt) ;;
  ret total_revenue.

Definition result_row (service_name volume : value) (tier_revenues : dict value)
    (total_revenue total_variable_costs fixed_cost_per_service total_costs profit : value)
  : dict value :=
  let r := dict_set [] "Service" service_name in
  let r := dict_set r "Volume" volume in
  let r := dict_update r tier_revenues in
  let r := dict_set r "Total Revenue" total_revenue in
  let r := dict_set r "Total Variable Costs" total_variable_costs in
  let r := dict_set r "Fixed Costs" fixed_cost_per_service in
  let r := dict_set r "Total Costs" total_costs in
  dict_set r "Profit" profit.

(** Lines 33-72; the state of the loop is the binding of the variable
    [tier_revenues]. *)
Definition service_body (sliding_fee_schedule fixed_cost_per_service service_data : value)
    (bound : option value) (service : value) : M (option value) :=
  service_name <~ getitem service "service_name" ;;
  volume <~ getitem service "volume" ;;
  variable_cost_per_unit <~ getitem service "variable_cost_per_unit" ;;
  let total_revenue := VNum (of_int 0) in
  key <~ as_str service_name ;;
  service_sliding_fee <~ getitem sliding_fee_schedule key ;;
  tier_revenues <~ alloc (ODict []) ;;
  items <~ dict_items service_sliding_fee ;;
  total_revenue <~ for_each (tier_body volume tier_revenues) items total_revenue ;;
  total_variable_costs <~ arith mul variable_cost_per_unit volume ;;
  total_costs <~ arith add total_variable_costs fixed_cost_per_service ;;
  profit <~ arith sub total_revenue total_costs ;;
  unpacked <~ dict_items tier_revenues ;;
  row <~ alloc (ODict (result_row service_name volume unpacked total_revenue
                                  total_variable_costs fixed_cost_per_service
                                  total_costs profit)) ;;
  _ <~ append service_data row ;;
  ret (Some tier_revenues).

Definition cvp_analysis_with_full_sliding_fee
    (services sliding_fee_schedule total_fixed_costs : value) : M value :=
  service_data <~ alloc (OList []) ;;
  elements <~ list_items services ;;
  let num_services := List.length elements in
  fixed_cost_per_service <~ truediv_int total_fixed_costs num_services ;;
  bound <~ for_each (service_body sliding_fee_schedule fixed_cost_per_service service_data)
                    elements None ;;
  results_df <~ pd_DataFrame service_data ;;
  tier_revenues <~ match bound with
                   | Some d => ret d
                   | None => raise (UnboundLocalError "tier_revenues")
                   end ;;
  unpacked <~ dict_items tier_revenues ;;
  let column_order := ["Service"; "Volume"] ++ dict_keys unpacked ++ totals_columns in
  df_getitem results_df column_order.

End HeapModel.

Arguments value T : clear implicits.
Arguments object T : clear implicits.
Arguments heap T : clear implicits.
Arguments M T A : clear implicits.

(** *** What a call may do to the store it is given *)

Section Frames.

Context {T : Type} {NT : Number T}.

(** The store at the call. *)
Variable h0 : heap T.

(** A later store [h] has every object of [h0] as it was. *)
Definition untouched (h : heap T) : Prop :=
  List.length h0 <= List.length h /\
  forall l, l < List.length h0 -> nth_error h l = nth_error h0 l.

(** A reference to an object allocated since. *)
Definition fresh (v : value T) : Prop :=
  match v with
  | VRef l => List.length h0 <= l
  | _ => False
  end.

(** [m] writes to no object of [h0], and its result satisfies [Q]. *)
Definition keeps {A : Type} (m : M T A) (Q : A -> heap T -> Prop) : Prop :=
  forall h, untouched h ->
    untouched (snd (m h)) /\
    forall a, fst (m h) = Ok a -> Q a (snd (m h)).

Definition anything {A : Type} : A -> heap T -> Prop := fun _ _ => True.

(** A table allocated since the call. *)
Definition new_table (v : value T) (h : heap T) : Prop :=
  exists l cols data,
    v = VRef l /\ List.length h0 <= l /\ nth_error h l = Some (OFrame cols data).

End Frames.

(** *** A store that holds the inputs of the first embedding *)

Section Representation.

Context {T : Type} {NT : Number T}.

(** A dict of numbers, as the store has it. *)
Definition num_dict (d : dict T) : dict (value T) :=
  map (fun kv => (fst kv, VNum (snd kv))) d.

Definition cell_value (c : cell T) : option (value T) :=
  match c with
  | CStr s => Some (VStr s)
  | CNum x => Some (VNum x)
  | NaN => None
  end.

(** [v] refers to a dict whose values refer to what [R] relates to the
    values of [xs], key by key. *)
Definition repr_dict {A : Type} (R : value T -> A -> Prop)
    (h : heap T) (v : value T) (xs : dict A) : Prop :=
  exists l d,
    v = VRef l /\ nth_error h l = Some (ODict d) /\
    Forall2 (fun kv kx => fst kv = fst kx /\ R (snd kv) (snd kx)) d xs.

Definition repr_tier (h : heap T) (v : value T) (t : dict T) : Prop :=
  exists l, v = VRef l /\ nth_error h l = Some (ODict (num_dict t)).

Definition repr_tier_set (h : heap T) : value T -> tier_set T -> Prop :=
  repr_dict (repr_tier h) h.

Definition repr_schedule (h : heap T) : value T -> schedule T -> Prop :=
  repr_dict (repr_tier_set h) h.

Definition repr_service (h : heap T) (v : value T) (s : service T) : Prop :=
  exists l d,
    v = VRef l /\ nth_error h l = Some (ODict d) /\
    dict_find d "service_name" = Some (VStr (service_name s)) /\
    dict_find d "volume" = Some (VNum (volume s)) /\
    dict_find d "variable_cost_per_unit" = Some (VNum (variable_cost_per_unit s)).

Definition repr_services (h : heap T) (v : value T) (ss : list (service T)) : Prop :=
  exists l xs,
    v = VRef l /\ nth_error h l = Some (OList xs) /\ Forall2 (repr_service h) xs ss.

(** [h'] is [h] with [o] at [l]. *)
Definition updated (l : loc) (o : object T) (h h' : heap T) : Prop :=
  List.length h' = List.length h /\
  nth_error h' l = Some o /\
  forall l', l' <> l -> nth_error h' l' = nth_error h l'.

(** The tiers of a tier set, in a store where [l_tr] is the dict bound
    to [tier_revenues]. *)
Definition tiers_at (l_tr : loc) (h : heap T)
    (items : dict (value T)) (tiers : tier_set T) : Prop :=
  Forall2 (fun kv kt =>
             fst kv = fst kt /\
             exists l, snd kv = VRef l /\ l <> l_tr /\
                       nth_error h l = Some (ODict (num_dict (snd kt))))
          items tiers.

(** A row dict of the store against the row of the first embedding. *)
Definition row_rel (r_h : dict (value T)) (r : dict (cell T)) : Prop :=
  dict_keys r_h = dict_keys r /\
  forall c, dict_find r_h c = cell_value (cell_of (dict_find r c)).

(** The state of the loop over [services] in the store: [service_data]
    is the list at [l_sd], its elements refer to the rows so far, and
    the variable [tier_revenues] refers to a dict of numbers. *)
Definition rows_at (l_sd : loc) (h : heap T)
    (refs : list (value T)) (rows : list (dict (cell T))) : Prop :=
  Forall2 (fun v r =>
             exists l r_h, v = VRef l /\ l <> l_sd /\
                           nth_error h l = Some (ODict r_h) /\ row_rel r_h r)
          refs rows.

Definition bound_at (l_sd : loc) (h : heap T)
    (bv : option (value T)) (b : option (dict T)) : Prop :=
  match bv, b with
  | None, None => True
  | Some v, Some tr =>
      exists l, v = VRef l /\ l <> l_sd /\ nth_error h l = Some (ODict (num_dict tr))
  | _, _ => False
  end.

Definition contains (h0 h : heap T) : Prop :=
  forall l o, nth_error h0 l = Some o -> nth_error h l = Some o.

Definition loop_inv (h0 h : heap T)
    (rows : list (dict (cell T))) (bv : option (value T)) (b : option (dict T)) : Prop :=
  contains h0 h /\
  (exists refs, nth_error h (List.length h0) = Some (OList refs) /\
                rows_at (List.length h0) h refs rows) /\
  bound_at (List.length h0) h bv b.

End Representation.

End Heap.

(** ** Example inputs *)

(** The rational [n / d]. *)
Definition q (n d : Z) : Qc := Q2Qc (Qmake n (Z.to_pos d)).

(** A tier with both of its fields. *)
Definition tier {T : Type} (price percentage : T) : dict T :=
  [("price", price); ("percentage", percentage)].

(** The example of the specification: one service, two tiers. *)
Definition ex_services : list (service Qc) :=
  [ {| service_name := "A"; volume := q 100 1; variable_cost_per_unit := q 10 1 |} ].

Definition ex_schedule : schedule Qc :=
  [ ("A", [ ("T1", tier (q 10 1) (q 1 2)); ("T2", tier (q 20 1) (q 1 2)) ]) ].

(** Two services with different tier sets, one of them with a tier
    "Full Charges". *)
Definition two_services : list (service Qc) :=
  [ {| service_name := "A"; volume := q 100 1; variable_cost_per_unit := q 10 1 |};
    {| service_name := "B"; volume := q 50 1; variable_cost_per_unit := q 4 1 |} ].

Definition two_schedule : schedule Qc :=
  [ ("A", [ ("T1", tier (q 10 1) (q 1 2)); ("T2", tier (q 20 1) (q 1 2)) ]);
    ("B", [ ("Slide A", tier (q 35 1) (q 1 4));
            ("Full Charges", tier (q 80 1) (q 1 2));
            ("Slide B", tier (q 45 1) (q 1 4)) ]) ].

(** The same name twice, with different volumes and costs. *)
Definition repeated_services : list (service Qc) :=
  [ {| service_name := "A"; volume := q 100 1; variable_cost_per_unit := q 10 1 |};
    {| service_name := "A"; volume := q 30 1; variable_cost_per_unit := q 7 1 |} ].

(** Percentages that sum to one half. *)
Definition half_schedule : schedule Qc :=
  [ ("A", [ ("T1", tier (q 10 1) (q 1 4)); ("T2", tier (q 20 1) (q 1 4)) ]) ].

(** A tier without ['percentage'], in the entry of "A" or in an entry
    that no service names. *)
Definition price_only : dict Qc := [("price", q 10 1)].

Definition malformed_schedule : schedule Qc :=
  [ ("A", [ ("T1", tier (q 10 1) (q 1 2)); ("T2", price_only) ]) ].

Definition unused_malformed_schedule : schedule Qc :=
  [ ("A", [ ("T1", tier (q 10 1) (q 1 2)); ("T2", tier (q 20 1) (q 1 2)) ]);
    ("Z", [ ("T1", price_only) ]) ].

(** The two services again, the second one with no volume. *)
Definition idle_services : list (service Qc) :=
  [ {| service_name := "A"; volume := q 100 1; variable_cost_per_unit := q 10 1 |};
    {| service_name := "B"; volume := q 0 1; variable_cost_per_unit := q 4 1 |} ].

(** Binary64 inputs: one unit at variable cost 0.1, sold at 0.3 in a
    single tier, with fixed costs 0.2. *)
Set Warnings "-inexact-float".

Definition float_services : list (service float) :=
  [ {| service_name := "A"; volume := 1%float; variable_cost_per_unit := 0.1%float |} ].

Definition float_schedule : schedule float :=
  [ ("A", [ ("T1", tier 0.3%float 1%float) ]) ].

Definition float_fixed_costs : float := 0.2%float.

(** Binary64 inputs near the largest float: one unit at variable cost
    1e308, sold at 1e308 in a single tier, with fixed costs 1e308. *)
Definition large_services : list (service float) :=
  [ {| service_name := "A"; volume := 1%float;
       variable_cost_per_unit := 1e308%float |} ].

Definition large_schedule : schedule float :=
  [ ("A", [ ("T1", tier 1e308%float 1%float) ]) ].

Definition large_fixed_costs : float := 1e308%float.

Definition large_fixed_costs_negated : float := (-1e308)%float.

Set Warnings "+inexact-float".

(** A value for each input field of the dashboard on the example of the
    specification: volume, cost, the two prices, the two percentages,
    the fixed costs. *)
Definition ex_args : list Qc :=
  [ q 120 1; q 9 1; q 12 1; q 24 1; q 1 4; q 3 4; q 500 1 ].

(** A value for each of the fifteen input fields of the two services. *)
Definition two_args : list Qc := repeat (q 1 1) 15.

(** A stand-in for the format of a number. *)
Definition ex_money (x : Qc) : string := "0.00".

(** A store that holds the example of the specification. *)
Definition ex_heap : Heap.heap Qc :=
  [ Heap.OList [Heap.VRef 1%nat];
    Heap.ODict [ ("service_name", Heap.VStr "A"); ("volume", Heap.VNum (q 100 1));
                 ("variable_cost_per_unit", Heap.VNum (q 10 1)) ];
    Heap.ODict [ ("A", Heap.VRef 3%nat) ];
    Heap.ODict [ ("T1", Heap.VRef 4%nat); ("T2", Heap.VRef 5%nat) ];
    Heap.ODict [ ("price", Heap.VNum (q 10 1)); ("percentage", Heap.VNum (q 1 2)) ];
    Heap.ODict [ ("price", Heap.VNum (q 20 1)); ("percentage", Heap.VNum (q 1 2)) ] ].

(** ** The chart and the dashboard

    [plot_profit_per_product] (CVP.py) and the Dash application
    (CVP_Dash.py): the components it lays out, the callback it
    declares, and [update_graph], which writes the values it is passed
    into the module's [services] and [sliding_fee_schedule] and runs
    the analysis on them.  A chart or a figure is the data it is made
    from; the two module variables are a state passed along, left as it
    is at the point where an exception is raised. *)

Set Warnings "-register-all,-abstract-large-number".

Module Dash.

(** What the application can raise on top of the analysis. *)
Inductive failure : Type :=
| IndexError
| Raised (e : exception).

Inductive outcome (A : Type) : Type :=
| Done (a : A)
| Failed (f : failure).

Arguments Done {A} a.
Arguments Failed {A} f.

Section DashModel.

Context {T : Type} {NT : Number T}.

(** [format(x, ',.2f')], the rendering of a number with thousands
    separators and two decimals. *)
Variable money : T -> string.

(** [Series.sum()], the sum pandas gives for a column.  It skips the
    missing values and, in binary64, the computed NaNs as well, and it
    does not add from the left there; over exact numbers it is
    [series_sum].  The statements use nothing of it but that it is a
    function of the column. *)
Variable Series_sum : list (cell T) -> T.

(** A [style] dict; a [Div] or a [Label] may have none. *)
Definition css : Type := list (string * string).

Inductive component : Type :=
| Div (children : list component) (style : option css)
| H1 (text : string) (style : css)
| H2 (id : string) (style : css)
| H3 (text : string)
| H4 (text : string)
| Label (text : string) (style : option css)
| Input (id : string) (type : string) (value : T) (placeholder : string) (style : css)
| Button (text : string) (id : string) (n_clicks : nat) (style : css)
| Graph (id : string) (style : css).

(** [df[c]] for one label: the column, or [KeyError].  (A label borne
    by several columns, which takes a tier named like a column of the
    totals, is not modelled: the first such column is the one read.) *)
Definition df_series (df : DataFrame T) (c : string) : result (list (cell T)) :=
  if mem c (columns df) then Ok (df_column df c) else Raise (KeyError c).

(** *** CVP.py, lines 85-109 *)

Record bar_chart : Type := {
  figsize : nat * nat;
  bar_x : list (cell T);
  bar_height : list (cell T);
  bar_color : string;
  chart_title : string;
  chart_xlabel : string;
  chart_ylabel : string;
  title_fontsize : nat;
  label_fontsize : nat;
  xticks_rotation : nat;
  xticks_ha : string;
  xticks_fontsize : nat
}.

Definition plot_profit_per_product (results_df : DataFrame T) : result bar_chart :=
  services <- df_series results_df "Service" ;;
  profits <- df_series results_df "Profit" ;;
  Ok {| figsize := (20, 10);
        bar_x := services;
        bar_height := profits;
        bar_color := "skyblue";
        chart_title := "Profit per Product (Service)";
        chart_xlabel := "Product (Service)";
        chart_ylabel := "Profit ($)";
        title_fontsize := 18;
        label_fontsize := 12;
        xticks_rotation := 30;
        xticks_ha := "right";
        xticks_fontsize := 10 |}.

(** *** CVP_Dash.py, lines 13-44: the input fields of a service *)

Definition input_style : css :=
  [("width", "80px"); ("margin-right", "10px"); ("padding", "5px")].

(** The element of the list comprehension of lines 29-36. *)
Definition tier_inputs (name : string) (item : string * dict T) : result component :=
  let '(tier, values) := item in
  price <- dict_get values "price" ;;
  percentage <- dict_get values "percentage" ;;
  Ok (Div [ Label (String.append tier " Price:")
                  (Some [("width", "100px"); ("display", "inline-block")]);
            Input (String.append name (String.append "-" (String.append tier "-price")))
                  "number" price "Price" input_style;
            Label (String.append tier " Percentage:")
                  (Some [("width", "120px"); ("display", "inline-block")]);
            Input (String.append name
                     (String.append "-" (String.append tier "-percentage")))
                  "number" percentage "Percentage"
                  [("width", "80px"); ("padding", "5px")] ]
          (Some [("margin-bottom", "5px")])).

Definition create_service_inputs (sliding_fee_schedule : schedule T) (service : service T)
  : result component :=
  let name := service_name service in
  tiers <- dict_get sliding_fee_schedule name ;;
  fields <- mapM (tier_inputs name) tiers ;;
  Ok (Div [ H4 name;
            Div [ Label "Volume:" None;
                  Input (String.append name "-volume") "number" (volume service)
                        "Volume" input_style;
                  Label "Variable Cost per Unit:" None;
                  Input (String.append name "-cost") "number"
                        (variable_cost_per_unit service) "Variable Cost" input_style ]
                (Some [("display", "flex"); ("align-items", "center");
                       ("margin-bottom", "10px")]);
            Label "Sliding Fee Tier Values:" None;
            Div fields None ]
          (Some [("border", "1px solid #ccc"); ("padding", "15px");
                 ("border-radius", "10px"); ("margin-bottom", "20px")])).

(** *** Lines 47-74: the layout *)

Definition app_layout (service_inputs : list component) : component :=
  Div [ H1 "CVP Analysis Dashboard" [("text-align", "center")];
        Div [ Label "Fixed Costs:" (Some [("margin-right", "10px")]);
              Input "fixed-cost-input" "number" (of_int 500000) "Fixed Costs"
                    [("width", "150px"); ("padding", "5px"); ("font-size", "16px")] ]
            (Some [("display", "flex"); ("align-items", "center");
                   ("justify-content", "flex-start"); ("margin-bottom", "20px")]);
        Div service_inputs
            (Some [("max-height", "30vh"); ("overflow-y", "auto");
                   ("border", "1px solid #ccc"); ("padding", "15px");
                   ("border-radius", "10px"); ("margin-left", "50px");
                   ("margin-right", "50px")]);
        Button "Update Graph" "update-graph-button" 0
               [("margin-top", "20px"); ("display", "block"); ("margin", "auto")];
        Div [ H3 "Total Profitability:";
              H2 "total-profitability"
                 [("color", "green"); ("text-align", "center"); ("font-size", "28px")] ]
            (Some [("margin-top", "30px"); ("text-align", "center")]);
        Graph "profit-graph" [("height", "60vh"); ("width", "80vw"); ("margin", "auto")] ]
      (Some [("position", "relative"); ("padding", "20px")]).

(** Lines 42-47 together: the loop that fills [service_inputs], then
    the layout. *)
Definition build_layout (services : list (service T)) (sliding_fee_schedule : schedule T)
  : result component :=
  service_inputs <- mapM (create_service_inputs sliding_fee_schedule) services ;;
  Ok (app_layout service_inputs).

(** *** Lines 78-89: what the callback declares *)

(** A dependency: a component id and a property of it. *)
Definition dependency : Type := (string * string)%type.

Definition callback_outputs : list dependency :=
  [("profit-graph", "figure"); ("total-profitability", "children")].

Definition callback_inputs : list dependency :=
  [("update-graph-button", "n_clicks")].

(** The [State]s of one kind of tier field, for every service and every
    tier of its schedule entry. *)
Definition tier_states (field : string)
    (services : list (service T)) (sliding_fee_schedule : schedule T)
  : result (list (list dependency)) :=
  mapM (fun service =>
          tiers <- dict_get sliding_fee_schedule (service_name service) ;;
          Ok (map (fun tier =>
                     (String.append (service_name service)
                        (String.append "-" (String.append tier field)), "value"))
                  (dict_keys tiers)))
       services.

Definition callback_states (services : list (service T)) (sliding_fee_schedule : schedule T)
  : result (list dependency) :=
  let volumes :=
    map (fun s => (String.append (service_name s) "-volume", "value")) services in
  let costs :=
    map (fun s => (String.append (service_name s) "-cost", "value")) services in
  prices <- tier_states "-price" services sliding_fee_schedule ;;
  percentages <- tier_states "-percentage" services sliding_fee_schedule ;;
  Ok (volumes ++ costs ++ List.concat prices ++ List.concat percentages ++
      [("fixed-cost-input", "value")]).

(** *** Lines 90-124: [update_graph] *)

(** [args[i]] for [i >= 0]. *)
Definition arg (args : list T) (i : nat) : outcome T :=
  match nth_error args i with
  | Some x => Done x
  | None => Failed IndexError
  end.

(** [args[-1]] *)
Definition last_arg (args : list T) : outcome T :=
  match args with
  | [] => Failed IndexError
  | _ => arg args (List.length args - 1)
  end.

(** Lines 95-99: the state is [services], the index is [arg_index]. *)
Fixpoint update_services (args : list T) (n : nat) (arg_index : nat)
    (services : list (service T)) : outcome unit * list (service T) :=
  match services with
  | [] => (Done tt, [])
  | service :: rest =>
      match arg args arg_index with
      | Failed f => (Failed f, service :: rest)
      | Done v =>
          let service :=
            {| service_name := service_name service;
               volume := v;
               variable_cost_per_unit := variable_cost_per_unit service |} in
          match arg args (n + arg_index) with
          | Failed f => (Failed f, service :: rest)
          | Done c =>
              let service :=
                {| service_name := service_name service;
                   volume := volume service;
                   variable_cost_per_unit := c |} in
              let '(r, rest') := update_services args n (S arg_index) rest in
              (r, service :: rest')
          end
      end
  end.

(** [sliding_fee_schedule[name][tier][field] = x] *)
Definition set_field (sliding_fee_schedule : schedule T) (name tier field : string) (x : T)
  : result (schedule T) :=
  tiers <- dict_get sliding_fee_schedule name ;;
  values <- dict_get tiers tier ;;
  Ok (dict_set sliding_fee_schedule name
        (dict_set tiers tier (dict_set values field x))).

(** [len(sliding_fee_schedule[name])] *)
Definition tier_count (sliding_fee_schedule : schedule T) (name : string) : result nat :=
  tiers <- dict_get sliding_fee_schedule name ;;
  Ok (List.length tiers).

Definition of_result {A : Type} (r : result A) : outcome A :=
  match r with
  | Ok a => Done a
  | Raise e => Failed (Raised e)
  end.

(** Lines 104-109, for the tier of index [j] of the service of index
    [i]; the right-hand side of each assignment is evaluated before its
    target. *)
Definition update_tier (args : list T) (n i j : nat) (name tier : string)
    (sliding_fee_schedule : schedule T) : outcome unit * schedule T :=
  match of_result (tier_count sliding_fee_schedule name) with
  | Failed f => (Failed f, sliding_fee_schedule)
  | Done m =>
      match arg args (2 * n + i * m + j) with
      | Failed f => (Failed f, sliding_fee_schedule)
      | Done price =>
          match of_result (set_field sliding_fee_schedule name tier "price" price) with
          | Failed f => (Failed f, sliding_fee_schedule)
          | Done schedule1 =>
              match of_result (tier_count schedule1 name) with
              | Failed f => (Failed f, schedule1)
              | Done m1 =>
                  match arg args (2 * n + n * m1 + i * m1 + j) with
                  | Failed f => (Failed f, schedule1)
                  | Done percentage =>
                      match of_result
                              (set_field schedule1 name tier "percentage" percentage)
                      with
                      | Failed f => (Failed f, schedule1)
                      | Done schedule2 => (Done tt, schedule2)
                      end
                  end
              end
          end
      end
  end.

(** The loop of line 103 over the tier names of one service. *)
Fixpoint update_tiers (args : list T) (n i j : nat) (name : string)
    (tiers : list string) (sliding_fee_schedule : schedule T)
  : outcome unit * schedule T :=
  match tiers with
  | [] => (Done tt, sliding_fee_schedule)
  | tier :: rest =>
      match update_tier args n i j name tier sliding_fee_schedule with
      | (Failed f, schedule1) => (Failed f, schedule1)
      | (Done _, schedule1) => update_tiers args n i (S j) name rest schedule1
      end
  end.

(** The loop of line 102 over the service names. *)
Fixpoint update_schedule (args : list T) (n i : nat) (names : list string)
    (sliding_fee_schedule : schedule T) : outcome unit * schedule T :=
  match names with
  | [] => (Done tt, sliding_fee_schedule)
  | name :: rest =>
      match of_result (dict_get sliding_fee_schedule name) with
      | Failed f => (Failed f, sliding_fee_schedule)
      | Done tiers =>
          match update_tiers args n i 0 name (dict_keys tiers) sliding_fee_schedule with
          | (Failed f, schedule1) => (Failed f, schedule1)
          | (Done _, schedule1) => update_schedule args n (S i) rest schedule1
          end
      end
  end.

(** The figure of [px.bar(results_df, x='Service', y='Profit', ...)]. *)
Record figure : Type := {
  fig_x : list (cell T);
  fig_y : list (cell T);
  fig_title : string;
  fig_height : nat;
  fig_width : nat
}.

Inductive update : Type :=
| no_update
| Updated (fig : figure) (total_profitability : string).

(** The module variables [services] and [sliding_fee_schedule]. *)
Definition globals : Type := (list (service T) * schedule T)%type.

(** Lines 114-124, on the updated module variables. *)
Definition recompute (fixed_costs : T) (g : globals) : result update :=
  results_df <- cvp_analysis_with_full_sliding_fee (fst g) (snd g) fixed_costs ;;
  profits <- df_series results_df "Profit" ;;
  let total_profitability := Series_sum profits in
  xs <- df_series results_df "Service" ;;
  ys <- df_series results_df "Profit" ;;
  let fig := {| fig_x := xs; fig_y := ys;
                fig_title := "Profit Per Product (Service)";
                fig_height := 800; fig_width := 1500 |} in
  Ok (Updated fig (String.append "$" (money total_profitability))).

Definition update_graph (n_clicks : nat) (args : list T) (g : globals)
  : outcome update * globals :=
  if Nat.eqb n_clicks 0 then (Done no_update, g)
  else
    let '(services, sliding_fee_schedule) := g in
    let n := List.length services in
    match update_services args n 0 services with
    | (Failed f, services1) => (Failed f, (services1, sliding_fee_schedule))
    | (Done _, services1) =>
        match update_schedule args n 0 (map service_name services1) sliding_fee_schedule
        with
        | (Failed f, schedule1) => (Failed f, (services1, schedule1))
        | (Done _, schedule1) =>
            match last_arg args with
            | Failed f => (Failed f, (services1, schedule1))
            | Done fixed_costs =>
                (of_result (recompute fixed_costs (services1, schedule1)),
                 (services1, schedule1))
            end
        end
    end.

(** *** What the statements speak of *)

(** The id and the value of every [dcc.Input] of a component, in
    document order. *)
Fixpoint inputs_of (c : component) : list (string * T) :=
  match c with
  | Div children _ => flat_map inputs_of children
  | Input id _ value _ _ => [(id, value)]
  | _ => []
  end.

(** The ids of a component. *)
Fixpoint ids_of (c : component) : list string :=
  match c with
  | Div children _ => flat_map ids_of children
  | H2 id _ => [id]
  | Input id _ _ _ _ => [id]
  | Button _ id _ _ => [id]
  | Graph id _ => [id]
  | _ => []
  end.

(** What the callback is passed for its [State]s: for each one the
    [value] of the component of that id. *)
Definition state_values (layout : component) (states : list dependency)
  : result (list T) :=
  mapM (fun d => dict_get (inputs_of layout) (fst d)) states.

(** [sliding_fee_schedule[name][tier][field]], where there is one. *)
Definition schedule_field (sliding_fee_schedule : schedule T) (name tier field : string)
  : option T :=
  match dict_find sliding_fee_schedule name with
  | Some tiers =>
      match dict_find tiers tier with
      | Some values => dict_find values field
      | None => None
      end
  | None => None
  end.

(** A schedule of the same entries and tiers, in the same order, whose
    tiers have at least the same fields. *)
Definition tier_le (it it' : string * dict T) : Prop :=
  fst it' = fst it /\
  forall k, has_key (snd it) k = true -> has_key (snd it') k = true.

Definition entry_le (e e' : string * tier_set T) : Prop :=
  fst e' = fst e /\ Forall2 tier_le (snd e) (snd e').

Definition schedule_le (sliding_fee_schedule schedule' : schedule T) : Prop :=
  Forall2 entry_le sliding_fee_schedule schedule'.

(** Every schedule entry that a service names has [m] tiers. *)
Definition uniform_tiers (m : nat) (services : list (service T))
    (sliding_fee_schedule : schedule T) : Prop :=
  forallb (fun s => match dict_find sliding_fee_schedule (service_name s) with
                    | Some tiers => Nat.eqb (List.length tiers) m
                    | None => false
                    end) services = true.

End DashModel.

Arguments component T : clear implicits.
Arguments bar_chart T : clear implicits.
Arguments figure T : clear implicits.
Arguments update T : clear implicits.
Arguments globals T : clear implicits.

End Dash.

Set Warnings "+register-all,+abstract-large-number".

(** ** Dictionaries: lookup and update *)

Section DictFacts.

Context {V : Type}.
Implicit Types (d : dict V) (k : string) (v : V).

Lemma mem_In k ks : mem k ks = true <-> In k ks.
Proof.
  unfold mem. rewrite existsb_exists. split.
  - intros [x [Hin Heq]]. apply String.eqb_eq in Heq. now subst.
  - intros Hin. exists k. split; [assumption | apply String.eqb_refl].
Qed.

Lemma mem_false k ks : mem k ks = false <-> ~ In k ks.
Proof.
  rewrite <- mem_In. destruct (mem k ks); split; congruence.
Qed.

Lemma distinct_NoDup ks : distinct ks = true <-> NoDup ks.
Proof.
  induction ks as [|k ks IH]; simpl.
  - split; [constructor | reflexivity].
  - rewrite andb_true_iff, negb_true_iff, mem_false, IH. split.
    + intros [H1 H2]. now constructor.
    + intros H. inversion H; subst. now split.
Qed.

Lemma dict_find_set_same d k v : dict_find (dict_set d k v) k = Some v.
Proof.
  induction d as [|[k' v'] d IH]; simpl.
  - now rewrite String.eqb_refl.
  - destruct (String.eqb k k') eqn:E; simpl; rewrite E; [reflexivity | exact IH].
Qed.

Lemma dict_find_set_other d k k' v :
  k <> k' -> dict_find (dict_set d k' v) k = dict_find d k.
Proof.
  intros Hne. induction d as [|[k0 v0] d IH]; simpl.
  - apply String.eqb_neq in Hne. now rewrite Hne.
  - destruct (String.eqb k' k0) eqn:E; simpl.
    + apply String.eqb_eq in E. subst k0.
      apply String.eqb_neq in Hne. now rewrite Hne.
    + now rewrite IH.
Qed.

Lemma dict_keys_set d k v x :
  In x (dict_keys (dict_set d k v)) <-> x = k \/ In x (dict_keys d).
Proof.
  induction d as [|[k' v'] d IH]; simpl.
  - intuition.
  - destruct (String.eqb k k') eqn:E; simpl.
    + apply String.eqb_eq in E. subst k'. intuition.
    + rewrite IH. intuition.
Qed.

Lemma dict_set_fresh d k v :
  ~ In k (dict_keys d) -> dict_set d k v = d ++ [(k, v)].
Proof.
  induction d as [|[k' v'] d IH]; simpl; intros Hnin.
  - reflexivity.
  - destruct (String.eqb k k') eqn:E.
    + apply String.eqb_eq in E. subst. exfalso. apply Hnin. now left.
    + rewrite IH; [reflexivity | intuition].
Qed.

Lemma dict_find_In_keys d k : In k (dict_keys d) <-> dict_find d k <> None.
Proof.
  induction d as [|[k' v'] d IH]; simpl.
  - intuition.
  - destruct (String.eqb k k') eqn:E.
    + apply String.eqb_eq in E. subst. split; [discriminate | now left].
    + apply String.eqb_neq in E. rewrite <- IH. split.
      * intros [H | H]; [congruence | assumption].
      * now right.
Qed.

Lemma dict_keys_update d other x :
  In x (dict_keys (dict_update d other)) <-> In x (dict_keys d) \/ In x (dict_keys other).
Proof.
  unfold dict_update. revert d.
  induction other as [|[k v] other IH]; simpl; intros d.
  - intuition.
  - rewrite IH, dict_keys_set. simpl. intuition.
Qed.

Lemma dict_find_combine_map (f : string -> V) cols k :
  In k cols -> dict_find (combine cols (map f cols)) k = Some (f k).
Proof.
  induction cols as [|c cols IH]; simpl; intros Hin.
  - contradiction.
  - destruct (String.eqb k c) eqn:E.
    + apply String.eqb_eq in E. now subst.
    + apply String.eqb_neq in E. apply IH. destruct Hin; congruence.
Qed.

Lemma dict_find_combine_None (f : string -> V) cols k :
  ~ In k cols -> dict_find (combine cols (map f cols)) k = None.
Proof.
  induction cols as [|c cols IH]; simpl; intros Hnin.
  - reflexivity.
  - destruct (String.eqb k c) eqn:E.
    + apply String.eqb_eq in E. subst. exfalso. apply Hnin. now left.
    + apply IH. intuition.
Qed.

End DictFacts.

(** ** The two loops *)

Section Loops.

Context {T : Type} {NT : Number T}.

Lemma bind_Ok_inv {A B : Type} (m : result A) (k : A -> result B) (b : B) :
  bind m k = Ok b -> exists a, m = Ok a /\ k a = Ok b.
Proof.
  destruct m as [a|e]; simpl; intros H; [now exists a | discriminate].
Qed.

Lemma mapM_length {A B : Type} (f : A -> result B) xs ys :
  mapM f xs = Ok ys -> List.length ys = List.length xs.
Proof.
  revert ys. induction xs as [|x xs IH]; simpl; intros ys H.
  - now inversion H.
  - apply bind_Ok_inv in H. destruct H as [y [_ H]].
    apply bind_Ok_inv in H. destruct H as [ys' [Hys H]].
    inversion H; subst. simpl. f_equal. now apply IH.
Qed.

Lemma mapM_nth_error {A B : Type} (f : A -> result B) xs ys i x :
  mapM f xs = Ok ys -> nth_error xs i = Some x ->
  exists y, nth_error ys i = Some y /\ f x = Ok y.
Proof.
  revert ys i. induction xs as [|x0 xs IH]; simpl; intros ys i H Hn.
  - destruct i; discriminate.
  - apply bind_Ok_inv in H. destruct H as [y [Hy H]].
    apply bind_Ok_inv in H. destruct H as [ys' [Hys H]].
    inversion H; subst. destruct i as [|i]; simpl in *.
    + inversion Hn; subst. now exists y.
    + now apply IH.
Qed.

Lemma mapM_total {A B : Type} (f : A -> result B) xs :
  (forall x, In x xs -> exists y, f x = Ok y) -> exists ys, mapM f xs = Ok ys.
Proof.
  induction xs as [|x xs IH]; simpl; intros H.
  - now exists [].
  - destruct (H x) as [y Hy]; [now left |].
    destruct IH as [ys Hys]; [intros; apply H; now right |].
    exists (y :: ys). now rewrite Hy, Hys.
Qed.

Lemma tier_body_eq volume total_revenue tier_revenues tier values :
  tier_body volume (total_revenue, tier_revenues) (tier, values) =
  (r <- tier_revenue volume values ;;
   Ok (add total_revenue r,
       if not_full_charges tier then dict_set tier_revenues tier r else tier_revenues)).
Proof.
  unfold tier_body, tier_revenue, not_full_charges.
  destruct (dict_get values "percentage"); simpl; [|reflexivity].
  destruct (dict_get values "price"); reflexivity.
Qed.

Lemma foldM_tier_body volume items total_revenue tier_revenues :
  foldM (tier_body volume) items (total_revenue, tier_revenues) =
  (revs <- mapM (fun it => tier_revenue volume (snd it)) items ;;
   Ok (fold_left add revs total_revenue,
       record_tiers tier_revenues (combine (dict_keys items) revs))).
Proof.
  revert total_revenue tier_revenues.
  induction items as [|[tier values] items IH]; intros tot tr; cbn [foldM mapM snd].
  - reflexivity.
  - rewrite tier_body_eq.
    destruct (tier_revenue volume values) as [r|e]; simpl; [|reflexivity].
    rewrite IH.
    destruct (mapM _ items) as [revs|e]; simpl; reflexivity.
Qed.

Lemma service_body_eq sliding_fee_schedule fixed service_data bound s :
  service_body sliding_fee_schedule fixed (service_data, bound) s =
  (rt <- service_row sliding_fee_schedule fixed s ;;
   Ok (service_data ++ [fst rt], Some (snd rt))).
Proof.
  unfold service_body, service_row.
  destruct (dict_get sliding_fee_schedule (service_name s)) as [tiers|e]; simpl;
    [|reflexivity].
  rewrite foldM_tier_body.
  destruct (mapM _ tiers) as [revs|e]; simpl; reflexivity.
Qed.

Lemma foldM_service_body sliding_fee_schedule fixed services service_data bound :
  foldM (service_body sliding_fee_schedule fixed) services (service_data, bound) =
  (rs <- mapM (service_row sliding_fee_schedule fixed) services ;;
   Ok (service_data ++ map fst rs, last_bound bound (map snd rs))).
Proof.
  revert service_data bound.
  induction services as [|s services IH]; intros sd bound; cbn [foldM mapM].
  - simpl. now rewrite app_nil_r.
  - rewrite service_body_eq.
    destruct (service_row sliding_fee_schedule fixed s) as [[row tr]|e]; simpl;
      [|reflexivity].
    rewrite IH.
    destruct (mapM _ services) as [rs|e]; simpl; [|reflexivity].
    now rewrite <- app_assoc.
Qed.

(** What line 51 leaves in [tier_revenues] when the tier names are
    distinct: the tiers other than "Full Charges", in order. *)
Lemma record_tiers_distinct (tr : dict T) (kvs : list (string * T)) :
  NoDup (dict_keys tr ++ dict_keys kvs) ->
  record_tiers tr kvs = tr ++ filter (fun kv => not_full_charges (fst kv)) kvs.
Proof.
  revert tr. induction kvs as [|[k v] kvs IH]; intros tr Hnd; simpl.
  - now rewrite app_nil_r.
  - unfold record_tiers in *. simpl. fold (not_full_charges k).
    assert (Hk : ~ In k (dict_keys tr)).
    { intros Hin. apply NoDup_remove_2 in Hnd. apply Hnd.
      apply in_or_app. now left. }
    destruct (not_full_charges k).
    + rewrite IH.
      * rewrite dict_set_fresh by assumption. now rewrite <- app_assoc.
      * rewrite dict_set_fresh by assumption.
        unfold dict_keys. rewrite map_app. simpl. rewrite <- app_assoc. exact Hnd.
    + apply IH. simpl in Hnd. now apply NoDup_remove_1 in Hnd.
Qed.

Lemma dict_keys_combine {A : Type} (ks : list string) (vs : list A) :
  List.length vs = List.length ks -> dict_keys (combine ks vs) = ks.
Proof.
  revert vs. induction ks as [|k ks IH]; intros [|v vs]; simpl; intros H;
    try reflexivity; try discriminate.
  f_equal. apply IH. now inversion H.
Qed.

Lemma dict_keys_filter {A : Type} (p : string -> bool) (d : dict A) :
  dict_keys (filter (fun kv => p (fst kv)) d) = filter p (dict_keys d).
Proof.
  induction d as [|[k v] d IH]; simpl; [reflexivity |].
  destruct (p k); simpl; now rewrite IH.
Qed.

End Loops.

(** ** Tables: construction, selection, lookup *)

Section Tables.

Context {T : Type} {NT : Number T}.

Lemma add_labels_In cols ks x :
  In x (add_labels cols ks) <-> In x cols \/ In x ks.
Proof.
  unfold add_labels. revert cols.
  induction ks as [|k ks IH]; intros cols; simpl.
  - intuition.
  - rewrite IH. destruct (mem k cols) eqn:E.
    + apply mem_In in E. split.
      * intros [H | H]; [now left | right; now right].
      * intros [H | [H | H]]; [now left | subst; now left | now right].
    + rewrite in_app_iff. simpl. tauto.
Qed.

Lemma fold_add_labels_In (rows : list (dict (cell T))) acc x :
  In x (fold_left (fun a r => add_labels a (dict_keys r)) rows acc) <->
  In x acc \/ exists r, In r rows /\ In x (dict_keys r).
Proof.
  revert acc. induction rows as [|r rows IH]; intros acc; simpl.
  - split; [now left | intros [H | [r [[] _]]]; exact H].
  - rewrite IH, add_labels_In. split.
    + intros [[H | H] | [r' [H1 H2]]].
      * now left.
      * right. exists r. split; [now left | assumption].
      * right. exists r'. split; [now right | assumption].
    + intros [H | [r' [[H1 | H1] H2]]].
      * left. now left.
      * subst. left. now right.
      * right. now exists r'.
Qed.

Lemma union_keys_In (rows : list (dict (cell T))) r x :
  In r rows -> In x (dict_keys r) -> In x (union_keys rows).
Proof.
  intros Hr Hx. unfold union_keys. apply fold_add_labels_In.
  right. now exists r.
Qed.

Lemma df_getitem_pd (rows : list (dict (cell T))) labels :
  (forall c, In c labels -> In c (union_keys rows)) ->
  df_getitem (pd_DataFrame rows) labels = Ok (table rows labels).
Proof.
  intros Hsub. unfold df_getitem, pd_DataFrame, table. cbn [columns data].
  destruct (find _ labels) as [c|] eqn:Hf.
  - apply find_some in Hf. destruct Hf as [Hin Hc].
    apply negb_true_iff, mem_false in Hc. exfalso. apply Hc. now apply Hsub.
  - do 2 f_equal. rewrite map_map. apply map_ext. intros r.
    apply map_ext_in. intros c Hc.
    rewrite dict_find_combine_map by now apply Hsub. reflexivity.
Qed.

Lemma df_loc_selected (rows : list (dict (cell T))) labels i r c :
  nth_error rows i = Some r -> In c labels ->
  df_loc (table rows labels) i c = Some (cell_of (dict_find r c)).
Proof.
  intros Hn Hc. unfold df_loc, table. cbn [columns data].
  rewrite nth_error_map, Hn. simpl.
  exact (dict_find_combine_map (fun c0 => cell_of (dict_find r c0)) labels c Hc).
Qed.

Lemma df_column_selected (rows : list (dict (cell T))) labels c :
  In c labels ->
  df_column (table rows labels) c = map (fun r => cell_of (dict_find r c)) rows.
Proof.
  intros Hc. unfold df_column, table. cbn [columns data]. rewrite map_map.
  apply map_ext. intros r.
  now rewrite (dict_find_combine_map (fun c0 => cell_of (dict_find r c0)) labels c Hc).
Qed.

(** The dict literal of lines 63-72: its keys, and the values under the
    five keys written after the unpacked [tier_revenues]. *)
Lemma result_row_keys name vol (tr : dict T) rev tvc fixed tc profit x :
  In x (column_order tr) ->
  In x (dict_keys (result_row name vol tr rev tvc fixed tc profit)).
Proof.
  intros Hx. unfold column_order in Hx. unfold result_row.
  repeat rewrite dict_keys_set. rewrite dict_keys_update.
  repeat rewrite dict_keys_set.
  unfold dict_keys at 2. rewrite map_map. simpl map at 1.
  rewrite in_app_iff in Hx. destruct Hx as [Hx | Hx].
  - simpl in Hx. intuition.
  - rewrite in_app_iff in Hx. destruct Hx as [Hx | Hx].
    + do 5 right. right. exact Hx.
    + simpl in Hx. intuition.
Qed.

Ltac find_set :=
  repeat first
    [ rewrite dict_find_set_same; reflexivity
    | rewrite dict_find_set_other by discriminate ].

Lemma result_row_totals name vol (tr : dict T) rev tvc fixed tc profit :
  let row := result_row name vol tr rev tvc fixed tc profit in
  dict_find row "Total Revenue" = Some (CNum rev) /\
  dict_find row "Total Variable Costs" = Some (CNum tvc) /\
  dict_find row "Fixed Costs" = Some (CNum fixed) /\
  dict_find row "Total Costs" = Some (CNum tc) /\
  dict_find row "Profit" = Some (CNum profit).
Proof.
  unfold result_row. cbv zeta. repeat split; find_set.
Qed.

End Tables.

(** ** The function as a whole *)

Section Run.

Context {T : Type} {NT : Number T}.

Implicit Types (services : list (service T)) (sliding_fee_schedule : schedule T).

Lemma mapM_In {A B : Type} (f : A -> result B) xs ys y :
  mapM f xs = Ok ys -> In y ys -> exists x, In x xs /\ f x = Ok y.
Proof.
  revert ys. induction xs as [|x xs IH]; simpl; intros ys H Hin.
  - inversion H; subst. contradiction.
  - apply bind_Ok_inv in H. destruct H as [y0 [Hy0 H]].
    apply bind_Ok_inv in H. destruct H as [ys' [Hys H]].
    inversion H; subst. destruct Hin as [Hin | Hin].
    + subst. exists x. split; [now left | assumption].
    + destruct (IH _ Hys Hin) as [x' [Hx' Hf]]. exists x'. split; [now right | assumption].
Qed.

Lemma service_row_inv sliding_fee_schedule fixed s row tr :
  service_row sliding_fee_schedule fixed s = Ok (row, tr) ->
  exists tiers revs,
    dict_find sliding_fee_schedule (service_name s) = Some tiers /\
    mapM (fun it => tier_revenue (volume s) (snd it)) tiers = Ok revs /\
    tr = record_tiers [] (combine (dict_keys tiers) revs) /\
    row = result_row (service_name s) (volume s) tr (sum_list revs)
            (mul (variable_cost_per_unit s) (volume s)) fixed
            (add (mul (variable_cost_per_unit s) (volume s)) fixed)
            (sub (sum_list revs) (add (mul (variable_cost_per_unit s) (volume s)) fixed)).
Proof.
  unfold service_row, dict_get. intros H.
  destruct (dict_find sliding_fee_schedule (service_name s)) as [tiers|];
    [|discriminate]. simpl in H.
  destruct (mapM _ tiers) as [revs|] eqn:Hrevs; [|discriminate]. simpl in H.
  inversion H; subst. exists tiers, revs. repeat split; auto.
Qed.

Lemma last_bound_last {A : Type} (before : option A) (xs : list A) (x : A) :
  last_bound before (xs ++ [x]) = Some x.
Proof.
  unfold last_bound. now rewrite fold_left_app.
Qed.

Lemma nonempty_length {A : Type} (xs : list A) :
  xs <> [] -> Nat.eqb (List.length xs) 0 = false.
Proof.
  destruct xs; [congruence | reflexivity].
Qed.

(** An empty [services] stops at the division of line 30. *)
Lemma cvp_empty sliding_fee_schedule total_fixed_costs :
  cvp_analysis_with_full_sliding_fee [] sliding_fee_schedule total_fixed_costs =
  Raise ZeroDivisionError.
Proof. reflexivity. Qed.

(** Otherwise an exception of the loop is the exception of the call. *)
Lemma cvp_raise services sliding_fee_schedule total_fixed_costs e :
  services <> [] ->
  mapM (service_row sliding_fee_schedule
          (truediv total_fixed_costs (of_int (List.length services)))) services
  = Raise e ->
  cvp_analysis_with_full_sliding_fee services sliding_fee_schedule total_fixed_costs
  = Raise e.
Proof.
  intros Hne Hm. unfold cvp_analysis_with_full_sliding_fee.
  rewrite (nonempty_length _ Hne). cbn [bind].
  rewrite foldM_service_body, Hm. reflexivity.
Qed.

(** And when the loop completes, the selection of line 80 succeeds. *)
Lemma cvp_run services sliding_fee_schedule total_fixed_costs rs :
  services <> [] ->
  mapM (service_row sliding_fee_schedule
          (truediv total_fixed_costs (of_int (List.length services)))) services
  = Ok rs ->
  exists tr,
    last_bound None (map snd rs) = Some tr /\
    cvp_analysis_with_full_sliding_fee services sliding_fee_schedule total_fixed_costs
    = Ok (table (map fst rs) (column_order tr)).
Proof.
  intros Hne Hm. unfold cvp_analysis_with_full_sliding_fee.
  rewrite (nonempty_length _ Hne). cbn [bind].
  rewrite foldM_service_body, Hm. cbn [bind app].
  assert (Hrs : rs <> []).
  { intros ->. apply mapM_length in Hm. destruct services; [congruence | discriminate]. }
  destruct (exists_last Hrs) as [rs' [[row tr] Hlast]].
  exists tr. subst rs. rewrite map_app. cbn [map snd].
  rewrite last_bound_last. split; [reflexivity |]. cbn [bind].
  apply df_getitem_pd. intros c Hc.
  apply union_keys_In with (r := row).
  - rewrite map_app, in_app_iff. right. now left.
  - destruct (mapM_In _ _ _ (row, tr) Hm) as [s [_ Hs]].
    { rewrite in_app_iff. right. now left. }
    apply service_row_inv in Hs.
    destruct Hs as [tiers [revs [_ [_ [_ Hrow]]]]]. rewrite Hrow.
    now apply result_row_keys.
Qed.

Lemma cvp_Ok_inv services sliding_fee_schedule total_fixed_costs df :
  cvp_analysis_with_full_sliding_fee services sliding_fee_schedule total_fixed_costs
  = Ok df ->
  services <> [] /\
  exists rs tr,
    mapM (service_row sliding_fee_schedule
            (truediv total_fixed_costs (of_int (List.length services)))) services
    = Ok rs /\
    last_bound None (map snd rs) = Some tr /\
    df = table (map fst rs) (column_order tr).
Proof.
  intros H.
  assert (Hne : services <> []).
  { intros ->. rewrite cvp_empty in H. discriminate. }
  split; [assumption |].
  destruct (mapM (service_row sliding_fee_schedule
              (truediv total_fixed_costs (of_int (List.length services)))) services)
    as [rs|e] eqn:Hm.
  - destruct (cvp_run _ _ _ _ Hne Hm) as [tr [Hb Hrun]].
    exists rs, tr. repeat split; try assumption. congruence.
  - rewrite (cvp_raise _ _ _ _ Hne Hm) in H. discriminate.
Qed.

(** Structurally valid inputs make every pass of both loops succeed. *)
Lemma tier_ok_revenue (vol : T) (values : dict T) :
  tier_ok values = true -> exists r, tier_revenue vol values = Ok r.
Proof.
  unfold tier_ok, has_key, tier_revenue, dict_get. intros H.
  apply andb_true_iff in H. destruct H as [H1 H2].
  destruct (dict_find values "percentage") as [p|]; [|discriminate].
  destruct (dict_find values "price") as [c|]; [|discriminate].
  simpl. eauto.
Qed.

Lemma service_ok_row sliding_fee_schedule fixed s :
  service_ok sliding_fee_schedule s = true ->
  exists rt, service_row sliding_fee_schedule fixed s = Ok rt.
Proof.
  unfold service_ok, service_row, dict_get. intros H.
  destruct (dict_find sliding_fee_schedule (service_name s)) as [tiers|];
    [|discriminate]. cbn [bind].
  destruct (mapM_total (fun it => tier_revenue (volume s) (snd it)) tiers) as [revs Hrevs].
  { intros it Hit. apply tier_ok_revenue.
    rewrite forallb_forall in H. now apply H. }
  rewrite Hrevs. simpl. eauto.
Qed.

Lemma valid_input_run services sliding_fee_schedule fixed :
  forallb (service_ok sliding_fee_schedule) services = true ->
  exists rs, mapM (service_row sliding_fee_schedule fixed) services = Ok rs.
Proof.
  intros H. apply mapM_total. intros s Hs.
  apply service_ok_row. rewrite forallb_forall in H. now apply H.
Qed.

End Run.

(** ** Rows of the returned table *)

Section Rows.

Context {T : Type} {NT : Number T}.

Implicit Types (services : list (service T)) (sliding_fee_schedule : schedule T).

Lemma In_totals_column_order (tr : dict T) c :
  In c totals_columns -> In c (column_order tr).
Proof.
  intros H. unfold column_order. rewrite !in_app_iff. right. now right.
Qed.

(** Row [i] of the table is computed from [services[i]] alone, the
    schedule and the fixed-cost share. *)
Lemma cvp_rows services sliding_fee_schedule total_fixed_costs df i s :
  cvp_analysis_with_full_sliding_fee services sliding_fee_schedule total_fixed_costs
  = Ok df ->
  nth_error services i = Some s ->
  let fixed := truediv total_fixed_costs (of_int (List.length services)) in
  let tvc := mul (variable_cost_per_unit s) (volume s) in
  exists tiers revs,
    dict_find sliding_fee_schedule (service_name s) = Some tiers /\
    mapM (fun it => tier_revenue (volume s) (snd it)) tiers = Ok revs /\
    df_loc df i "Total Revenue" = Some (CNum (sum_list revs)) /\
    df_loc df i "Total Variable Costs" = Some (CNum tvc) /\
    df_loc df i "Fixed Costs" = Some (CNum fixed) /\
    df_loc df i "Total Costs" = Some (CNum (add tvc fixed)) /\
    df_loc df i "Profit" = Some (CNum (sub (sum_list revs) (add tvc fixed))).
Proof.
  intros Hrun Hi fixed tvc.
  apply cvp_Ok_inv in Hrun. destruct Hrun as [_ [rs [trl [Hm [_ Hdf]]]]].
  destruct (mapM_nth_error _ _ _ _ _ Hm Hi) as [[row tr] [Hrow Hs]].
  apply service_row_inv in Hs.
  destruct Hs as [tiers [revs [Hfind [Hrevs [_ Hrowdef]]]]].
  exists tiers, revs. split; [assumption |]. split; [assumption |].
  assert (Hnth : nth_error (map fst rs) i = Some row).
  { rewrite nth_error_map, Hrow. reflexivity. }
  pose proof (result_row_totals (service_name s) (volume s) tr (sum_list revs)
                tvc fixed (add tvc fixed) (sub (sum_list revs) (add tvc fixed)))
    as Htot.
  cbv zeta in Htot. fold tvc fixed in Hrowdef. rewrite <- Hrowdef in Htot.
  destruct Htot as [H1 [H2 [H3 [H4 H5]]]].
  subst df.
  repeat split;
    (erewrite df_loc_selected;
     [ | exact Hnth | apply In_totals_column_order; simpl; tauto ]).
  - now rewrite H1.
  - now rewrite H2.
  - now rewrite H3.
  - now rewrite H4.
  - now rewrite H5.
Qed.

Lemma cvp_row_count services sliding_fee_schedule total_fixed_costs df :
  cvp_analysis_with_full_sliding_fee services sliding_fee_schedule total_fixed_costs
  = Ok df ->
  List.length (data df) = List.length services.
Proof.
  intros Hrun. apply cvp_Ok_inv in Hrun.
  destruct Hrun as [_ [rs [trl [Hm [_ Hdf]]]]]. subst df.
  unfold table. cbn [data]. rewrite !length_map. now apply mapM_length in Hm.
Qed.

Lemma valid_input_Ok services sliding_fee_schedule total_fixed_costs :
  valid_input services sliding_fee_schedule ->
  exists df,
    cvp_analysis_with_full_sliding_fee services sliding_fee_schedule total_fixed_costs
    = Ok df.
Proof.
  intros [Hne Hok].
  destruct (valid_input_run _ _
              (truediv total_fixed_costs (of_int (List.length services))) Hok)
    as [rs Hrs].
  destruct (cvp_run _ _ _ _ Hne Hrs) as [tr [_ Hrun]]. eauto.
Qed.

End Rows.

(** ** The tier revenues kept in a row *)

Section TierColumns.

Context {T : Type} {NT : Number T}.

Lemma dict_find_In {V : Type} (d : dict V) k v :
  dict_find d k = Some v -> In (k, v) d.
Proof.
  induction d as [|[k' v'] d IH]; simpl; [discriminate |].
  destruct (String.eqb k k') eqn:E.
  - apply String.eqb_eq in E. intros H. inversion H; subst. now left.
  - intros H. right. now apply IH.
Qed.

Lemma dict_find_NoDup_In {V : Type} (d : dict V) k v :
  NoDup (dict_keys d) -> In (k, v) d -> dict_find d k = Some v.
Proof.
  induction d as [|[k' v'] d IH]; simpl; intros Hnd Hin; [contradiction |].
  inversion Hnd as [|? ? Hk Hnd']; subst.
  destruct Hin as [Hin | Hin].
  - inversion Hin; subst. now rewrite String.eqb_refl.
  - destruct (String.eqb k k') eqn:E.
    + apply String.eqb_eq in E. subst k'. exfalso. apply Hk.
      change k with (fst (k, v)). now apply in_map.
    + now apply IH.
Qed.

Lemma dict_find_update {V : Type} (d other : dict V) k :
  NoDup (dict_keys other) ->
  dict_find (dict_update d other) k =
  match dict_find other k with
  | Some v => Some v
  | None => dict_find d k
  end.
Proof.
  unfold dict_update. revert d.
  induction other as [|[k0 v0] other IH]; intros d Hnd; simpl; [reflexivity |].
  inversion Hnd as [|? ? Hk Hnd']; subst.
  rewrite IH by assumption.
  destruct (String.eqb k k0) eqn:E.
  - apply String.eqb_eq in E. subst k0.
    destruct (dict_find other k) eqn:F.
    + exfalso. apply Hk. apply dict_find_In_keys. congruence.
    + apply dict_find_set_same.
  - apply String.eqb_neq in E. now rewrite dict_find_set_other.
Qed.

Lemma dict_find_map {V W : Type} (g : V -> W) (d : dict V) k :
  dict_find (map (fun kv => (fst kv, g (snd kv))) d) k = option_map g (dict_find d k).
Proof.
  induction d as [|[k' v'] d IH]; simpl; [reflexivity |].
  destruct (String.eqb k k'); [reflexivity | exact IH].
Qed.

Lemma dict_find_filter {V : Type} (p : string -> bool) (d : dict V) k :
  dict_find (filter (fun kv => p (fst kv)) d) k =
  if p k then dict_find d k else None.
Proof.
  induction d as [|[k' v'] d IH]; simpl.
  - now destruct (p k).
  - destruct (p k') eqn:P; simpl.
    + destruct (String.eqb k k') eqn:E.
      * apply String.eqb_eq in E. subst. now rewrite P.
      * exact IH.
    + destruct (String.eqb k k') eqn:E.
      * apply String.eqb_eq in E. subst. rewrite IH. now rewrite P.
      * exact IH.
Qed.

Lemma record_tiers_keys (tr : dict T) kvs x :
  In x (dict_keys (record_tiers tr kvs)) ->
  In x (dict_keys tr) \/ (In x (dict_keys kvs) /\ not_full_charges x = true).
Proof.
  unfold record_tiers. revert tr.
  induction kvs as [|[k v] kvs IH]; intros tr; simpl; [now left |].
  intros H. apply IH in H. fold (not_full_charges k) in H.
  destruct (not_full_charges k) eqn:P.
  - destruct H as [H | [H1 H2]].
    + apply dict_keys_set in H. destruct H as [-> | H]; [right | now left].
      split; [now left | assumption].
    + right. split; [now right | assumption].
  - destruct H as [H | [H1 H2]]; [now left |].
    right. split; [now right | assumption].
Qed.

(** With distinct tier names, [tier_revenues] after the inner loop holds
    the tiers other than "Full Charges", in the order of the tier set. *)
Lemma tier_revenues_after_loop (keys : list string) (revs : list T) :
  NoDup keys -> List.length revs = List.length keys ->
  record_tiers [] (combine keys revs) =
  filter (fun kv => not_full_charges (fst kv)) (combine keys revs).
Proof.
  intros Hnd Hlen. rewrite record_tiers_distinct; [reflexivity |].
  simpl. now rewrite dict_keys_combine.
Qed.

Lemma schedule_wf_find (sliding_fee_schedule : schedule T) name tiers :
  schedule_wf sliding_fee_schedule ->
  dict_find sliding_fee_schedule name = Some tiers ->
  NoDup (dict_keys tiers).
Proof.
  unfold schedule_wf. intros Hwf Hfind. apply dict_find_In in Hfind.
  rewrite forallb_forall in Hwf. apply Hwf in Hfind.
  now apply distinct_NoDup.
Qed.

(** A key written before the totals of the dict literal, read back. *)
Lemma result_row_tier name vol (tr : dict T) rev tvc fixed tc profit t r :
  NoDup (dict_keys tr) -> ~ In t totals_columns -> dict_find tr t = Some r ->
  dict_find (result_row name vol tr rev tvc fixed tc profit) t = Some (CNum r).
Proof.
  intros Hnd Ht Hfind. unfold result_row.
  assert (Hne : forall c, In c totals_columns -> t <> c) by (intros c Hc ->; tauto).
  repeat rewrite dict_find_set_other by (apply Hne; simpl; tauto).
  rewrite dict_find_update.
  - rewrite (dict_find_map (@CNum T)), Hfind. reflexivity.
  - unfold dict_keys. rewrite map_map. exact Hnd.
Qed.

End TierColumns.

(** ** Revenue, costs and profit of every row *)

Section Revenue.

Context {T : Type} {NT : Number T}.

Implicit Types (services : list (service T)) (sliding_fee_schedule : schedule T).

Lemma tier_revenue_inv (vol : T) (values : dict T) r :
  tier_revenue vol values = Ok r -> is_tier_revenue vol values r.
Proof.
  unfold tier_revenue, dict_get, is_tier_revenue. intros H.
  destruct (dict_find values "percentage") as [p|]; [|discriminate].
  destruct (dict_find values "price") as [c|]; [|discriminate].
  simpl in H. inversion H. now exists p, c.
Qed.

Lemma mapM_Forall2 {A B : Type} (f : A -> result B) xs ys :
  mapM f xs = Ok ys -> Forall2 (fun x y => f x = Ok y) xs ys.
Proof.
  revert ys. induction xs as [|x xs IH]; simpl; intros ys H.
  - inversion H. constructor.
  - apply bind_Ok_inv in H. destruct H as [y [Hy H]].
    apply bind_Ok_inv in H. destruct H as [ys' [Hys H]].
    inversion H; subst. constructor; [assumption | now apply IH].
Qed.

Lemma tier_revenues_Forall2 (vol : T) (tiers : tier_set T) revs :
  mapM (fun it => tier_revenue vol (snd it)) tiers = Ok revs ->
  Forall2 (fun it r => is_tier_revenue vol (snd it) r) tiers revs.
Proof.
  intros H. apply mapM_Forall2 in H.
  induction H; constructor; [now apply tier_revenue_inv | assumption].
Qed.

(** C1 (as amended): on structurally valid inputs the call returns a
    table, and in every row [Total Variable Costs] is
    [variable_cost_per_unit * volume] of that service, [Fixed Costs] is
    [total_fixed_costs / len(services)], and [Profit] is the value of
    [Total Revenue - (Total Variable Costs + Fixed Costs)] in the
    arithmetic of the inputs: that very value, a NaN included.  Where
    subtraction of a sum is repeated subtraction, as over the
    rationals, this is
    [Total Revenue - Total Variable Costs - Fixed Costs]; in binary64
    the two can differ, by any amount. *)
Theorem profit_identity services sliding_fee_schedule total_fixed_costs :
  valid_input services sliding_fee_schedule ->
  exists df,
    cvp_analysis_with_full_sliding_fee services sliding_fee_schedule total_fixed_costs
    = Ok df /\
    forall i s, nth_error services i = Some s ->
      exists total_revenue total_variable_costs allocated_fixed_cost profit,
        df_loc df i "Total Revenue" = Some (CNum total_revenue) /\
        df_loc df i "Total Variable Costs" = Some (CNum total_variable_costs) /\
        df_loc df i "Fixed Costs" = Some (CNum allocated_fixed_cost) /\
        df_loc df i "Profit" = Some (CNum profit) /\
        total_variable_costs = mul (variable_cost_per_unit s) (volume s) /\
        allocated_fixed_cost = truediv total_fixed_costs (of_int (List.length services)) /\
        profit = sub total_revenue (add total_variable_costs allocated_fixed_cost) /\
        ((forall a b c : T, sub a (add b c) = sub (sub a b) c) ->
         profit = sub (sub total_revenue total_variable_costs) allocated_fixed_cost).
Proof.
  intros Hvalid.
  destruct (valid_input_Ok _ _ total_fixed_costs Hvalid) as [df Hdf].
  exists df. split; [assumption |]. intros i s Hi.
  destruct (cvp_rows _ _ _ _ _ _ Hdf Hi)
    as [tiers [revs [_ [_ [Hrev [Htvc [Hfix [_ Hprofit]]]]]]]].
  do 4 eexists. repeat split; try eassumption; try reflexivity.
  intros Hlaw. now rewrite Hlaw.
Qed.

(** C2: on structurally valid inputs, [Total Revenue] of every row is
    the sum, over all tiers of that service's tier set and "Full
    Charges" among them, of [(volume * percentage) * price]; the table
    has no column "Full Charges", and a tier of another name that is a
    column of the table has its own revenue in that column. *)
Theorem total_revenue_over_all_tiers services sliding_fee_schedule total_fixed_costs :
  valid_input services sliding_fee_schedule ->
  schedule_wf sliding_fee_schedule ->
  exists df,
    cvp_analysis_with_full_sliding_fee services sliding_fee_schedule total_fixed_costs
    = Ok df /\
    ~ In "Full Charges" (columns df) /\
    forall i s, nth_error services i = Some s ->
      exists tiers revs,
        dict_find sliding_fee_schedule (service_name s) = Some tiers /\
        Forall2 (fun it r => is_tier_revenue (volume s) (snd it) r) tiers revs /\
        df_loc df i "Total Revenue" = Some (CNum (sum_list revs)) /\
        forall tier r,
          In (tier, r) (combine (dict_keys tiers) revs) ->
          tier <> "Full Charges" ->
          In tier (columns df) -> ~ In tier totals_columns ->
          df_loc df i tier = Some (CNum r).
Proof.
  intros Hvalid Hwf.
  destruct (valid_input_Ok _ _ total_fixed_costs Hvalid) as [df Hdf].
  exists df. split; [assumption |].
  pose proof Hdf as Hinv. apply cvp_Ok_inv in Hinv.
  destruct Hinv as [Hne [rs [trl [Hm [Hlast Hdfeq]]]]].
  split.
  - (* no column is named "Full Charges" *)
    subst df. unfold table, column_order. cbn [columns].
    rewrite !in_app_iff. intros [H | [H | H]].
    + simpl in H. intuition discriminate.
    + assert (Hrs : rs <> []).
      { intros ->. apply mapM_length in Hm. destruct services; [congruence | discriminate]. }
      destruct (exists_last Hrs) as [rs' [[row tr] Hrs']]. subst rs.
      rewrite map_app in Hlast. cbn [map snd] in Hlast.
      rewrite last_bound_last in Hlast. inversion Hlast; subst trl.
      destruct (mapM_In _ _ _ (row, tr) Hm) as [s [_ Hs]].
      { rewrite in_app_iff. right. now left. }
      apply service_row_inv in Hs. destruct Hs as [tiers [revs [_ [_ [Htr _]]]]].
      rewrite Htr in H. apply record_tiers_keys in H.
      destruct H as [[] | [_ H]]. discriminate H.
    + simpl in H. intuition discriminate.
  - intros i s Hi.
    destruct (mapM_nth_error _ _ _ _ _ Hm Hi) as [[row tr] [Hrow Hs]].
    apply service_row_inv in Hs.
    destruct Hs as [tiers [revs [Hfind [Hrevs [Htr Hrowdef]]]]].
    exists tiers, revs. split; [assumption |].
    split; [now apply tier_revenues_Forall2 |].
    destruct (cvp_rows _ _ _ _ _ _ Hdf Hi) as [tiers' [revs' [Hfind' [Hrevs' [Hrev _]]]]].
    assert (tiers' = tiers) by congruence. subst tiers'.
    assert (revs' = revs) by congruence. subst revs'.
    split; [assumption |].
    intros tier r Hin Hnfc Hcol Hntot.
    assert (Hnd : NoDup (dict_keys tiers)) by (eapply schedule_wf_find; eassumption).
    assert (Hlen : List.length revs = List.length (dict_keys tiers)).
    { apply mapM_length in Hrevs. unfold dict_keys. now rewrite length_map. }
    rewrite tier_revenues_after_loop in Htr by assumption.
    assert (Hkeys : NoDup (dict_keys tr)).
    { rewrite Htr, dict_keys_filter, dict_keys_combine by assumption.
      now apply NoDup_filter. }
    assert (Hfindtr : dict_find tr tier = Some r).
    { rewrite Htr, dict_find_filter. unfold not_full_charges.
      apply String.eqb_neq in Hnfc. rewrite Hnfc. simpl.
      apply dict_find_NoDup_In; [now rewrite dict_keys_combine | assumption]. }
    subst df.
    rewrite (df_loc_selected (map fst rs) (column_order trl) i row tier).
    + rewrite Hrowdef. erewrite result_row_tier; [reflexivity | | | ]; eassumption.
    + rewrite nth_error_map, Hrow. reflexivity.
    + exact Hcol.
Qed.

End Revenue.

(** ** Columns of the returned table *)

Section Columns.

Context {T : Type} {NT : Number T}.

Implicit Types (services : list (service T)) (sliding_fee_schedule : schedule T).

Lemma mapM_snoc_inv {A B : Type} (f : A -> result B) xs x ys :
  mapM f (xs ++ [x]) = Ok ys ->
  exists ys' y, ys = ys' ++ [y] /\ mapM f xs = Ok ys' /\ f x = Ok y.
Proof.
  revert ys. induction xs as [|x0 xs IH]; simpl; intros ys H.
  - apply bind_Ok_inv in H. destruct H as [y [Hy H]]. simpl in H.
    inversion H; subst. now exists [], y.
  - apply bind_Ok_inv in H. destruct H as [y0 [Hy0 H]].
    apply bind_Ok_inv in H. destruct H as [ys0 [Hys0 H]].
    inversion H; subst.
    destruct (IH _ Hys0) as [ys' [y [-> [Hxs Hx]]]].
    exists (y0 :: ys'), y. rewrite Hy0, Hxs. now repeat split.
Qed.

(** C7: on structurally valid inputs the columns of the table are
    "Service", "Volume", then the tier names of the last service's tier
    set other than "Full Charges", in the order of that tier set, then
    the five totals; the tier sets of the services before the last do
    not enter. *)
Theorem tier_columns_follow_last_service
    services sliding_fee_schedule total_fixed_costs earlier last_service :
  valid_input services sliding_fee_schedule ->
  schedule_wf sliding_fee_schedule ->
  services = earlier ++ [last_service] ->
  exists df tiers,
    cvp_analysis_with_full_sliding_fee services sliding_fee_schedule total_fixed_costs
    = Ok df /\
    dict_find sliding_fee_schedule (service_name last_service) = Some tiers /\
    columns df =
      ["Service"; "Volume"] ++ filter not_full_charges (dict_keys tiers) ++
      ["Total Revenue"; "Total Variable Costs"; "Fixed Costs"; "Total Costs"; "Profit"].
Proof.
  intros Hvalid Hwf Hsplit.
  destruct (valid_input_Ok _ _ total_fixed_costs Hvalid) as [df Hdf].
  pose proof Hdf as Hinv. apply cvp_Ok_inv in Hinv.
  destruct Hinv as [_ [rs [trl [Hm [Hlast Hdfeq]]]]].
  rewrite Hsplit in Hm at 2.
  apply mapM_snoc_inv in Hm. destruct Hm as [rs' [[row tr] [Hrs [_ Hrow]]]].
  subst rs. rewrite map_app in Hlast. cbn [map snd] in Hlast.
  rewrite last_bound_last in Hlast. inversion Hlast; subst trl.
  apply service_row_inv in Hrow.
  destruct Hrow as [tiers [revs [Hfind [Hrevs [Htr _]]]]].
  exists df, tiers. split; [assumption |]. split; [assumption |].
  assert (Hnd : NoDup (dict_keys tiers)) by (eapply schedule_wf_find; eassumption).
  assert (Hlen : List.length revs = List.length (dict_keys tiers)).
  { apply mapM_length in Hrevs. unfold dict_keys. now rewrite length_map. }
  rewrite tier_revenues_after_loop in Htr by assumption.
  rewrite Hdfeq. unfold table, column_order. cbn [columns].
  rewrite Htr, dict_keys_filter, dict_keys_combine by assumption.
  reflexivity.
Qed.

End Columns.

(** ** Failures *)

Section Failures.

Context {T : Type} {NT : Number T}.

Implicit Types (services : list (service T)) (sliding_fee_schedule : schedule T).

Lemma mapM_first_error {A B : Type} (f : A -> result B) pre x post e :
  (forall a, In a pre -> exists b, f a = Ok b) ->
  f x = Raise e ->
  mapM f (pre ++ x :: post) = Raise e.
Proof.
  intros Hpre Hx. induction pre as [|a pre IH]; simpl.
  - now rewrite Hx.
  - destruct (Hpre a) as [b Hb]; [now left |]. rewrite Hb. simpl.
    rewrite IH; [reflexivity |]. intros a' Ha'. apply Hpre. now right.
Qed.

Lemma services_first_error services sliding_fee_schedule total_fixed_costs
    earlier s later e :
  services = earlier ++ s :: later ->
  forallb (service_ok sliding_fee_schedule) earlier = true ->
  service_row sliding_fee_schedule
    (truediv total_fixed_costs (of_int (List.length services))) s = Raise e ->
  cvp_analysis_with_full_sliding_fee services sliding_fee_schedule total_fixed_costs
  = Raise e.
Proof.
  intros Hsplit Hpre Hs. apply cvp_raise.
  - rewrite Hsplit. now destruct earlier.
  - rewrite Hsplit at 2. apply mapM_first_error; [|assumption].
    intros a Ha. apply service_ok_row.
    rewrite forallb_forall in Hpre. now apply Hpre.
Qed.

(** C4 (as amended): with an empty [services] the call raises Python's
    [ZeroDivisionError], from the division by [len(services)], whatever
    the schedule and the fixed costs; it returns no table. *)
Theorem empty_services_raise sliding_fee_schedule total_fixed_costs :
  cvp_analysis_with_full_sliding_fee [] sliding_fee_schedule total_fixed_costs
  = Raise ZeroDivisionError /\
  forall df,
    cvp_analysis_with_full_sliding_fee [] sliding_fee_schedule total_fixed_costs
    <> Ok df.
Proof.
  split; [reflexivity | intros df H; discriminate H].
Qed.

(** C5 (as amended): when a service's name has no entry in the schedule
    and the services before it are structurally valid, the call raises
    [KeyError] with that service's name as its key, and returns no
    table. *)
Theorem missing_schedule_entry_raises
    services sliding_fee_schedule total_fixed_costs earlier s later :
  services = earlier ++ s :: later ->
  forallb (service_ok sliding_fee_schedule) earlier = true ->
  dict_find sliding_fee_schedule (service_name s) = None ->
  cvp_analysis_with_full_sliding_fee services sliding_fee_schedule total_fixed_costs
  = Raise (KeyError (service_name s)).
Proof.
  intros Hsplit Hpre Hmiss.
  apply (services_first_error _ _ _ earlier s later); try assumption.
  unfold service_row, dict_get. now rewrite Hmiss.
Qed.

Lemma tier_not_ok_revenue (vol : T) (values : dict T) :
  tier_ok values = false ->
  tier_revenue vol values = Raise (KeyError (missing_field values)).
Proof.
  unfold tier_ok, missing_field, has_key, tier_revenue, dict_get.
  destruct (dict_find values "percentage") as [p|]; simpl; [|reflexivity].
  destruct (dict_find values "price") as [c|]; simpl; [discriminate | reflexivity].
Qed.

(** C6 (as amended): when a tier of a service in [services] lacks
    ['percentage'] or ['price'], and the services before that one and
    the tiers before that tier are structurally valid, the call raises
    [KeyError] with the missing field as its key (['percentage'] when
    both are missing), and returns no table. *)
Theorem malformed_tier_raises
    services sliding_fee_schedule total_fixed_costs earlier s later
    tiers tiers_before tier values tiers_after :
  services = earlier ++ s :: later ->
  forallb (service_ok sliding_fee_schedule) earlier = true ->
  dict_find sliding_fee_schedule (service_name s) = Some tiers ->
  tiers = tiers_before ++ (tier, values) :: tiers_after ->
  forallb (fun it => tier_ok (snd it)) tiers_before = true ->
  tier_ok values = false ->
  cvp_analysis_with_full_sliding_fee services sliding_fee_schedule total_fixed_costs
  = Raise (KeyError (missing_field values)).
Proof.
  intros Hsplit Hpre Hfind Htiers Hbefore Hbad.
  apply (services_first_error _ _ _ earlier s later); try assumption.
  unfold service_row, dict_get. rewrite Hfind. cbn [bind].
  rewrite Htiers.
  rewrite (mapM_first_error _ tiers_before (tier, values) tiers_after
             (KeyError (missing_field values))).
  - reflexivity.
  - intros it Hit. apply tier_ok_revenue.
    rewrite forallb_forall in Hbefore. now apply Hbefore.
  - now apply tier_not_ok_revenue.
Qed.

(** C8: on structurally valid inputs the call returns a table, and
    [Total Revenue] of every row is the sum of
    [(volume * percentage) * price] over the tiers as they are given;
    nothing is asked of the percentages, which may sum to any number. *)
Theorem fractions_are_not_checked services sliding_fee_schedule total_fixed_costs :
  valid_input services sliding_fee_schedule ->
  exists df,
    cvp_analysis_with_full_sliding_fee services sliding_fee_schedule total_fixed_costs
    = Ok df /\
    forall i s, nth_error services i = Some s ->
      exists tiers revs,
        dict_find sliding_fee_schedule (service_name s) = Some tiers /\
        Forall2 (fun it r => is_tier_revenue (volume s) (snd it) r) tiers revs /\
        df_loc df i "Total Revenue" = Some (CNum (fold_left add revs (of_int 0))).
Proof.
  intros Hvalid.
  destruct (valid_input_Ok _ _ total_fixed_costs Hvalid) as [df Hdf].
  exists df. split; [assumption |]. intros i s Hi.
  destruct (cvp_rows _ _ _ _ _ _ Hdf Hi) as [tiers [revs [Hfind [Hrevs [Hrev _]]]]].
  exists tiers, revs. split; [assumption |].
  split; [now apply tier_revenues_Forall2 | exact Hrev].
Qed.

End Failures.

(** ** Whole columns *)

Section WholeColumns.

Context {T : Type} {NT : Number T}.

Implicit Types (services : list (service T)) (sliding_fee_schedule : schedule T).

Lemma map_const_repeat {A B : Type} (b : B) (xs : list A) :
  map (fun _ => b) xs = repeat b (List.length xs).
Proof.
  induction xs; simpl; [reflexivity | now f_equal].
Qed.

Lemma Forall2_map_eq {A B C : Type} (g : B -> C) (h : A -> C) xs ys :
  Forall2 (fun x y => g y = h x) xs ys -> map g ys = map h xs.
Proof.
  induction 1; simpl; [reflexivity | now f_equal].
Qed.

Lemma dict_find_update_notin {V : Type} (d other : dict V) k :
  ~ In k (dict_keys other) -> dict_find (dict_update d other) k = dict_find d k.
Proof.
  unfold dict_update. revert d.
  induction other as [|[k0 v0] other IH]; intros d Hk; simpl; [reflexivity |].
  simpl in Hk. rewrite IH by tauto.
  apply dict_find_set_other. intros ->. tauto.
Qed.

(** Every row carries the same share of the fixed costs. *)
Lemma fixed_costs_column services sliding_fee_schedule total_fixed_costs df :
  cvp_analysis_with_full_sliding_fee services sliding_fee_schedule total_fixed_costs
  = Ok df ->
  df_column df "Fixed Costs" =
  repeat (CNum (truediv total_fixed_costs (of_int (List.length services))))
         (List.length services).
Proof.
  intros Hdf. apply cvp_Ok_inv in Hdf.
  destruct Hdf as [_ [rs [trl [Hm [_ Hdf]]]]]. subst df.
  rewrite df_column_selected by (apply In_totals_column_order; simpl; tauto).
  set (fixed := truediv total_fixed_costs (of_int (List.length services))) in *.
  replace (List.length services) with (List.length (map fst rs))
    by (rewrite length_map; exact (mapM_length _ _ _ Hm)).
  rewrite <- map_const_repeat.
  apply map_ext_in. intros row Hrow.
  apply in_map_iff in Hrow. destruct Hrow as [[row' tr] [Heq Hin]].
  simpl in Heq. subst row'.
  destruct (mapM_In _ _ _ _ Hm Hin) as [s [_ Hs]].
  apply service_row_inv in Hs. destruct Hs as [tiers [revs [_ [_ [_ Hrow]]]]].
  rewrite Hrow.
  match goal with
  | |- context [result_row ?a ?b ?c ?d ?e ?f ?g ?h] =>
      destruct (result_row_totals a b c d e f g h) as [_ [_ [H3 _]]]
  end.
  now rewrite H3.
Qed.

(** The "Service" key of a row, read back: the unpacked tier revenues
    come after it in the dict literal. *)
Lemma result_row_service name vol (tr : dict T) rev tvc fixed tc profit :
  ~ In "Service" (dict_keys tr) ->
  dict_find (result_row name vol tr rev tvc fixed tc profit) "Service"
  = Some (CStr name).
Proof.
  intros Hfree. unfold result_row.
  repeat rewrite dict_find_set_other by discriminate.
  rewrite dict_find_update_notin; [reflexivity |].
  unfold dict_keys. rewrite map_map. exact Hfree.
Qed.

Lemma service_row_service sliding_fee_schedule fixed s row tr :
  no_tier_named "Service" sliding_fee_schedule ->
  service_row sliding_fee_schedule fixed s = Ok (row, tr) ->
  dict_find row "Service" = Some (CStr (service_name s)).
Proof.
  intros Hfree Hs. apply service_row_inv in Hs.
  destruct Hs as [tiers [revs [Hfind [Hrevs [Htr Hrow]]]]].
  rewrite Hrow. apply result_row_service.
  intros Hin. rewrite Htr in Hin. apply record_tiers_keys in Hin.
  destruct Hin as [[] | [Hin _]].
  rewrite dict_keys_combine in Hin.
  - apply dict_find_In in Hfind. unfold no_tier_named in Hfree.
    rewrite forallb_forall in Hfree. apply Hfree in Hfind. cbn [snd] in Hfind.
    apply negb_true_iff, mem_false in Hfind. contradiction.
  - apply mapM_length in Hrevs. unfold dict_keys. now rewrite length_map.
Qed.

Lemma In_Service_column_order (tr : dict T) : In "Service" (column_order tr).
Proof. unfold column_order. simpl. now left. Qed.

(** The "Service" column lists the names of [services], in order and
    with their repetitions, when no tier is itself named "Service". *)
Lemma service_column services sliding_fee_schedule total_fixed_costs df :
  no_tier_named "Service" sliding_fee_schedule ->
  cvp_analysis_with_full_sliding_fee services sliding_fee_schedule total_fixed_costs
  = Ok df ->
  df_column df "Service" = map (fun s => CStr (service_name s)) services.
Proof.
  intros Hfree Hdf. apply cvp_Ok_inv in Hdf.
  destruct Hdf as [_ [rs [trl [Hm [_ Hdf]]]]]. subst df.
  rewrite df_column_selected by apply In_Service_column_order.
  rewrite map_map. apply Forall2_map_eq.
  apply mapM_Forall2 in Hm.
  induction Hm as [|s [row tr] services' rs' Hs _ IH]; constructor; [|exact IH].
  cbn [fst]. now rewrite (service_row_service _ _ _ _ _ Hfree Hs).
Qed.

Lemma service_cell services sliding_fee_schedule total_fixed_costs df i s :
  no_tier_named "Service" sliding_fee_schedule ->
  cvp_analysis_with_full_sliding_fee services sliding_fee_schedule total_fixed_costs
  = Ok df ->
  nth_error services i = Some s ->
  df_loc df i "Service" = Some (CStr (service_name s)).
Proof.
  intros Hfree Hdf Hi. apply cvp_Ok_inv in Hdf.
  destruct Hdf as [_ [rs [trl [Hm [_ Hdf]]]]]. subst df.
  destruct (mapM_nth_error _ _ _ _ _ Hm Hi) as [[row tr] [Hrow Hs]].
  rewrite (df_loc_selected (map fst rs) (column_order trl) i row "Service").
  - now rewrite (service_row_service _ _ _ _ _ Hfree Hs).
  - rewrite nth_error_map, Hrow. reflexivity.
  - apply In_Service_column_order.
Qed.

Lemma rows_named_count services sliding_fee_schedule total_fixed_costs df name :
  no_tier_named "Service" sliding_fee_schedule ->
  cvp_analysis_with_full_sliding_fee services sliding_fee_schedule total_fixed_costs
  = Ok df ->
  rows_named df name =
  List.length (filter (fun s => String.eqb (service_name s) name) services).
Proof.
  intros Hfree Hdf. unfold rows_named.
  rewrite (service_column _ _ _ _ Hfree Hdf).
  clear Hdf. induction services as [|s services IH]; simpl; [reflexivity |].
  destruct (String.eqb (service_name s) name); simpl; now rewrite IH.
Qed.

End WholeColumns.

(** ** Exact arithmetic *)

Section Exact.

Open Scope Qc_scope.

Lemma Qc_of_int_S (n : nat) : of_int (S n) = of_int n + 1.
Proof.
  cbn [of_int Qc_Number]. unfold Qcplus. apply Q2Qc_eq_iff.
  cbn [this Q2Qc]. rewrite !Qred_correct.
  rewrite Nat2Z.inj_succ. unfold Z.succ.
  rewrite inject_Z_plus. reflexivity.
Qed.

Lemma Qc_of_int_nonzero (n : nat) : n <> 0%nat -> of_int n <> 0.
Proof.
  intros Hn H. cbn [of_int Qc_Number] in H. apply Q2Qc_eq_iff in H.
  unfold Qeq in H. simpl in H. lia.
Qed.

Lemma Qc_sub_add (a b c : Qc) : sub a (add b c) = sub (sub a b) c.
Proof. simpl. ring. Qed.

Lemma Qc_series_sum_repeat (x acc : Qc) (n : nat) :
  fold_left (fun a c => match c with CNum y => add a y | _ => a end)
            (repeat (CNum x) n) acc
  = acc + of_int n * x.
Proof.
  revert acc. induction n as [|n IH]; intros acc.
  - cbn [repeat fold_left]. change (of_int 0) with 0. ring.
  - cbn [repeat fold_left]. rewrite IH, Qc_of_int_S. cbn [add Qc_Number]. ring.
Qed.

Lemma Qc_even_split_sums (total : Qc) (n : nat) :
  n <> 0%nat -> series_sum (repeat (CNum (truediv total (of_int n))) n) = total.
Proof.
  intros Hn. unfold series_sum. rewrite Qc_series_sum_repeat.
  pose proof (Qc_of_int_nonzero n Hn) as Hnz.
  change (of_int 0) with 0. cbn [truediv Qc_Number].
  set (k := of_int n) in *. field. exact Hnz.
Qed.

(** C3: for a non-empty, structurally valid input over the rationals,
    every row carries the same [Fixed Costs],
    [total_fixed_costs / len(services)], and the column sums to
    [total_fixed_costs]. *)
Theorem fixed_costs_sum_to_total
    (services : list (service Qc)) (sliding_fee_schedule : schedule Qc)
    (total_fixed_costs : Qc) :
  valid_input services sliding_fee_schedule ->
  exists df,
    cvp_analysis_with_full_sliding_fee services sliding_fee_schedule total_fixed_costs
    = Ok df /\
    df_column df "Fixed Costs" =
      repeat (CNum (total_fixed_costs / of_int (List.length services)))
             (List.length services) /\
    series_sum (df_column df "Fixed Costs") = total_fixed_costs.
Proof.
  intros Hvalid.
  destruct (valid_input_Ok _ _ total_fixed_costs Hvalid) as [df Hdf].
  exists df. split; [assumption |].
  pose proof (fixed_costs_column _ _ _ _ Hdf) as Hcol.
  split; [exact Hcol |].
  rewrite Hcol. apply Qc_even_split_sums.
  destruct Hvalid as [Hne _]. destruct services; [congruence | discriminate].
Qed.

(** C10: nothing asks the names in [services] to be distinct.  On a
    structurally valid input, in the arithmetic of its numbers, the
    table has one row per element of [services]: a name occurring [k]
    times labels [k] rows, each computed from its own element's volume
    and cost and the one schedule entry of that name; the fixed costs
    are divided by the length of [services], repetitions counted, and
    every row carries that share.  So the shares sum to
    [total_fixed_costs] wherever [n] shares of an [n]-th sum to the
    whole, as they do over the rationals ([Qc_even_split_sums]). *)
Theorem repeated_names_get_a_row_each {T : Type} {NT : Number T}
    (services : list (service T)) (sliding_fee_schedule : schedule T)
    (total_fixed_costs : T) :
  valid_input services sliding_fee_schedule ->
  no_tier_named "Service" sliding_fee_schedule ->
  exists df,
    cvp_analysis_with_full_sliding_fee services sliding_fee_schedule total_fixed_costs
    = Ok df /\
    List.length (data df) = List.length services /\
    (forall name,
       rows_named df name =
       List.length (filter (fun s => String.eqb (service_name s) name) services)) /\
    (forall i s, nth_error services i = Some s ->
       exists tiers revs,
         dict_find sliding_fee_schedule (service_name s) = Some tiers /\
         Forall2 (fun it r => is_tier_revenue (volume s) (snd it) r) tiers revs /\
         df_loc df i "Service" = Some (CStr (service_name s)) /\
         df_loc df i "Total Revenue" = Some (CNum (sum_list revs)) /\
         df_loc df i "Total Variable Costs" =
           Some (CNum (mul (variable_cost_per_unit s) (volume s))) /\
         df_loc df i "Fixed Costs" =
           Some (CNum (truediv total_fixed_costs (of_int (List.length services))))) /\
    df_column df "Fixed Costs" =
      repeat (CNum (truediv total_fixed_costs (of_int (List.length services))))
             (List.length services) /\
    ((forall (x : T) (n : nat),
        n <> 0%nat -> series_sum (repeat (CNum (truediv x (of_int n))) n) = x) ->
     series_sum (df_column df "Fixed Costs") = total_fixed_costs).
Proof.
  intros Hvalid Hfree.
  destruct (valid_input_Ok _ _ total_fixed_costs Hvalid) as [df Hdf].
  exists df. split; [assumption |].
  split; [now apply cvp_row_count in Hdf |].
  split; [intros name; now apply (rows_named_count _ _ _ _ name Hfree Hdf) |].
  split; [| split].
  - intros i s Hi.
    destruct (cvp_rows _ _ _ _ _ _ Hdf Hi)
      as [tiers [revs [Hfind [Hrevs [Hrev [Htvc [Hfix _]]]]]]].
    exists tiers, revs. split; [assumption |].
    split; [now apply tier_revenues_Forall2 |].
    split; [now apply (service_cell _ _ _ _ _ _ Hfree Hdf) | now repeat split].
  - exact (fixed_costs_column _ _ _ _ Hdf).
  - intros Hlaw. rewrite (fixed_costs_column _ _ _ _ Hdf). apply Hlaw.
    destruct Hvalid as [Hne _]. destruct services; [congruence | discriminate].
Qed.

End Exact.

(** ** Concrete runs *)

Section Runs.

Open Scope Qc_scope.

Lemma profit_identity_witness :
  exists df,
    cvp_analysis_with_full_sliding_fee ex_services ex_schedule (q 1000 1) = Ok df /\
    exists total_revenue total_variable_costs allocated_fixed_cost profit,
      df_loc df 0 "Total Revenue" = Some (CNum total_revenue) /\
      df_loc df 0 "Total Variable Costs" = Some (CNum total_variable_costs) /\
      df_loc df 0 "Fixed Costs" = Some (CNum allocated_fixed_cost) /\
      df_loc df 0 "Profit" = Some (CNum profit) /\
      profit = total_revenue - total_variable_costs - allocated_fixed_cost.
Proof.
  destruct (profit_identity ex_services ex_schedule (q 1000 1)) as [df [Hdf Hrows]].
  - split; [discriminate | reflexivity].
  - exists df. split; [exact Hdf |].
    destruct (Hrows 0%nat _ eq_refl) as [r [v [f [p [H1 [H2 [H3 [H4 [_ [_ [_ H8]]]]]]]]]]].
    exists r, v, f, p. repeat split; try assumption.
    apply H8. exact Qc_sub_add.
Defined.

(** In binary64 the profit of the row is [0.3 - (0.1 + 0.2)], that is
    [-2^-54], while [0.3 - 0.1 - 0.2] is [-2^-55]. *)
Lemma profit_identity_fails_in_binary64 :
  exists df total_revenue total_variable_costs allocated_fixed_cost profit,
    cvp_analysis_with_full_sliding_fee float_services float_schedule float_fixed_costs
    = Ok df /\
    df_loc df 0 "Total Revenue" = Some (CNum total_revenue) /\
    df_loc df 0 "Total Variable Costs" = Some (CNum total_variable_costs) /\
    df_loc df 0 "Fixed Costs" = Some (CNum allocated_fixed_cost) /\
    df_loc df 0 "Profit" = Some (CNum profit) /\
    profit = (-0x1p-54)%float /\
    sub (sub total_revenue total_variable_costs) allocated_fixed_cost
    = (-0x1p-55)%float /\
    PrimFloat.eqb profit
      (PrimFloat.sub (PrimFloat.sub total_revenue total_variable_costs)
                     allocated_fixed_cost) = false /\
    profit <> sub (sub total_revenue total_variable_costs) allocated_fixed_cost.
Proof.
  eexists. eexists. eexists. eexists. eexists.
  split; [vm_compute; reflexivity |].
  split; [vm_compute; reflexivity |].
  split; [vm_compute; reflexivity |].
  split; [vm_compute; reflexivity |].
  split; [vm_compute; reflexivity |].
  split; [vm_compute; reflexivity |].
  split; [vm_compute; reflexivity |].
  split; [vm_compute; reflexivity |].
  intros H.
  apply (f_equal (fun x => PrimFloat.eqb x (-0x1p-54)%float)) in H.
  vm_compute in H. discriminate H.
Qed.

(** Nor is the difference one of rounding: with the inputs near the
    largest float the profit of the row is [1e308 - (1e308 + 1e308)],
    that is minus infinity, while [1e308 - 1e308 - 1e308] is [-1e308]. *)
Lemma profit_forms_differ_beyond_rounding :
  exists df total_revenue total_variable_costs allocated_fixed_cost,
    cvp_analysis_with_full_sliding_fee large_services large_schedule large_fixed_costs
    = Ok df /\
    df_loc df 0 "Total Revenue" = Some (CNum total_revenue) /\
    df_loc df 0 "Total Variable Costs" = Some (CNum total_variable_costs) /\
    df_loc df 0 "Fixed Costs" = Some (CNum allocated_fixed_cost) /\
    df_loc df 0 "Profit" = Some (CNum PrimFloat.neg_infinity) /\
    sub (sub total_revenue total_variable_costs) allocated_fixed_cost
    = large_fixed_costs_negated.
Proof.
  do 4 eexists.
  split; [vm_compute; reflexivity |].
  split; [vm_compute; reflexivity |].
  split; [vm_compute; reflexivity |].
  split; [vm_compute; reflexivity |].
  split; [vm_compute; reflexivity |].
  vm_compute. reflexivity.
Qed.

Lemma total_revenue_over_all_tiers_witness :
  exists df,
    cvp_analysis_with_full_sliding_fee two_services two_schedule (q 200 1) = Ok df /\
    ~ In "Full Charges" (columns df) /\
    exists revs,
      Forall2 (fun it r => is_tier_revenue (q 50 1) (snd it) r)
              [ ("Slide A", tier (q 35 1) (q 1 4));
                ("Full Charges", tier (q 80 1) (q 1 2));
                ("Slide B", tier (q 45 1) (q 1 4)) ] revs /\
      df_loc df 1 "Total Revenue" = Some (CNum (sum_list revs)).
Proof.
  destruct (total_revenue_over_all_tiers two_services two_schedule (q 200 1))
    as [df [Hdf [Hfc Hrows]]].
  - split; [discriminate | reflexivity].
  - reflexivity.
  - exists df. split; [exact Hdf |]. split; [exact Hfc |].
    destruct (Hrows 1%nat _ eq_refl) as [tiers [revs [Hfind [Hall [Hrev _]]]]].
    cbv in Hfind. inversion Hfind; subst tiers.
    exists revs. split; assumption.
Defined.

Lemma fixed_costs_sum_to_total_witness :
  exists df,
    cvp_analysis_with_full_sliding_fee two_services two_schedule (q 200 1) = Ok df /\
    df_column df "Fixed Costs" = [CNum (q 200 1 / of_int 2); CNum (q 200 1 / of_int 2)] /\
    series_sum (df_column df "Fixed Costs") = q 200 1.
Proof.
  apply (fixed_costs_sum_to_total two_services two_schedule (q 200 1)).
  split; [discriminate | reflexivity].
Defined.

(** The error of an empty [services] is not of a class
    [InvalidInputError]. *)
Lemma empty_services_error_class :
  exists e,
    cvp_analysis_with_full_sliding_fee [] ex_schedule (q 1000 1) = Raise e /\
    class_name e = "ZeroDivisionError" /\
    class_name e <> "InvalidInputError".
Proof.
  exists ZeroDivisionError. split; [reflexivity |]. split; [reflexivity | discriminate].
Qed.

Lemma missing_schedule_entry_raises_witness :
  cvp_analysis_with_full_sliding_fee two_services ex_schedule (q 1000 1)
  = Raise (KeyError "B").
Proof.
  apply (missing_schedule_entry_raises two_services ex_schedule (q 1000 1)
           [ {| service_name := "A"; volume := q 100 1;
                variable_cost_per_unit := q 10 1 |} ]
           {| service_name := "B"; volume := q 50 1; variable_cost_per_unit := q 4 1 |}
           []).
  - reflexivity.
  - reflexivity.
  - reflexivity.
Defined.

(** The error of a missing schedule entry is not of a class
    [MissingScheduleError]; and with a malformed tier in an earlier
    service, the error does not name the service that has no entry. *)
Lemma missing_schedule_error_class_and_order :
  (exists e,
     cvp_analysis_with_full_sliding_fee ex_services [] (q 1000 1) = Raise e /\
     class_name e = "KeyError" /\
     class_name e <> "MissingScheduleError") /\
  dict_find malformed_schedule "B" = None /\
  cvp_analysis_with_full_sliding_fee two_services malformed_schedule (q 1000 1)
  = Raise (KeyError "percentage").
Proof.
  split; [| split; reflexivity].
  exists (KeyError "A"). split; [reflexivity |]. split; [reflexivity | discriminate].
Qed.

Lemma malformed_tier_raises_witness :
  cvp_analysis_with_full_sliding_fee ex_services malformed_schedule (q 1000 1)
  = Raise (KeyError "percentage").
Proof.
  apply (malformed_tier_raises ex_services malformed_schedule (q 1000 1)
           []
           {| service_name := "A"; volume := q 100 1; variable_cost_per_unit := q 10 1 |}
           []
           [ ("T1", tier (q 10 1) (q 1 2)); ("T2", price_only) ]
           [ ("T1", tier (q 10 1) (q 1 2)) ] "T2" price_only []).
  - reflexivity.
  - reflexivity.
  - reflexivity.
  - reflexivity.
  - reflexivity.
  - reflexivity.
Defined.

(** The error of a tier without a field is not of a class
    [MalformedTierError]; and such a tier raises nothing when its
    schedule entry is of no service in [services]. *)
Lemma malformed_tier_error_class_and_reach :
  (exists e,
     cvp_analysis_with_full_sliding_fee ex_services malformed_schedule (q 1000 1)
     = Raise e /\
     class_name e = "KeyError" /\
     class_name e <> "MalformedTierError") /\
  dict_find unused_malformed_schedule "Z" = Some [ ("T1", price_only) ] /\
  tier_ok price_only = false /\
  exists df,
    cvp_analysis_with_full_sliding_fee ex_services unused_malformed_schedule (q 1000 1)
    = Ok df.
Proof.
  split.
  - exists (KeyError "percentage").
    split; [reflexivity |]. split; [reflexivity | discriminate].
  - split; [reflexivity |]. split; [reflexivity |].
    eexists. vm_compute. reflexivity.
Qed.

Lemma tier_columns_follow_last_service_witness :
  exists df,
    cvp_analysis_with_full_sliding_fee two_services two_schedule (q 200 1) = Ok df /\
    columns df =
      ["Service"; "Volume"; "Slide A"; "Slide B";
       "Total Revenue"; "Total Variable Costs"; "Fixed Costs"; "Total Costs"; "Profit"].
Proof.
  destruct (tier_columns_follow_last_service two_services two_schedule (q 200 1)
              [ {| service_name := "A"; volume := q 100 1;
                   variable_cost_per_unit := q 10 1 |} ]
              {| service_name := "B"; volume := q 50 1; variable_cost_per_unit := q 4 1 |})
    as [df [tiers [Hdf [Hfind Hcols]]]].
  - split; [discriminate | reflexivity].
  - reflexivity.
  - reflexivity.
  - exists df. split; [exact Hdf |].
    cbv in Hfind. inversion Hfind; subst tiers. exact Hcols.
Defined.

Lemma fractions_are_not_checked_witness :
  (exists fractions,
     mapM (fun it => dict_get (snd it) "percentage")
          [ ("T1", tier (q 10 1) (q 1 4)); ("T2", tier (q 20 1) (q 1 4)) ]
     = Ok fractions /\
     sum_list fractions = q 1 2 /\ sum_list fractions <> 1) /\
  exists df,
    cvp_analysis_with_full_sliding_fee ex_services half_schedule (q 1000 1) = Ok df /\
    exists revs,
      Forall2 (fun it r => is_tier_revenue (q 100 1) (snd it) r)
              [ ("T1", tier (q 10 1) (q 1 4)); ("T2", tier (q 20 1) (q 1 4)) ] revs /\
      df_loc df 0 "Total Revenue" = Some (CNum (fold_left add revs (of_int 0))).
Proof.
  split.
  - eexists. split; [reflexivity |].
    split; [apply Qc_is_canon; reflexivity |].
    intros H. apply (f_equal this) in H. vm_compute in H. discriminate H.
  - destruct (fractions_are_not_checked ex_services half_schedule (q 1000 1))
      as [df [Hdf Hrows]].
    + split; [discriminate | reflexivity].
    + exists df. split; [exact Hdf |].
      destruct (Hrows 0%nat _ eq_refl) as [tiers [revs [Hfind [Hall Hrev]]]].
      cbv in Hfind. inversion Hfind; subst tiers.
      exists revs. split; assumption.
Defined.

Lemma repeated_names_get_a_row_each_witness :
  exists df,
    cvp_analysis_with_full_sliding_fee repeated_services ex_schedule (q 1000 1) = Ok df /\
    List.length (data df) = 2%nat /\
    rows_named df "A" = 2%nat /\
    df_loc df 0 "Total Variable Costs" = Some (CNum (q 10 1 * q 100 1)) /\
    df_loc df 1 "Total Variable Costs" = Some (CNum (q 7 1 * q 30 1)) /\
    df_loc df 0 "Fixed Costs" = Some (CNum (q 1000 1 / of_int 2)) /\
    df_loc df 1 "Fixed Costs" = Some (CNum (q 1000 1 / of_int 2)) /\
    series_sum (df_column df "Fixed Costs") = q 1000 1.
Proof.
  destruct (repeated_names_get_a_row_each repeated_services ex_schedule (q 1000 1))
    as [df [Hdf [Hlen [Hnamed [Hrows [_ Hsum]]]]]].
  - split; [discriminate | reflexivity].
  - reflexivity.
  - exists df. split; [exact Hdf |]. split; [exact Hlen |].
    split; [exact (Hnamed "A") |].
    destruct (Hrows 0%nat _ eq_refl) as [t0 [r0 [_ [_ [_ [_ [Hv0 Hf0]]]]]]].
    destruct (Hrows 1%nat _ eq_refl) as [t1 [r1 [_ [_ [_ [_ [Hv1 Hf1]]]]]]].
    repeat (split; [assumption |]).
    apply Hsum. exact Qc_even_split_sums.
Defined.

(** The example of the specification: revenue 1500, variable costs
    1000, fixed costs 1000, profit -500. *)
Lemma specification_example :
  exists df,
    cvp_analysis_with_full_sliding_fee ex_services ex_schedule (q 1000 1) = Ok df /\
    df_column df "Total Revenue" = [CNum (q 1500 1)] /\
    df_column df "Total Variable Costs" = [CNum (q 1000 1)] /\
    df_column df "Fixed Costs" = [CNum (q 1000 1)] /\
    df_column df "Profit" = [CNum (q (-500) 1)].
Proof.
  eexists. split; [vm_compute; reflexivity |].
  repeat split; vm_compute; reflexivity.
Qed.

End Runs.

(** ** The store is only extended *)

Module HeapFacts.

(** The first embedding's functions, under names that the second
    embedding's do not hide. *)
Local Abbreviation pure_bind := bind (only parsing).
Local Abbreviation pure_tier_body := tier_body (only parsing).
Local Abbreviation pure_result_row := result_row (only parsing).
Local Abbreviation pure_service_body := service_body (only parsing).
Local Abbreviation pure_pd_DataFrame := pd_DataFrame (only parsing).
Local Abbreviation pure_df_getitem := df_getitem (only parsing).
Local Abbreviation pure_cvp := cvp_analysis_with_full_sliding_fee (only parsing).

Import Heap.

Section Frame.

Context {T : Type} {NT : Number T}.

(** The store at the call, left out of the statements of this section. *)
Variable h0 : heap T.

Local Abbreviation untouched := (Heap.untouched h0).
Local Abbreviation fresh := (Heap.fresh h0).
Local Abbreviation keeps := (Heap.keeps h0).
Local Abbreviation new_table := (Heap.new_table h0).

Lemma untouched_refl : untouched h0.
Proof. split; [apply Nat.le_refl | reflexivity]. Qed.

Lemma keeps_weaken {A : Type} (m : M T A) (Q Q' : A -> heap T -> Prop) :
  keeps m Q -> (forall a h, Q a h -> Q' a h) -> keeps m Q'.
Proof.
  intros Hm Himp h Hh. destruct (Hm h Hh) as [H1 H2].
  split; [assumption |]. intros a Ha. apply Himp. now apply H2.
Qed.

Lemma keeps_ret {A : Type} (a : A) (Q : A -> heap T -> Prop) :
  (forall h, Q a h) -> keeps (ret a) Q.
Proof.
  intros HQ h Hh. split; [assumption |].
  simpl. intros a' Ha'. inversion Ha'; subst. apply HQ.
Qed.

Lemma keeps_raise {A : Type} (e : exception) (Q : A -> heap T -> Prop) :
  keeps (raise e) Q.
Proof.
  intros h Hh. split; [assumption |]. simpl. intros a Ha. discriminate Ha.
Qed.

Lemma keeps_lift {A : Type} (r : result A) : keeps (lift r) anything.
Proof.
  intros h Hh. split; [assumption |]. intros a _. exact I.
Qed.

Lemma keeps_bind {A B : Type} (m : M T A) (k : A -> M T B)
    (R : A -> Prop) (Q : B -> heap T -> Prop) :
  keeps m (fun a _ => R a) ->
  (forall a, R a -> keeps (k a) Q) ->
  keeps (bind m k) Q.
Proof.
  intros Hm Hk h Hh. unfold bind.
  destruct (Hm h Hh) as [H1 H2].
  destruct (m h) as [[a|e] h1]; simpl in *.
  - apply Hk; [now apply H2 | assumption].
  - split; [assumption |]. intros b Hb. discriminate Hb.
Qed.

Lemma keeps_bind_any {A B : Type} (m : M T A) (k : A -> M T B) (Q : B -> heap T -> Prop) :
  keeps m anything ->
  (forall a, keeps (k a) Q) ->
  keeps (bind m k) Q.
Proof.
  intros Hm Hk. apply keeps_bind with (R := fun _ => True).
  - exact Hm.
  - intros a _. apply Hk.
Qed.

Lemma keeps_load (v : value T) : keeps (load v) anything.
Proof.
  intros h Hh. unfold load.
  destruct v as [x|s|l]; try (split; [assumption | intros a _; exact I]).
  destruct (nth_error h l); split; try assumption; intros a _; exact I.
Qed.

Lemma keeps_alloc (o : object T) :
  keeps (alloc o)
        (fun v h => exists l, v = VRef l /\ List.length h0 <= l /\
                              nth_error h l = Some o).
Proof.
  intros h [Hlen Hsame]. unfold alloc. simpl. split.
  - split.
    + rewrite length_app. simpl. lia.
    + intros l Hl. rewrite nth_error_app1 by lia. now apply Hsame.
  - intros a Ha. inversion Ha; subst. exists (List.length h).
    split; [reflexivity |]. split; [assumption |].
    rewrite nth_error_app2 by lia. now rewrite Nat.sub_diag.
Qed.

Lemma keeps_alloc_fresh (o : object T) : keeps (alloc o) (fun v _ => fresh v).
Proof.
  eapply keeps_weaken; [apply keeps_alloc |].
  intros v h [l [-> [Hl _]]]. exact Hl.
Qed.

Lemma length_heap_set (l : loc) (o : object T) (h : heap T) :
  l < List.length h -> List.length (heap_set l o h) = List.length h.
Proof.
  intros Hl. unfold heap_set.
  rewrite length_app. cbn [List.length]. rewrite length_firstn, length_skipn. lia.
Qed.

Lemma nth_error_heap_set_same (l : loc) (o : object T) (h : heap T) :
  l < List.length h -> nth_error (heap_set l o h) l = Some o.
Proof.
  intros Hl. unfold heap_set.
  rewrite nth_error_app2 by (rewrite length_firstn; lia).
  rewrite length_firstn. replace (l - Nat.min l (List.length h)) with 0 by lia.
  reflexivity.
Qed.

Lemma nth_error_heap_set_other (l l' : loc) (o : object T) (h : heap T) :
  l < List.length h -> l' <> l -> nth_error (heap_set l o h) l' = nth_error h l'.
Proof.
  intros Hl Hne. unfold heap_set.
  destruct (Nat.lt_ge_cases l' l) as [Hlt | Hge].
  - rewrite nth_error_app1 by (rewrite length_firstn; lia).
    rewrite nth_error_firstn.
    assert (E : Nat.ltb l' l = true) by (apply Nat.ltb_lt; lia).
    now rewrite E.
  - rewrite nth_error_app2 by (rewrite length_firstn; lia).
    rewrite length_firstn. replace (Nat.min l (List.length h)) with l by lia.
    destruct (l' - l) as [|d] eqn:D; [lia |].
    cbn [nth_error]. rewrite nth_error_skipn. f_equal. lia.
Qed.

Lemma keeps_store (v : value T) (o : object T) :
  fresh v -> keeps (store v o) anything.
Proof.
  intros Hv h [Hlen Hsame]. unfold store.
  destruct v as [x|s|l]; try contradiction. simpl in Hv.
  destruct (Nat.ltb l (List.length h)) eqn:E; cbn [fst snd].
  - apply Nat.ltb_lt in E. split; [| intros a _; exact I]. split.
    + rewrite length_heap_set by assumption. exact Hlen.
    + intros l' Hl'. rewrite nth_error_heap_set_other by lia. now apply Hsame.
  - split; [now split | intros a _; exact I].
Qed.

Lemma keeps_for_each {A S : Type} (body : S -> A -> M T S) (R : S -> Prop) xs s :
  (forall s x, R s -> keeps (body s x) (fun s' _ => R s')) ->
  R s ->
  keeps (for_each body xs s) (fun s' _ => R s').
Proof.
  intros Hbody. revert s. induction xs as [|x xs IH]; intros s Hs; simpl.
  - apply keeps_ret. intros h. exact Hs.
  - eapply keeps_bind; [apply Hbody; exact Hs |]. intros s' Hs'. now apply IH.
Qed.

Lemma keeps_map_each {A B : Type} (f : A -> M T B) xs :
  (forall x, keeps (f x) anything) -> keeps (map_each f xs) anything.
Proof.
  intros Hf. induction xs as [|x xs IH]; simpl.
  - apply keeps_ret. intros h. exact I.
  - apply keeps_bind_any; [apply Hf |]. intros y.
    apply keeps_bind_any; [apply IH |]. intros ys.
    apply keeps_ret. intros h. exact I.
Qed.

Lemma keeps_list_items (v : value T) : keeps (list_items v) anything.
Proof.
  unfold list_items. apply keeps_bind_any; [apply keeps_load |].
  intros [xs|d|cols data]; first [apply keeps_raise | apply keeps_ret; intros h; exact I].
Qed.

Lemma keeps_dict_items (v : value T) : keeps (dict_items v) anything.
Proof.
  unfold dict_items. apply keeps_bind_any; [apply keeps_load |].
  intros [xs|d|cols data]; first [apply keeps_raise | apply keeps_ret; intros h; exact I].
Qed.

Lemma keeps_getitem (d : value T) (k : string) : keeps (getitem d k) anything.
Proof.
  unfold getitem. apply keeps_bind_any; [apply keeps_dict_items |].
  intros items. apply keeps_lift.
Qed.

Lemma keeps_setitem (d : value T) (k : string) (x : value T) :
  fresh d -> keeps (setitem d k x) anything.
Proof.
  intros Hd. unfold setitem. apply keeps_bind_any; [apply keeps_dict_items |].
  intros items. now apply keeps_store.
Qed.

Lemma keeps_append (l x : value T) : fresh l -> keeps (append l x) anything.
Proof.
  intros Hl. unfold append. apply keeps_bind_any; [apply keeps_list_items |].
  intros xs. now apply keeps_store.
Qed.

Lemma keeps_as_str (v : value T) : keeps (as_str v) anything.
Proof.
  destruct v; simpl; first [apply keeps_raise | apply keeps_ret; intros h; exact I].
Qed.

Lemma keeps_arith (op : T -> T -> T) (a b : value T) : keeps (arith op a b) anything.
Proof.
  destruct a, b; simpl; first [apply keeps_raise | apply keeps_ret; intros h; exact I].
Qed.

Lemma keeps_truediv_int (a : value T) (n : nat) : keeps (truediv_int a n) anything.
Proof.
  destruct a; simpl; try apply keeps_raise.
  destruct (Nat.eqb n 0); first [apply keeps_raise | apply keeps_ret; intros h; exact I].
Qed.

Lemma keeps_pd_DataFrame (rows : value T) : keeps (pd_DataFrame rows) anything.
Proof.
  unfold pd_DataFrame. apply keeps_bind_any; [apply keeps_list_items |].
  intros refs. apply keeps_bind_any.
  - apply keeps_map_each. intros x. apply keeps_dict_items.
  - intros dicts. eapply keeps_weaken; [apply keeps_alloc |]. intros; exact I.
Qed.

Lemma keeps_df_getitem (df : value T) (labels : list string) :
  keeps (df_getitem df labels) new_table.
Proof.
  unfold df_getitem. apply keeps_bind_any; [apply keeps_load |].
  intros [xs|d|cols data]; try apply keeps_raise.
  destruct (find _ labels); [apply keeps_raise |].
  eapply keeps_weaken; [apply keeps_alloc |].
  intros v h [l [Hv [Hl Hnth]]]. unfold Heap.new_table.
  exists l. do 2 eexists. split; [exact Hv |]. split; [exact Hl | exact Hnth].
Qed.

Lemma keeps_tier_body (volume tier_revenues total_revenue : value T) item :
  fresh tier_revenues ->
  keeps (tier_body volume tier_revenues total_revenue item) anything.
Proof.
  intros Hfresh. destruct item as [tier values]. unfold tier_body.
  apply keeps_bind_any; [apply keeps_getitem | intros percentage].
  apply keeps_bind_any; [apply keeps_arith | intros tier_volume].
  apply keeps_bind_any; [apply keeps_getitem | intros tier_price].
  apply keeps_bind_any; [apply keeps_arith | intros tier_revenue].
  apply keeps_bind_any; [apply keeps_arith | intros total].
  apply keeps_bind_any.
  - destruct (negb (String.eqb tier "Full Charges")).
    + now apply keeps_setitem.
    + apply keeps_ret. intros h. exact I.
  - intros _. apply keeps_ret. intros h. exact I.
Qed.

Lemma keeps_service_body
    (sliding_fee_schedule fixed service_data : value T) bound (service : value T) :
  fresh service_data ->
  keeps (service_body sliding_fee_schedule fixed service_data bound service) anything.
Proof.
  intros Hfresh. unfold service_body.
  apply keeps_bind_any; [apply keeps_getitem | intros service_name].
  apply keeps_bind_any; [apply keeps_getitem | intros volume].
  apply keeps_bind_any; [apply keeps_getitem | intros variable_cost_per_unit].
  apply keeps_bind_any; [apply keeps_as_str | intros key].
  apply keeps_bind_any; [apply keeps_getitem | intros service_sliding_fee].
  eapply keeps_bind; [apply keeps_alloc_fresh | intros tier_revenues Htr].
  apply keeps_bind_any; [apply keeps_dict_items | intros items].
  apply keeps_bind_any.
  { apply (keeps_for_each _ (fun _ => True)); [| exact I].
    intros s x _. now apply keeps_tier_body. }
  intros total_revenue.
  apply keeps_bind_any; [apply keeps_arith | intros total_variable_costs].
  apply keeps_bind_any; [apply keeps_arith | intros total_costs].
  apply keeps_bind_any; [apply keeps_arith | intros profit].
  apply keeps_bind_any; [apply keeps_dict_items | intros unpacked].
  apply keeps_bind_any.
  { eapply keeps_weaken; [apply keeps_alloc |]. intros; exact I. }
  intros row.
  apply keeps_bind_any; [now apply keeps_append | intros _].
  apply keeps_ret. intros h. exact I.
Qed.

Lemma keeps_cvp (services sliding_fee_schedule total_fixed_costs : value T) :
  keeps (cvp_analysis_with_full_sliding_fee services sliding_fee_schedule
           total_fixed_costs)
        new_table.
Proof.
  unfold cvp_analysis_with_full_sliding_fee.
  eapply keeps_bind; [apply keeps_alloc_fresh | intros service_data Hsd].
  apply keeps_bind_any; [apply keeps_list_items | intros elements].
  apply keeps_bind_any; [apply keeps_truediv_int | intros fixed].
  apply keeps_bind_any.
  { apply (keeps_for_each _ (fun _ => True)); [| exact I].
    intros s x _. now apply keeps_service_body. }
  intros bound.
  apply keeps_bind_any; [apply keeps_pd_DataFrame | intros results_df].
  apply keeps_bind_any.
  { destruct bound; [apply keeps_ret; intros h; exact I | apply keeps_raise]. }
  intros tier_revenues.
  apply keeps_bind_any; [apply keeps_dict_items | intros unpacked].
  apply keeps_df_getitem.
Qed.

End Frame.

(** C9: a call changes no object of the store it is given: the list
    [services], the dict of every service, the schedule, every tier set
    and every tier are after the call, returning or raising, what they
    were before it; and what it returns is a reference to a table that
    was not in that store. *)
Theorem call_leaves_inputs_unchanged {T : Type} {NT : Number T}
    (h : heap T) (services sliding_fee_schedule total_fixed_costs : value T) :
  let run :=
    cvp_analysis_with_full_sliding_fee services sliding_fee_schedule total_fixed_costs h
  in
  (forall l o, nth_error h l = Some o -> nth_error (snd run) l = Some o) /\
  (forall v, fst run = Ok v ->
     exists l cols data,
       v = VRef l /\ nth_error h l = None /\
       nth_error (snd run) l = Some (OFrame cols data)).
Proof.
  intros run.
  destruct (keeps_cvp h services sliding_fee_schedule total_fixed_costs h
              (untouched_refl h)) as [[Hlen Hsame] Hres].
  fold run in Hlen, Hsame, Hres. split.
  - intros l o Hl. rewrite Hsame; [assumption |].
    apply nth_error_Some. congruence.
  - intros v Hv. destruct (Hres v Hv) as [l [cols [data [Hvl [Hfresh Hnth]]]]].
    exists l, cols, data. split; [assumption |]. split; [| assumption].
    now apply nth_error_None.
Qed.

(** ** The two embeddings agree

    On a store that holds the inputs of the first embedding, the second
    returns what the first returns, or raises what it raises. *)

Section Refinement.

Context {T : Type} {NT : Number T}.

Lemma updated_refl l o (h : heap T) : nth_error h l = Some o -> updated l o h h.
Proof. intros H. now repeat split. Qed.

Lemma updated_trans l o1 o2 (h h1 h2 : heap T) :
  updated l o1 h h1 -> updated l o2 h1 h2 -> updated l o2 h h2.
Proof.
  intros [L1 [_ S1]] [L2 [N2 S2]]. split; [congruence |]. split; [assumption |].
  intros l' Hl'. rewrite S2, S1 by assumption. reflexivity.
Qed.

Lemma updated_heap_set l o (h : heap T) :
  l < List.length h -> updated l o h (heap_set l o h).
Proof.
  intros Hl. split; [now apply length_heap_set |].
  split; [now apply nth_error_heap_set_same |].
  intros l' Hl'. now apply nth_error_heap_set_other.
Qed.

(** Running the operations on a store whose contents are known. *)
Lemma run_bind {A B : Type} (m : M T A) (k : A -> M T B) h r h1 :
  m h = (r, h1) ->
  bind m k h = match r with Ok a => k a h1 | Raise e => (Raise e, h1) end.
Proof. intros H. unfold bind. now rewrite H. Qed.

Lemma run_dict_items (h : heap T) l d :
  nth_error h l = Some (ODict d) -> dict_items (VRef l) h = (Ok d, h).
Proof. intros H. unfold dict_items, bind, load. now rewrite H. Qed.

Lemma run_list_items (h : heap T) l xs :
  nth_error h l = Some (OList xs) -> list_items (VRef l) h = (Ok xs, h).
Proof. intros H. unfold list_items, bind, load. now rewrite H. Qed.

Lemma run_getitem (h : heap T) l d k :
  nth_error h l = Some (ODict d) -> getitem (VRef l) k h = (dict_get d k, h).
Proof.
  intros H. unfold getitem. rewrite (run_bind _ _ h _ _ (run_dict_items h l d H)).
  reflexivity.
Qed.

Lemma nth_error_lt {A : Type} (xs : list A) n x :
  nth_error xs n = Some x -> n < List.length xs.
Proof. intros H. apply nth_error_Some. congruence. Qed.

Lemma run_setitem (h : heap T) l d k x :
  nth_error h l = Some (ODict d) ->
  setitem (VRef l) k x h = (Ok tt, heap_set l (ODict (dict_set d k x)) h).
Proof.
  intros H. unfold setitem. rewrite (run_bind _ _ h _ _ (run_dict_items h l d H)).
  unfold store. apply nth_error_lt in H. apply Nat.ltb_lt in H. now rewrite H.
Qed.

Lemma run_append (h : heap T) l xs x :
  nth_error h l = Some (OList xs) ->
  append (VRef l) x h = (Ok tt, heap_set l (OList (xs ++ [x])) h).
Proof.
  intros H. unfold append. rewrite (run_bind _ _ h _ _ (run_list_items h l xs H)).
  unfold store. apply nth_error_lt in H. apply Nat.ltb_lt in H. now rewrite H.
Qed.

Lemma dict_find_num_dict (d : dict T) k :
  dict_find (num_dict d) k = option_map VNum (dict_find d k).
Proof. apply (dict_find_map (@VNum T)). Qed.

Lemma dict_set_num_dict (d : dict T) k x :
  dict_set (num_dict d) k (VNum x) = num_dict (dict_set d k x).
Proof.
  induction d as [|[k' v'] d IH]; simpl; [reflexivity |].
  destruct (String.eqb k k'); simpl; [reflexivity | now f_equal].
Qed.

Lemma dict_keys_num_dict (d : dict T) : dict_keys (num_dict d) = dict_keys d.
Proof. unfold num_dict, dict_keys. rewrite map_map. reflexivity. Qed.

Lemma tiers_at_updated l_tr o (h h' : heap T) items tiers :
  updated l_tr o h h' -> tiers_at l_tr h items tiers -> tiers_at l_tr h' items tiers.
Proof.
  intros [_ [_ Hsame]] H. unfold tiers_at in *.
  induction H as [|kv kt items tiers [Hk [l [Hv [Hl Hn]]]] _ IH]; constructor.
  - split; [assumption |]. exists l. rewrite Hsame by assumption. now repeat split.
  - exact IH.
Qed.

Lemma run_tier_body vol l_tr (h : heap T) (tr : list (string * T)) tot tier l_v values :
  nth_error h l_tr = Some (ODict (num_dict tr)) ->
  nth_error h l_v = Some (ODict (num_dict values)) ->
  let run := Heap.tier_body (VNum vol) (VRef l_tr) (VNum tot) (tier, VRef l_v) h in
  exists tr',
    updated l_tr (ODict (num_dict tr')) h (snd run) /\
    match pure_tier_body vol (tot, tr) (tier, values) with
    | Ok (tot', tr'') => fst run = Ok (VNum tot') /\ tr'' = tr'
    | Raise e => fst run = Raise e
    end.
Proof.
  intros Htr Hv run. subst run. unfold Heap.tier_body.
  unfold pure_tier_body.
  rewrite (run_bind _ _ h _ _ (run_getitem h l_v _ "percentage" Hv)).
  unfold dict_get. rewrite dict_find_num_dict.
  destruct (dict_find values "percentage") as [p|]; cbn [option_map pure_bind];
    [| exists tr; split; [now apply updated_refl | reflexivity]].
  cbn [arith Heap.bind ret].
  rewrite (run_bind _ _ h _ _ (run_getitem h l_v _ "price" Hv)).
  unfold dict_get. rewrite dict_find_num_dict.
  destruct (dict_find values "price") as [c|]; cbn [option_map pure_bind];
    [| exists tr; split; [now apply updated_refl | reflexivity]].
  cbn [arith Heap.bind ret].
  destruct (negb (String.eqb tier "Full Charges")).
  - rewrite (run_bind _ _ h _ _ (run_setitem h l_tr _ tier _ Htr)).
    cbn [fst snd ret]. rewrite dict_set_num_dict.
    eexists. split; [| split; reflexivity].
    apply updated_heap_set. now apply nth_error_lt in Htr.
  - unfold Heap.bind, ret. cbn [fst snd].
    exists tr. split; [now apply updated_refl | split; reflexivity].
Qed.

Lemma run_tier_loop vol l_tr items tiers :
  forall (h : heap T) (tr : list (string * T)) tot,
    nth_error h l_tr = Some (ODict (num_dict tr)) ->
    tiers_at l_tr h items tiers ->
    let run := for_each (Heap.tier_body (VNum vol) (VRef l_tr)) items (VNum tot) h in
    exists tr',
      updated l_tr (ODict (num_dict tr')) h (snd run) /\
      match foldM (pure_tier_body vol) tiers (tot, tr) with
      | Ok (tot', tr'') => fst run = Ok (VNum tot') /\ tr'' = tr'
      | Raise e => fst run = Raise e
      end.
Proof.
  revert tiers.
  induction items as [|[k v] items IH]; intros tiers h tr tot Htr Hat run; subst run;
    inversion Hat as [|kv [k' values] items' tiers' [Hk [l [Hv [Hl Hn]]]] Hrest]; subst.
  - exists tr. split; [now apply updated_refl | split; reflexivity].
  - cbn [fst snd] in Hk, Hv, Hn. subst k' v. cbn [for_each foldM].
    destruct (run_tier_body vol l_tr h tr tot k l values Htr Hn) as [tr1 [Hup1 Hres1]].
    unfold Heap.bind.
    destruct (Heap.tier_body (VNum vol) (VRef l_tr) (VNum tot) (k, VRef l) h)
      as [[a|e] h1] eqn:E1;
      destruct (pure_tier_body vol (tot, tr) (k, values)) as [[tot1 tr1']|e1] eqn:P1;
      cbn [fst snd pure_bind] in *.
    + destruct Hres1 as [Ha Htr1]. inversion Ha; subst a tr1'.
      destruct Hup1 as [L1 [N1 S1]].
      destruct (IH tiers' h1 tr1 tot1 N1
                   (tiers_at_updated l_tr _ h h1 _ _ (conj L1 (conj N1 S1)) Hrest))
        as [tr2 [Hup2 Hres2]].
      exists tr2. split; [| exact Hres2].
      eapply updated_trans; [exact (conj L1 (conj N1 S1)) | exact Hup2].
    + discriminate Hres1.
    + destruct Hres1 as [Ha _]. discriminate Ha.
    + exists tr1. split; [assumption | assumption].
Qed.

Lemma dict_keys_set_congr {A B : Type} (d : dict A) (d' : dict B) k v v' :
  dict_keys d = dict_keys d' ->
  dict_keys (dict_set d k v) = dict_keys (dict_set d' k v').
Proof.
  revert d'. induction d as [|[k0 v0] d IH]; intros [|[k1 v1] d'] H;
    simpl in *; try discriminate; [reflexivity |].
  inversion H; subst.
  destruct (String.eqb k k1); simpl; [now f_equal | f_equal; now apply IH].
Qed.

Lemma row_rel_nil : row_rel (T := T) [] [].
Proof. split; [reflexivity | intros c; reflexivity]. Qed.

Lemma row_rel_set (r_h : dict (value T)) (r : dict (cell T)) k v x :
  row_rel r_h r -> cell_value x = Some v ->
  row_rel (dict_set r_h k v) (dict_set r k x).
Proof.
  intros [Hkeys Hfind] Hx. split; [now apply dict_keys_set_congr |].
  intros c. destruct (String.eqb c k) eqn:E.
  - apply String.eqb_eq in E. subst c.
    rewrite !dict_find_set_same. simpl. now rewrite Hx.
  - apply String.eqb_neq in E. rewrite !dict_find_set_other by assumption.
    apply Hfind.
Qed.

Lemma row_rel_update (r_h : dict (value T)) (r : dict (cell T)) (tr : dict T) :
  row_rel r_h r ->
  row_rel (dict_update r_h (num_dict tr))
          (dict_update r (map (fun kv => (fst kv, CNum (snd kv))) tr)).
Proof.
  unfold dict_update. revert r_h r.
  induction tr as [|[k x] tr IH]; intros r_h r H; simpl; [assumption |].
  apply IH. now apply row_rel_set.
Qed.

Lemma row_rel_result_row name vol (tr : dict T) rev tvc fixed tc profit :
  row_rel (Heap.result_row (VStr name) (VNum vol) (num_dict tr) (VNum rev)
             (VNum tvc) (VNum fixed) (VNum tc) (VNum profit))
          (pure_result_row name vol tr rev tvc fixed tc profit).
Proof.
  unfold Heap.result_row. unfold pure_result_row.
  repeat (apply row_rel_set; [| reflexivity]).
  apply row_rel_update.
  repeat (apply row_rel_set; [| reflexivity]).
  apply row_rel_nil.
Qed.

Lemma dict_find_related {A : Type} (R : value T -> A -> Prop)
    (d : dict (value T)) (xs : dict A) k :
  Forall2 (fun kv kx => fst kv = fst kx /\ R (snd kv) (snd kx)) d xs ->
  match dict_find xs k with
  | Some x => exists v, dict_find d k = Some v /\ R v x
  | None => dict_find d k = None
  end.
Proof.
  induction 1 as [|[k1 v1] [k2 x2] d xs [Hk HR] _ IH]; simpl; [reflexivity |].
  simpl in Hk, HR. subst k2.
  destruct (String.eqb k k1); [now exists v1 | exact IH].
Qed.

Lemma run_alloc {B : Type} (o : object T) (k : value T -> M T B) h :
  Heap.bind (alloc o) k h = k (VRef (List.length h)) (h ++ [o]).
Proof. reflexivity. Qed.

Lemma run_ret {A B : Type} (a : A) (k : A -> M T B) h :
  Heap.bind (ret a) k h = k a h.
Proof. reflexivity. Qed.

Lemma dict_get_Some {A : Type} (d : dict A) k v :
  dict_find d k = Some v -> dict_get d k = Ok v.
Proof. intros H. unfold dict_get. now rewrite H. Qed.

Lemma dict_get_None {A : Type} (d : dict A) k :
  dict_find d k = None -> dict_get d k = Raise (KeyError k).
Proof. intros H. unfold dict_get. now rewrite H. Qed.

Lemma run_service_body (h0 : heap T) schv sch fixed h rows bv b sv s :
  repr_schedule h0 schv sch ->
  repr_service h0 sv s ->
  loop_inv h0 h rows bv b ->
  let run := Heap.service_body schv (VNum fixed) (VRef (List.length h0)) bv sv h in
  match pure_service_body sch fixed (rows, b) s with
  | Ok (rows', b') => exists bv', fst run = Ok bv' /\ loop_inv h0 (snd run) rows' bv' b'
  | Raise e => fst run = Raise e
  end.
Proof.
  intros [l_sch [d_sch [-> [Hsch Hentries]]]]
         [l_s [d_s [-> [Hs [Hname [Hvol Hvc]]]]]]
         [Hcont [[refs [Hsd Hrows]] Hbound]] run.
  subst run. unfold Heap.service_body. unfold pure_service_body. cbv zeta.
  rewrite (run_bind _ _ h _ _ (run_getitem h l_s d_s "service_name" (Hcont _ _ Hs))).
  rewrite (dict_get_Some _ _ _ Hname).
  rewrite (run_bind _ _ h _ _ (run_getitem h l_s d_s "volume" (Hcont _ _ Hs))).
  rewrite (dict_get_Some _ _ _ Hvol).
  rewrite (run_bind _ _ h _ _
             (run_getitem h l_s d_s "variable_cost_per_unit" (Hcont _ _ Hs))).
  rewrite (dict_get_Some _ _ _ Hvc).
  cbn [as_str]. rewrite run_ret.
  rewrite (run_bind _ _ h _ _
             (run_getitem h l_sch d_sch (service_name s) (Hcont _ _ Hsch))).
  pose proof (dict_find_related _ _ _ (service_name s) Hentries) as Hrel.
  destruct (dict_find sch (service_name s)) as [tiers|] eqn:Hfind.
  2:{ rewrite (dict_get_None _ _ Hrel), (dict_get_None _ _ Hfind). reflexivity. }
  destruct Hrel as [v_ts [Hfind_h [l_ts [d_ts [-> [Hts Htiers]]]]]].
  rewrite (dict_get_Some _ _ _ Hfind_h), (dict_get_Some _ _ _ Hfind).
  cbn [pure_bind]. rewrite run_alloc.
  set (l_sd := List.length h0) in *.
  set (l_tr := List.length h).
  set (h1 := h ++ [ODict []]).
  assert (Hlen0 : l_sd < l_tr) by (apply (nth_error_lt _ _ _ Hsd)).
  assert (H1old : forall l o, nth_error h l = Some o -> nth_error h1 l = Some o).
  { intros l o Hl. unfold h1. rewrite nth_error_app1; [assumption |].
    now apply nth_error_lt in Hl. }
  assert (H1tr : nth_error h1 l_tr = Some (ODict (num_dict []))).
  { unfold h1, l_tr. rewrite nth_error_app2 by lia. now rewrite Nat.sub_diag. }
  rewrite (run_bind _ _ h1 _ _ (run_dict_items h1 l_ts d_ts (H1old _ _ (Hcont _ _ Hts)))).
  assert (Hat : tiers_at l_tr h1 d_ts tiers).
  { unfold tiers_at. eapply Forall2_impl; [| exact Htiers].
    intros kv kt [Hk [l [Hv Hn]]].
    split; [assumption |]. exists l. split; [assumption |].
    split; [| apply H1old, Hcont, Hn].
    apply nth_error_lt in Hn. subst l_sd. lia. }
  destruct (run_tier_loop (volume s) l_tr d_ts tiers h1 [] (of_int 0) H1tr Hat)
    as [tr' [[L2 [N2 S2]] Hres]].
  destruct (for_each (Heap.tier_body (VNum (volume s)) (VRef l_tr)) d_ts
              (VNum (of_int 0)) h1) as [r h2] eqn:Eloop.
  rewrite (run_bind _ _ h1 _ _ Eloop). cbn [fst snd] in *.
  revert Hres.
  destruct (foldM (pure_tier_body (volume s)) tiers (of_int 0, []))
    as [[tot tr'']|e]; cbn [pure_bind]; intros Hres.
  2:{ rewrite Hres. reflexivity. }
  destruct Hres as [-> ->].
  cbn [arith]. repeat (rewrite run_ret; cbn beta; cbn [arith]).
  rewrite (run_bind _ _ h2 _ _ (run_dict_items h2 l_tr _ N2)).
  rewrite run_alloc.
  set (row_h := Heap.result_row _ _ _ _ _ _ _ _).
  set (l_row := List.length h2).
  set (h3 := h2 ++ [ODict row_h]).
  assert (H3sd : nth_error h3 l_sd = Some (OList refs)).
  { unfold h3. rewrite nth_error_app1 by (rewrite L2; unfold h1; rewrite length_app; simpl; lia).
    rewrite S2 by lia. now apply H1old. }
  rewrite (run_bind _ _ h3 _ _ (run_append h3 l_sd refs (VRef l_row) H3sd)).
  cbn [ret fst snd].
  eexists. split; [reflexivity |].
  assert (Hlen2 : List.length h2 = S l_tr).
  { rewrite L2. unfold h1. rewrite length_app. simpl. lia. }
  assert (Hlen3 : List.length h3 = S (S l_tr)).
  { unfold h3. rewrite length_app. simpl. lia. }
  assert (Hframe : forall l, l <> l_sd ->
            nth_error (heap_set l_sd (OList (refs ++ [VRef l_row])) h3) l
            = nth_error h3 l).
  { intros l Hl. apply nth_error_heap_set_other; [lia | assumption]. }
  assert (Hold : forall l o, l <> l_sd -> nth_error h l = Some o ->
            nth_error (heap_set l_sd (OList (refs ++ [VRef l_row])) h3) l = Some o).
  { intros l o Hl Hn. rewrite Hframe by assumption.
    pose proof (nth_error_lt _ _ _ Hn) as Hlt. fold l_tr in Hlt.
    unfold h3. rewrite nth_error_app1 by lia.
    rewrite S2 by lia. now apply H1old. }
  split; [| split].
  - intros l o Hl. apply Hold; [| now apply Hcont].
    apply nth_error_lt in Hl. subst l_sd. lia.
  - exists (refs ++ [VRef l_row]). split.
    + apply nth_error_heap_set_same. lia.
    + unfold rows_at. apply Forall2_app.
      * eapply Forall2_impl; [| exact Hrows].
        intros v r [l [r_h [Hv [Hl [Hn Hrel]]]]].
        exists l, r_h. split; [assumption |]. split; [assumption |].
        split; [now apply Hold | assumption].
      * constructor; [| constructor].
        exists l_row, row_h. split; [reflexivity |]. split; [unfold l_row; lia |].
        split.
        -- rewrite Hframe by (unfold l_row; lia).
           unfold h3, l_row. rewrite nth_error_app2 by lia. now rewrite Nat.sub_diag.
        -- apply row_rel_result_row.
  - cbn [bound_at]. exists l_tr. split; [reflexivity |]. split; [lia |].
    rewrite Hframe by lia. unfold h3. rewrite nth_error_app1 by lia. exact N2.
Qed.

Lemma run_service_loop (h0 : heap T) schv sch fixed elements ss :
  repr_schedule h0 schv sch ->
  Forall2 (repr_service h0) elements ss ->
  forall h rows bv b,
    loop_inv h0 h rows bv b ->
    let run := for_each (Heap.service_body schv (VNum fixed) (VRef (List.length h0)))
                        elements bv h in
    match foldM (pure_service_body sch fixed) ss (rows, b) with
    | Ok (rows', b') => exists bv', fst run = Ok bv' /\ loop_inv h0 (snd run) rows' bv' b'
    | Raise e => fst run = Raise e
    end.
Proof.
  intros Hsch Hall.
  induction Hall as [|sv s elements ss Hs _ IH]; intros h rows bv b Hinv run; subst run.
  - cbn [for_each foldM ret fst snd]. now exists bv.
  - cbn [for_each foldM].
    pose proof (run_service_body h0 schv sch fixed h rows bv b sv s Hsch Hs Hinv) as Hstep.
    cbv zeta in Hstep. unfold Heap.bind.
    destruct (Heap.service_body schv (VNum fixed) (VRef (List.length h0)) bv sv h)
      as [[a|e] h1];
      destruct (pure_service_body sch fixed (rows, b) s) as [[rows1 b1]|e1];
      cbn [fst snd pure_bind] in *.
    + destruct Hstep as [bv' [Ha Hinv1]]. inversion Ha; subst a.
      apply IH. exact Hinv1.
    + discriminate Hstep.
    + destruct Hstep as [bv' [Ha _]]. discriminate Ha.
    + exact Hstep.
Qed.

Lemma run_load (h : heap T) l o :
  nth_error h l = Some o -> load (VRef l) h = (Ok o, h).
Proof. intros H. unfold load. now rewrite H. Qed.

Lemma run_map_each_rows l_sd (h : heap T) refs rows :
  rows_at l_sd h refs rows ->
  exists rows_h,
    map_each dict_items refs h = (Ok rows_h, h) /\ Forall2 row_rel rows_h rows.
Proof.
  induction 1 as [|v r refs rows [l [r_h [-> [_ [Hn Hrel]]]]] _ [rows_h [Hrun Hall]]].
  - exists []. split; [reflexivity | constructor].
  - exists (r_h :: rows_h). split; [| now constructor].
    cbn [map_each].
    rewrite (run_bind _ _ h _ _ (run_dict_items h l r_h Hn)).
    rewrite (run_bind _ _ h _ _ Hrun). reflexivity.
Qed.

Lemma union_keys_related (rows_h : list (dict (value T))) (rows : list (dict (cell T))) :
  Forall2 row_rel rows_h rows -> union_keys rows_h = union_keys rows.
Proof.
  unfold union_keys. generalize (@nil string).
  intros acc H. revert acc.
  induction H as [|r_h r rows_h rows [Hkeys _] _ IH]; intros acc; simpl.
  - reflexivity.
  - rewrite Hkeys. apply IH.
Qed.

Lemma table_related cols labels
    (rows_h : list (dict (value T))) (rows : list (dict (cell T))) :
  Forall2 row_rel rows_h rows ->
  map (fun row =>
         map (fun c => match dict_find (combine cols row) c with
                       | Some x => x
                       | None => None
                       end) labels)
      (map (fun r => map (fun c => dict_find r c) cols) rows_h)
  = map (map cell_value)
        (map (fun row => map (fun c => cell_of (dict_find (combine cols row) c)) labels)
             (map (fun r => map (fun c => cell_of (dict_find r c)) cols) rows)).
Proof.
  induction 1 as [|r_h r rows_h rows [_ Hfind] _ IH]; simpl; [reflexivity |].
  f_equal; [| exact IH].
  rewrite map_map. apply map_ext. intros c.
  destruct (in_dec string_dec c cols) as [Hin | Hnin].
  - rewrite (dict_find_combine_map (fun c => dict_find r_h c) cols c Hin).
    rewrite (dict_find_combine_map (fun c => cell_of (dict_find r c)) cols c Hin).
    simpl. apply Hfind.
  - rewrite (dict_find_combine_None (fun c => dict_find r_h c) cols c Hnin).
    rewrite (dict_find_combine_None (fun c => cell_of (dict_find r c)) cols c Hnin).
    reflexivity.
Qed.

Lemma run_pd_DataFrame l_sd (h : heap T) refs rows :
  nth_error h l_sd = Some (OList refs) ->
  rows_at l_sd h refs rows ->
  exists rows_h,
    Forall2 row_rel rows_h rows /\
    Heap.pd_DataFrame (VRef l_sd) h
    = (Ok (VRef (List.length h)),
       h ++ [OFrame (union_keys rows)
                    (map (fun r => map (fun c => dict_find r c) (union_keys rows))
                         rows_h)]).
Proof.
  intros Hsd Hrows.
  destruct (run_map_each_rows l_sd h refs rows Hrows) as [rows_h [Hmap Hrel]].
  exists rows_h. split; [assumption |].
  unfold Heap.pd_DataFrame.
  rewrite (run_bind _ _ h _ _ (run_list_items h l_sd refs Hsd)).
  rewrite (run_bind _ _ h _ _ Hmap).
  cbv zeta. rewrite (union_keys_related _ _ Hrel). reflexivity.
Qed.

(** X7: On a store that holds [services] and the schedule, the call on the
    store returns a reference to the table that the function of the
    first embedding returns, cell by cell, or raises what it raises. *)
Theorem store_run_refines (h0 : heap T) sv schv x ss sch :
  repr_services h0 sv ss ->
  repr_schedule h0 schv sch ->
  let run := Heap.cvp_analysis_with_full_sliding_fee sv schv (VNum x) h0 in
  match pure_cvp ss sch x with
  | Ok df =>
      exists l,
        fst run = Ok (VRef l) /\
        nth_error (snd run) l
        = Some (OFrame (columns df) (map (map cell_value) (data df)))
  | Raise e => fst run = Raise e
  end.
Proof.
  intros [l_ss [xs [-> [Hss Hall]]]] Hsch run. subst run.
  unfold Heap.cvp_analysis_with_full_sliding_fee. unfold pure_cvp. cbv zeta.
  rewrite run_alloc.
  set (l_sd := List.length h0).
  set (h1 := h0 ++ [OList []]).
  assert (Hcont1 : contains h0 h1).
  { intros l o Hl. unfold h1. rewrite nth_error_app1; [assumption |].
    now apply nth_error_lt in Hl. }
  rewrite (run_bind _ _ h1 _ _ (run_list_items h1 l_ss xs (Hcont1 _ _ Hss))).
  rewrite (Forall2_length Hall). cbn [truediv_int].
  destruct (Nat.eqb (List.length ss) 0); [reflexivity |].
  rewrite run_ret. cbn [pure_bind].
  assert (Hinv1 : loop_inv h0 h1 [] None None).
  { split; [assumption |]. split; [| exact I].
    exists []. split; [| constructor].
    unfold h1. rewrite nth_error_app2 by lia. now rewrite Nat.sub_diag. }
  pose proof (run_service_loop h0 schv sch
                (truediv x (of_int (List.length ss))) xs ss Hsch Hall
                h1 [] None None Hinv1) as Hloop.
  cbv zeta in Hloop. fold l_sd in Hloop.
  destruct (for_each _ xs None h1) as [r h2] eqn:Eloop.
  rewrite (run_bind _ _ h1 _ _ Eloop). cbn [fst snd] in Hloop.
  revert Hloop.
  destruct (foldM _ ss _) as [[rows b]|e]; cbn [pure_bind]; intros Hloop.
  2:{ rewrite Hloop. reflexivity. }
  destruct Hloop as [bv' [-> [Hcont2 [[refs [Hsd Hrows]] Hbound]]]].
  destruct (run_pd_DataFrame l_sd h2 refs rows Hsd Hrows) as [rows_h [Hrel Hpd]].
  rewrite (run_bind _ _ h2 _ _ Hpd).
  set (cols := union_keys rows) in *.
  set (frame := OFrame cols _).
  set (l_df := List.length h2).
  set (h3 := h2 ++ [frame]).
  destruct bv' as [v|], b as [tr|]; cbn [bound_at] in Hbound; try contradiction.
  2:{ reflexivity. }
  destruct Hbound as [l_tr [-> [_ Htr]]].
  rewrite run_ret. cbn [pure_bind].
  assert (H3tr : nth_error h3 l_tr = Some (ODict (num_dict tr))).
  { unfold h3. rewrite nth_error_app1; [assumption |]. now apply nth_error_lt in Htr. }
  rewrite (run_bind _ _ h3 _ _ (run_dict_items h3 l_tr _ H3tr)).
  rewrite dict_keys_num_dict.
  set (labels := ["Service"; "Volume"] ++ dict_keys tr ++ totals_columns).
  assert (H3df : nth_error h3 l_df = Some frame).
  { unfold h3, l_df. rewrite nth_error_app2 by lia. now rewrite Nat.sub_diag. }
  unfold Heap.df_getitem. rewrite (run_bind _ _ h3 _ _ (run_load h3 l_df frame H3df)).
  unfold frame. cbn beta iota.
  unfold pure_df_getitem, pure_pd_DataFrame. cbn [columns data]. fold cols.
  destruct (find (fun c => negb (mem c cols)) labels) as [c|]; [reflexivity |].
  unfold alloc. cbn [fst snd columns data].
  exists (List.length h3). split; [reflexivity |].
  rewrite nth_error_app2 by lia. rewrite Nat.sub_diag. cbn [nth_error].
  do 2 f_equal. apply table_related. exact Hrel.
Qed.

End Refinement.

Lemma ex_heap_holds_the_example :
  repr_services ex_heap (VRef 0) ex_services /\
  repr_schedule ex_heap (VRef 2) ex_schedule.
Proof.
  split.
  - exists 0. eexists. split; [reflexivity |]. split; [reflexivity |].
    constructor; [| constructor].
    exists 1. eexists. split; [reflexivity |]. split; [reflexivity |].
    repeat split; reflexivity.
  - exists 2. eexists. split; [reflexivity |]. split; [reflexivity |].
    constructor; [| constructor]. split; [reflexivity |].
    exists 3. eexists. split; [reflexivity |]. split; [reflexivity |].
    constructor; [| constructor; [| constructor]].
    + split; [reflexivity |]. exists 4. split; reflexivity.
    + split; [reflexivity |]. exists 5. split; reflexivity.
Qed.

Lemma store_run_refines_witness :
  let run :=
    Heap.cvp_analysis_with_full_sliding_fee (VRef 0) (VRef 2) (VNum (q 1000 1)) ex_heap
  in
  exists l df,
    pure_cvp ex_services ex_schedule (q 1000 1) = Ok df /\
    fst run = Ok (VRef l) /\
    nth_error (snd run) l
    = Some (OFrame (columns df) (map (map cell_value) (data df))).
Proof.
  intros run.
  destruct ex_heap_holds_the_example as [Hss Hsch].
  pose proof (store_run_refines ex_heap (VRef 0) (VRef 2) (q 1000 1)
                ex_services ex_schedule Hss Hsch) as H.
  cbv zeta in H. fold run in H.
  destruct (valid_input_Ok ex_services ex_schedule (q 1000 1)) as [df Hdf].
  { split; [discriminate | reflexivity]. }
  rewrite Hdf in H. destruct H as [l [Hrun Hnth]].
  exists l, df. repeat split; assumption.
Defined.

End HeapFacts.

(** ** When the call returns and what it raises *)

Section Outcomes.

Context {T : Type} {NT : Number T}.

Implicit Types (services : list (service T)) (sliding_fee_schedule : schedule T).

Lemma mapM_Ok_all {A B : Type} (f : A -> result B) xs ys :
  mapM f xs = Ok ys -> forall x, In x xs -> exists y, f x = Ok y.
Proof.
  revert ys. induction xs as [|x0 xs IH]; simpl; intros ys H x Hx; [contradiction |].
  apply bind_Ok_inv in H. destruct H as [y0 [Hy0 H]].
  apply bind_Ok_inv in H. destruct H as [ys' [Hys _]].
  destruct Hx as [-> | Hx]; [now exists y0 | now apply (IH ys')].
Qed.

Lemma mapM_Raise_inv {A B : Type} (f : A -> result B) xs e :
  mapM f xs = Raise e -> exists x, In x xs /\ f x = Raise e.
Proof.
  induction xs as [|x xs IH]; simpl; intros H; [discriminate |].
  destruct (f x) as [y|e'] eqn:Hx; simpl in H.
  - destruct (mapM f xs) as [ys|e'']; simpl in H; [discriminate |].
    inversion H; subst. destruct (IH eq_refl) as [x' [Hin Hx']].
    exists x'. split; [now right | assumption].
  - inversion H; subst. exists x. split; [now left | assumption].
Qed.

Lemma tier_revenue_Ok_ok (vol : T) (values : dict T) r :
  tier_revenue vol values = Ok r -> tier_ok values = true.
Proof.
  intros H. destruct (tier_ok values) eqn:E; [reflexivity |].
  rewrite (tier_not_ok_revenue vol values E) in H. discriminate.
Qed.

Lemma tier_revenue_Raise (vol : T) (values : dict T) e :
  tier_revenue vol values = Raise e ->
  tier_ok values = false /\ e = KeyError (missing_field values).
Proof.
  intros H. destruct (tier_ok values) eqn:E.
  - destruct (tier_ok_revenue vol values E) as [r Hr]. congruence.
  - split; [reflexivity |]. rewrite (tier_not_ok_revenue vol values E) in H.
    now inversion H.
Qed.

Lemma service_row_Ok_ok sliding_fee_schedule fixed s rt :
  service_row sliding_fee_schedule fixed s = Ok rt ->
  service_ok sliding_fee_schedule s = true.
Proof.
  destruct rt as [row tr]. intros H. apply service_row_inv in H.
  destruct H as [tiers [revs [Hfind [Hrevs _]]]].
  unfold service_ok. rewrite Hfind. apply forallb_forall. intros it Hit.
  destruct (mapM_Ok_all _ _ _ Hrevs it Hit) as [r Hr].
  now apply tier_revenue_Ok_ok in Hr.
Qed.

(** X1: For services that have their three keys and numbers on which
    Python's arithmetic returns (the scope of [Number]: floats,
    [Fraction]s, [int]s within the range of binary64), the call returns
    a table exactly on the structurally valid inputs: a non-empty
    [services], every name of it in the schedule, and every tier of
    those entries with ['percentage'] and ['price']. *)
Theorem returns_a_table_iff_valid services sliding_fee_schedule total_fixed_costs :
  (exists df,
     cvp_analysis_with_full_sliding_fee services sliding_fee_schedule total_fixed_costs
     = Ok df)
  <-> valid_input services sliding_fee_schedule.
Proof.
  split.
  - intros [df Hdf]. apply cvp_Ok_inv in Hdf.
    destruct Hdf as [Hne [rs [tr [Hm _]]]]. split; [assumption |].
    apply forallb_forall. intros s Hs.
    destruct (mapM_Ok_all _ _ _ Hm s Hs) as [rt Hrt].
    now apply service_row_Ok_ok in Hrt.
  - apply valid_input_Ok.
Qed.

(** X2: For services that have their three keys and numbers on which
    Python's arithmetic returns (the scope of [Number]), every
    exception of the call is one of three: [ZeroDivisionError] for an
    empty [services]; [KeyError] with the name of a service that has no
    schedule entry; [KeyError] with the field a tier of a service
    lacks.  The unbound-variable read of line 78 and the column
    selection of line 80 never fail. *)
Theorem every_failure_is_one_of_three
    services sliding_fee_schedule total_fixed_costs e :
  cvp_analysis_with_full_sliding_fee services sliding_fee_schedule total_fixed_costs
  = Raise e ->
  (services = [] /\ e = ZeroDivisionError) \/
  (exists s,
     In s services /\
     dict_find sliding_fee_schedule (service_name s) = None /\
     e = KeyError (service_name s)) \/
  (exists s tiers tier values,
     In s services /\
     dict_find sliding_fee_schedule (service_name s) = Some tiers /\
     In (tier, values) tiers /\
     tier_ok values = false /\
     e = KeyError (missing_field values)).
Proof.
  intros H. destruct services as [|s0 services'] eqn:Hss.
  - left. rewrite cvp_empty in H. inversion H. now split.
  - right. rewrite <- Hss in *.
    assert (Hne : services <> []) by (rewrite Hss; discriminate).
    destruct (mapM (service_row sliding_fee_schedule
                (truediv total_fixed_costs (of_int (List.length services)))) services)
      as [rs|e'] eqn:Hm.
    + destruct (cvp_run _ _ _ _ Hne Hm) as [tr [_ Hrun]]. congruence.
    + rewrite (cvp_raise _ _ _ _ Hne Hm) in H. inversion H; subst e'.
      apply mapM_Raise_inv in Hm. destruct Hm as [s [Hs Hrow]].
      unfold service_row, dict_get in Hrow.
      destruct (dict_find sliding_fee_schedule (service_name s)) as [tiers|] eqn:Hfind.
      * right. cbn [bind] in Hrow.
        destruct (mapM (fun it => tier_revenue (volume s) (snd it)) tiers)
          as [revs|e'] eqn:Hrevs; cbn [bind] in Hrow; [discriminate |].
        inversion Hrow; subst e'.
        apply mapM_Raise_inv in Hrevs. destruct Hrevs as [[tier values] [Hit Hrev]].
        apply tier_revenue_Raise in Hrev. destruct Hrev as [Hbad He].
        exists s, tiers, tier, values. now repeat split.
      * left. cbn [bind] in Hrow. inversion Hrow.
        exists s. now repeat split.
Qed.

End Outcomes.

(** ** Cells outside the totals *)

Section OtherCells.

Context {T : Type} {NT : Number T}.

Implicit Types (services : list (service T)) (sliding_fee_schedule : schedule T).

Lemma result_row_volume name vol (tr : dict T) rev tvc fixed tc profit :
  ~ In "Volume" (dict_keys tr) ->
  dict_find (result_row name vol tr rev tvc fixed tc profit) "Volume"
  = Some (CNum vol).
Proof.
  intros Hfree. unfold result_row.
  repeat rewrite dict_find_set_other by discriminate.
  rewrite dict_find_update_notin.
  - apply dict_find_set_same.
  - unfold dict_keys. rewrite map_map. exact Hfree.
Qed.

Lemma result_row_keys_inv name vol (tr : dict T) rev tvc fixed tc profit x :
  In x (dict_keys (result_row name vol tr rev tvc fixed tc profit)) ->
  In x (column_order tr).
Proof.
  unfold result_row, column_order. intros H. rewrite !in_app_iff.
  repeat (apply dict_keys_set in H; destruct H as [-> | H];
          [simpl; intuition |]).
  apply dict_keys_update in H. destruct H as [H | H].
  - repeat (apply dict_keys_set in H; destruct H as [-> | H];
            [simpl; intuition |]).
    contradiction.
  - unfold dict_keys in H. rewrite map_map in H. right. left. exact H.
Qed.

(** The keys left in [tier_revenues] are tier names of the service. *)
Lemma service_row_tier_keys sliding_fee_schedule fixed s row tr tiers x :
  service_row sliding_fee_schedule fixed s = Ok (row, tr) ->
  dict_find sliding_fee_schedule (service_name s) = Some tiers ->
  In x (dict_keys tr) -> In x (dict_keys tiers).
Proof.
  intros Hs Hfind Hin. apply service_row_inv in Hs.
  destruct Hs as [tiers' [revs [Hfind' [Hrevs [Htr _]]]]].
  assert (tiers' = tiers) by congruence. subst tiers'.
  rewrite Htr in Hin. apply record_tiers_keys in Hin.
  destruct Hin as [[] | [Hin _]].
  rewrite dict_keys_combine in Hin; [assumption |].
  apply mapM_length in Hrevs. unfold dict_keys. now rewrite length_map.
Qed.

Lemma no_tier_named_find name sliding_fee_schedule key tiers :
  no_tier_named name sliding_fee_schedule ->
  dict_find sliding_fee_schedule key = Some tiers ->
  ~ In name (dict_keys tiers).
Proof.
  unfold no_tier_named. intros Hfree Hfind. apply dict_find_In in Hfind.
  rewrite forallb_forall in Hfree. apply Hfree in Hfind. cbn [snd] in Hfind.
  now apply negb_true_iff, mem_false in Hfind.
Qed.

Lemma volume_column services sliding_fee_schedule total_fixed_costs df :
  no_tier_named "Volume" sliding_fee_schedule ->
  cvp_analysis_with_full_sliding_fee services sliding_fee_schedule total_fixed_costs
  = Ok df ->
  df_column df "Volume" = map (fun s => CNum (volume s)) services.
Proof.
  intros Hfree Hdf. apply cvp_Ok_inv in Hdf.
  destruct Hdf as [_ [rs [trl [Hm [_ Hdf]]]]]. subst df.
  rewrite df_column_selected by (unfold column_order; simpl; tauto).
  rewrite map_map. apply Forall2_map_eq.
  apply mapM_Forall2 in Hm.
  induction Hm as [|s [row tr] services' rs' Hs _ IH]; constructor; [|exact IH].
  cbn [fst]. pose proof Hs as Hinv. apply service_row_inv in Hinv.
  destruct Hinv as [tiers [revs [Hfind [_ [_ Hrow]]]]].
  rewrite Hrow, result_row_volume; [reflexivity |].
  intros Hin. apply (no_tier_named_find _ _ _ _ Hfree Hfind).
  now apply (service_row_tier_keys _ _ _ _ _ _ _ Hs Hfind).
Qed.

(** X3: The rows follow [services]: when no tier is itself named "Service"
    or "Volume", the first two columns list the names and the volumes
    of [services], in its order and with its repetitions. *)
Theorem rows_follow_services services sliding_fee_schedule total_fixed_costs :
  valid_input services sliding_fee_schedule ->
  no_tier_named "Service" sliding_fee_schedule ->
  no_tier_named "Volume" sliding_fee_schedule ->
  exists df,
    cvp_analysis_with_full_sliding_fee services sliding_fee_schedule total_fixed_costs
    = Ok df /\
    df_column df "Service" = map (fun s => CStr (service_name s)) services /\
    df_column df "Volume" = map (fun s => CNum (volume s)) services.
Proof.
  intros Hvalid Hs Hv.
  destruct (valid_input_Ok _ _ total_fixed_costs Hvalid) as [df Hdf].
  exists df. split; [assumption |]. split.
  - now apply (service_column _ _ _ _ Hs Hdf).
  - now apply (volume_column _ _ _ _ Hv Hdf).
Qed.

(** X4: A column named after a tier of the last service holds [NaN] in the
    row of a service that has no tier of that name. *)
Theorem absent_tier_is_NaN
    services sliding_fee_schedule total_fixed_costs df i s tiers label :
  cvp_analysis_with_full_sliding_fee services sliding_fee_schedule total_fixed_costs
  = Ok df ->
  nth_error services i = Some s ->
  dict_find sliding_fee_schedule (service_name s) = Some tiers ->
  In label (columns df) ->
  ~ In label (dict_keys tiers) ->
  ~ In label (["Service"; "Volume"] ++ totals_columns) ->
  df_loc df i label = Some NaN.
Proof.
  intros Hdf Hi Hfind Hcol Hnot Hres.
  apply cvp_Ok_inv in Hdf. destruct Hdf as [_ [rs [trl [Hm [_ Hdf]]]]]. subst df.
  destruct (mapM_nth_error _ _ _ _ _ Hm Hi) as [[row tr] [Hrow Hs]].
  rewrite (df_loc_selected (map fst rs) (column_order trl) i row label).
  - assert (Hnone : dict_find row label = None).
    { destruct (dict_find row label) eqn:E; [| reflexivity]. exfalso.
      assert (Hk : In label (dict_keys row)) by (apply dict_find_In_keys; congruence).
      pose proof Hs as Hinv. apply service_row_inv in Hinv.
      destruct Hinv as [tiers' [revs [_ [_ [_ Hrowdef]]]]].
      rewrite Hrowdef in Hk. apply result_row_keys_inv in Hk.
      unfold column_order in Hk. rewrite !in_app_iff in Hk.
      destruct Hk as [Hk | [Hk | Hk]].
      - apply Hres. apply in_or_app. now left.
      - apply Hnot. now apply (service_row_tier_keys _ _ _ _ _ _ _ Hs Hfind).
      - apply Hres. apply in_or_app. now right. }
    now rewrite Hnone.
  - rewrite nth_error_map, Hrow. reflexivity.
  - exact Hcol.
Qed.

End OtherCells.

(** ** A service of no volume *)

Section ExactTotals.

Open Scope Qc_scope.

Lemma Qc_sum_list_zero (revs : list Qc) :
  Forall (fun r => r = 0) revs -> sum_list revs = 0.
Proof.
  unfold sum_list. change (of_int 0) with 0.
  induction 1 as [|r revs Hr _ IH]; cbn [fold_left]; [reflexivity |].
  subst r. cbn [add Qc_Number]. replace (0 + 0) with 0 by ring. exact IH.
Qed.

(** X6: Over the rationals a service of volume zero has total revenue zero,
    total variable costs zero, and as profit the negated share of the
    fixed costs. *)
Theorem zero_volume_row
    (services : list (service Qc)) (sliding_fee_schedule : schedule Qc)
    (total_fixed_costs : Qc) df i s :
  cvp_analysis_with_full_sliding_fee services sliding_fee_schedule total_fixed_costs
  = Ok df ->
  nth_error services i = Some s ->
  volume s = 0 ->
  df_loc df i "Total Revenue" = Some (CNum 0) /\
  df_loc df i "Total Variable Costs" = Some (CNum 0) /\
  df_loc df i "Profit"
  = Some (CNum (- (total_fixed_costs / of_int (List.length services)))).
Proof.
  intros Hdf Hi Hzero.
  destruct (cvp_rows _ _ _ _ _ _ Hdf Hi)
    as [tiers [revs [_ [Hrevs [Hrev [Htvc [_ [_ Hprofit]]]]]]]].
  assert (Hsum : sum_list revs = 0).
  { apply Qc_sum_list_zero. apply tier_revenues_Forall2 in Hrevs.
    rewrite Hzero in Hrevs. clear - Hrevs.
    induction Hrevs as [|it r tiers revs [p [c [_ [_ Hr]]]] _ IH]; constructor;
      [| exact IH].
    rewrite Hr. cbn [mul Qc_Number]. ring. }
  rewrite Hrev, Htvc, Hprofit, Hsum, Hzero. cbn [mul add sub truediv Qc_Number].
  repeat split; do 2 f_equal; ring.
Qed.

End ExactTotals.

(** ** What reaches a cell *)

Section Reach.

Context {T : Type} {NT : Number T}.

Implicit Types (services : list (service T)) (sliding_fee_schedule : schedule T).

(** Two rows that agree outside "Fixed Costs", "Total Costs" and
    "Profit". *)
Local Abbreviation agree_but_fixed r r' :=
  (forall c : string,
     c <> "Fixed Costs" -> c <> "Total Costs" -> c <> "Profit" ->
     dict_find r' c = dict_find r c) (only parsing).

Lemma service_row_other_fixed sliding_fee_schedule fixed fixed' s row tr :
  service_row sliding_fee_schedule fixed s = Ok (row, tr) ->
  exists row',
    service_row sliding_fee_schedule fixed' s = Ok (row', tr) /\
    agree_but_fixed row row'.
Proof.
  unfold service_row. intros H.
  destruct (dict_get sliding_fee_schedule (service_name s)) as [tiers|e];
    cbn [bind] in *; [| discriminate].
  destruct (mapM (fun it => tier_revenue (volume s) (snd it)) tiers) as [revs|e];
    cbn [bind] in *; [| discriminate].
  inversion H. eexists. split; [reflexivity |].
  intros c Hc1 Hc2 Hc3. unfold result_row.
  now rewrite !(dict_find_set_other _ c "Profit") by assumption;
    rewrite !(dict_find_set_other _ c "Total Costs") by assumption;
    rewrite !(dict_find_set_other _ c "Fixed Costs") by assumption.
Qed.

Lemma service_rows_other_fixed sliding_fee_schedule fixed fixed' services :
  forall rs,
    mapM (service_row sliding_fee_schedule fixed) services = Ok rs ->
    exists rs',
      mapM (service_row sliding_fee_schedule fixed') services = Ok rs' /\
      map snd rs' = map snd rs /\
      Forall2 (fun r r' => agree_but_fixed r r') (map fst rs) (map fst rs').
Proof.
  induction services as [|s services IH]; intros rs H.
  - inversion H. exists []. repeat split. constructor.
  - cbn [mapM] in H. apply bind_Ok_inv in H. destruct H as [[row tr] [Hrow H]].
    apply bind_Ok_inv in H. destruct H as [rs0 [Hrs H]]. inversion H; subst rs.
    destruct (service_row_other_fixed _ _ fixed' _ _ _ Hrow) as [row' [Hrow' Hagree]].
    destruct (IH _ Hrs) as [rs0' [Hrs' [Hsnd Hall]]].
    exists ((row', tr) :: rs0'). cbn [mapM]. rewrite Hrow', Hrs'. cbn [bind map fst snd].
    split; [reflexivity |]. split; [now rewrite Hsnd |]. now constructor.
Qed.

Lemma df_loc_table (rows : list (dict (cell T))) labels i c :
  df_loc (table rows labels) i c
  = match nth_error rows i with
    | Some r => if in_dec string_dec c labels
                then Some (cell_of (dict_find r c)) else None
    | None => None
    end.
Proof.
  unfold df_loc, table. cbn [data columns]. rewrite nth_error_map.
  destruct (nth_error rows i) as [r|]; cbn [option_map]; [| reflexivity].
  destruct (in_dec string_dec c labels) as [Hin | Hnin].
  - exact (dict_find_combine_map (fun c0 => cell_of (dict_find r c0)) labels c Hin).
  - exact (dict_find_combine_None (fun c0 => cell_of (dict_find r c0)) labels c Hnin).
Qed.

Lemma other_fixed_costs_return
    services sliding_fee_schedule total_fixed_costs other_fixed_costs df :
  cvp_analysis_with_full_sliding_fee services sliding_fee_schedule total_fixed_costs
  = Ok df ->
  exists df',
    cvp_analysis_with_full_sliding_fee services sliding_fee_schedule other_fixed_costs
    = Ok df' /\
    columns df' = columns df /\
    forall i c,
      c <> "Fixed Costs" -> c <> "Total Costs" -> c <> "Profit" ->
      df_loc df' i c = df_loc df i c.
Proof.
  intros H. apply cvp_Ok_inv in H. destruct H as [Hne [rs [tr [Hm [Hb ->]]]]].
  destruct (service_rows_other_fixed _ _
              (truediv other_fixed_costs (of_int (List.length services))) _ _ Hm)
    as [rs' [Hm' [Hsnd Hall]]].
  destruct (cvp_run _ _ _ _ Hne Hm') as [tr' [Hb' Hrun]].
  rewrite Hsnd, Hb in Hb'. inversion Hb'; subst tr'.
  eexists. split; [exact Hrun |]. split; [reflexivity |].
  intros i c H1 H2 H3. rewrite !df_loc_table.
  clear - Hall H1 H2 H3. revert i.
  induction Hall as [|r r' rows rows' Hr _ IH]; intros i.
  - now destruct i.
  - destruct i as [|i]; cbn [nth_error]; [| apply IH].
    now rewrite (Hr c H1 H2 H3).
Qed.

(** X17: The fixed costs reach three columns only.  Two calls that
    return, on the same services and schedule and whatever their fixed
    costs, give tables with the same columns and with the same cells
    outside "Fixed Costs", "Total Costs" and "Profit". *)
Theorem fixed_costs_reach_three_columns
    services sliding_fee_schedule total_fixed_costs other_fixed_costs df df' :
  cvp_analysis_with_full_sliding_fee services sliding_fee_schedule total_fixed_costs
  = Ok df ->
  cvp_analysis_with_full_sliding_fee services sliding_fee_schedule other_fixed_costs
  = Ok df' ->
  columns df' = columns df /\
  forall i c,
    c <> "Fixed Costs" -> c <> "Total Costs" -> c <> "Profit" ->
    df_loc df' i c = df_loc df i c.
Proof.
  intros Hdf Hdf'.
  destruct (other_fixed_costs_return _ _ _ other_fixed_costs _ Hdf)
    as [df0 [Hdf0 Hsame]].
  rewrite Hdf' in Hdf0. inversion Hdf0; subst df0. exact Hsame.
Qed.

(** X18: A row depends on its own service only.  Two calls with the same
    schedule and fixed costs, on lists of services of the same length
    that have the same service at a position, give that row the same
    cell in every column that both tables have. *)
Theorem rows_do_not_depend_on_other_services
    services services' sliding_fee_schedule total_fixed_costs df df' i s c :
  cvp_analysis_with_full_sliding_fee services sliding_fee_schedule total_fixed_costs
  = Ok df ->
  cvp_analysis_with_full_sliding_fee services' sliding_fee_schedule total_fixed_costs
  = Ok df' ->
  List.length services' = List.length services ->
  nth_error services i = Some s ->
  nth_error services' i = Some s ->
  In c (columns df) ->
  In c (columns df') ->
  df_loc df' i c = df_loc df i c.
Proof.
  intros H H' Hlen Hi Hi' Hc Hc'.
  apply cvp_Ok_inv in H. destruct H as [_ [rs [tr [Hm [_ ->]]]]].
  apply cvp_Ok_inv in H'. destruct H' as [_ [rs' [tr' [Hm' [_ ->]]]]].
  rewrite Hlen in Hm'.
  destruct (mapM_nth_error _ _ _ _ _ Hm Hi) as [rt [Hrt Hrow]].
  destruct (mapM_nth_error _ _ _ _ _ Hm' Hi') as [rt' [Hrt' Hrow']].
  rewrite Hrow in Hrow'. inversion Hrow'; subst rt'.
  cbn [columns table] in Hc, Hc'. rewrite !df_loc_table, !nth_error_map, Hrt, Hrt'.
  cbn [option_map].
  destruct (in_dec string_dec c (column_order tr)); [| contradiction].
  destruct (in_dec string_dec c (column_order tr')); [| contradiction].
  reflexivity.
Qed.

End Reach.

(** ** The dashboard: its layout and what the callback declares *)

Module DashFacts.

Import Dash.

Section Layout.

Context {T : Type} {NT : Number T}.

Implicit Types (services : list (service T)) (sliding_fee_schedule : schedule T).

Local Abbreviation tier_id name tier field :=
  (String.append name (String.append "-" (String.append tier field))) (only parsing).

Lemma has_key_find {V : Type} (d : dict V) k :
  has_key d k = true <-> exists v, dict_find d k = Some v.
Proof.
  unfold has_key. destruct (dict_find d k) as [v|].
  - split; [intros _; now exists v | reflexivity].
  - split; [discriminate | intros [v Hv]; discriminate].
Qed.

Lemma tier_inputs_Ok_iff name (it : string * dict T) :
  (exists c, tier_inputs name it = Ok c) <-> tier_ok (snd it) = true.
Proof.
  destruct it as [tier values]. unfold tier_inputs, tier_ok, dict_get, has_key.
  cbn [snd].
  destruct (dict_find values "price") as [p|], (dict_find values "percentage") as [c|];
    cbn [bind andb]; split; try reflexivity; try discriminate;
    try (intros [c0 H]; discriminate); intros _; eexists; reflexivity.
Qed.

Lemma create_service_inputs_Ok_iff sliding_fee_schedule s :
  (exists c, create_service_inputs sliding_fee_schedule s = Ok c)
  <-> service_ok sliding_fee_schedule s = true.
Proof.
  unfold create_service_inputs, service_ok, dict_get.
  destruct (dict_find sliding_fee_schedule (service_name s)) as [tiers|]; cbn [bind].
  - rewrite forallb_forall. split.
    + intros [c H] it Hit.
      destruct (mapM (tier_inputs (service_name s)) tiers) as [fields|e] eqn:Hm;
        cbn [bind] in H; [| discriminate].
      apply tier_inputs_Ok_iff with (name := service_name s).
      exact (mapM_Ok_all _ _ _ Hm it Hit).
    + intros Hall.
      destruct (mapM_total (tier_inputs (service_name s)) tiers) as [fields Hm].
      { intros it Hit. apply tier_inputs_Ok_iff. now apply Hall. }
      rewrite Hm. cbn [bind]. eexists. reflexivity.
  - split; [intros [c H]; discriminate | discriminate].
Qed.

Lemma build_layout_Ok_iff services sliding_fee_schedule :
  (exists layout, build_layout services sliding_fee_schedule = Ok layout)
  <-> forallb (service_ok sliding_fee_schedule) services = true.
Proof.
  unfold build_layout. rewrite forallb_forall. split.
  - intros [layout H] s Hs.
    destruct (mapM (create_service_inputs sliding_fee_schedule) services)
      as [cs|e] eqn:Hm; cbn [bind] in H; [| discriminate].
    apply create_service_inputs_Ok_iff. exact (mapM_Ok_all _ _ _ Hm s Hs).
  - intros Hall.
    destruct (mapM_total (create_service_inputs sliding_fee_schedule) services)
      as [cs Hm].
    { intros s Hs. apply create_service_inputs_Ok_iff. now apply Hall. }
    rewrite Hm. cbn [bind]. eexists. reflexivity.
Qed.

(** X9: The layout can be built exactly when the analysis of the same
    module data returns a table, whatever the fixed costs: both need
    every service to have a schedule entry whose tiers all have
    ['price'] and ['percentage']. *)
Theorem layout_builds_iff_analysis_returns
    services sliding_fee_schedule total_fixed_costs :
  services <> [] ->
  ((exists layout, build_layout services sliding_fee_schedule = Ok layout)
   <->
   (exists df,
      cvp_analysis_with_full_sliding_fee services sliding_fee_schedule total_fixed_costs
      = Ok df)).
Proof.
  intros Hne. rewrite build_layout_Ok_iff. split.
  - intros Hall. apply valid_input_Ok. now split.
  - intros [df Hdf]. apply cvp_Ok_inv in Hdf.
    destruct Hdf as [_ [rs [tr [Hm _]]]].
    apply forallb_forall. intros s Hs.
    destruct (mapM_Ok_all _ _ _ Hm s Hs) as [rt Hrt].
    now apply service_row_Ok_ok in Hrt.
Qed.

(** *** The [State]s and the input fields *)

Local Abbreviation keys_of sliding_fee_schedule s :=
  (match dict_find sliding_fee_schedule (service_name s) with
   | Some tiers => dict_keys tiers
   | None => []
   end) (only parsing).

Local Abbreviation service_ids sliding_fee_schedule s :=
  (String.append (service_name s) "-volume"
   :: String.append (service_name s) "-cost"
   :: flat_map (fun tier => [tier_id (service_name s) tier "-price";
                             tier_id (service_name s) tier "-percentage"])
               (keys_of sliding_fee_schedule s)) (only parsing).

Lemma fields_ids name (tiers : tier_set T) fields :
  mapM (tier_inputs name) tiers = Ok fields ->
  map fst (flat_map inputs_of fields)
  = flat_map (fun tier => [tier_id name tier "-price"; tier_id name tier "-percentage"])
             (dict_keys tiers).
Proof.
  revert fields. induction tiers as [|[tier values] tiers IH]; intros fields H.
  - inversion H. reflexivity.
  - cbn [mapM] in H. apply bind_Ok_inv in H. destruct H as [c [Hc H]].
    apply bind_Ok_inv in H. destruct H as [cs [Hcs H]]. inversion H; subst fields.
    cbn [flat_map dict_keys map fst]. rewrite map_app, (IH _ Hcs).
    unfold tier_inputs, dict_get in Hc.
    destruct (dict_find values "price") as [p|]; cbn [bind] in Hc; [| discriminate].
    destruct (dict_find values "percentage") as [pc|]; cbn [bind] in Hc;
      [| discriminate].
    inversion Hc. reflexivity.
Qed.

Lemma create_service_inputs_ids sliding_fee_schedule s c :
  create_service_inputs sliding_fee_schedule s = Ok c ->
  map fst (inputs_of c) = service_ids sliding_fee_schedule s.
Proof.
  unfold create_service_inputs, dict_get. intros H.
  destruct (dict_find sliding_fee_schedule (service_name s)) as [tiers|];
    cbn [bind] in H; [| discriminate].
  apply bind_Ok_inv in H. destruct H as [fields [Hf H]]. inversion H.
  cbn [inputs_of flat_map app map fst]. rewrite app_nil_r.
  now rewrite (fields_ids _ _ _ Hf).
Qed.

Lemma service_inputs_ids sliding_fee_schedule services cs :
  mapM (create_service_inputs sliding_fee_schedule) services = Ok cs ->
  map fst (flat_map inputs_of cs)
  = flat_map (fun s => service_ids sliding_fee_schedule s) services.
Proof.
  revert cs. induction services as [|s services IH]; intros cs H.
  - inversion H. reflexivity.
  - cbn [mapM] in H. apply bind_Ok_inv in H. destruct H as [c [Hc H]].
    apply bind_Ok_inv in H. destruct H as [cs' [Hcs H]]. inversion H; subst cs.
    cbn [flat_map]. rewrite map_app, (IH _ Hcs), (create_service_inputs_ids _ _ _ Hc).
    reflexivity.
Qed.

Lemma tier_states_Ok field services sliding_fee_schedule :
  (forall s, In s services -> dict_find sliding_fee_schedule (service_name s) <> None) ->
  tier_states field services sliding_fee_schedule
  = Ok (map (fun s => map (fun tier => (tier_id (service_name s) tier field, "value"))
                          (keys_of sliding_fee_schedule s))
            services).
Proof.
  unfold tier_states. induction services as [|s services IH]; intros H.
  - reflexivity.
  - cbn [mapM map]. rewrite IH by (intros s' Hs'; apply H; now right).
    unfold dict_get. specialize (H s (or_introl eq_refl)).
    destruct (dict_find sliding_fee_schedule (service_name s)); [| congruence].
    reflexivity.
Qed.

Lemma service_ok_found sliding_fee_schedule services :
  forallb (service_ok sliding_fee_schedule) services = true ->
  forall s, In s services -> dict_find sliding_fee_schedule (service_name s) <> None.
Proof.
  rewrite forallb_forall. intros H s Hs. specialize (H s Hs). unfold service_ok in H.
  destruct (dict_find sliding_fee_schedule (service_name s)); [discriminate |].
  discriminate.
Qed.

Lemma count_occ_pairs (f g : string -> string) ks x :
  count_occ string_dec (flat_map (fun k => [f k; g k]) ks) x
  = count_occ string_dec (map f ks) x + count_occ string_dec (map g ks) x.
Proof.
  induction ks as [|k ks IH]; [reflexivity |].
  cbn [flat_map map]. change (f k :: g k :: ?l) with ([f k] ++ [g k] ++ l).
  change ([f k; g k] ++ flat_map (fun k => [f k; g k]) ks)
    with ([f k] ++ [g k] ++ flat_map (fun k => [f k; g k]) ks).
  change (f k :: map f ks) with ([f k] ++ map f ks).
  change (g k :: map g ks) with ([g k] ++ map g ks).
  rewrite !count_occ_app, IH.
  change (count_occ string_dec [] x) with 0. lia.
Qed.

Lemma count_occ_states sliding_fee_schedule services x :
  count_occ string_dec
    (map (fun s => String.append (service_name s) "-volume") services ++
     map (fun s => String.append (service_name s) "-cost") services ++
     List.concat
       (map (fun s => map (fun tier => tier_id (service_name s) tier "-price")
                          (keys_of sliding_fee_schedule s)) services) ++
     List.concat
       (map (fun s => map (fun tier => tier_id (service_name s) tier "-percentage")
                          (keys_of sliding_fee_schedule s)) services)) x
  = count_occ string_dec
      (flat_map (fun s => service_ids sliding_fee_schedule s) services) x.
Proof.
  induction services as [|s services IH]; [reflexivity |].
  cbn [map List.concat flat_map].
  rewrite !count_occ_app in IH.
  change (?a :: ?b :: ?l ++ ?r) with ([a] ++ [b] ++ l ++ r).
  change (String.append (service_name s) "-volume" :: ?l)
    with ([String.append (service_name s) "-volume"] ++ l).
  change (String.append (service_name s) "-cost" :: ?l)
    with ([String.append (service_name s) "-cost"] ++ l).
  rewrite !count_occ_app, count_occ_pairs.
  change (count_occ string_dec [] x) with 0. lia.
Qed.

(** X10: Every [State] of the callback is the [value] of an input field of
    the layout and every input field is a [State], once each; the
    outputs and the input of the callback are components of the layout
    as well. *)
Theorem states_are_the_input_fields services sliding_fee_schedule layout :
  build_layout services sliding_fee_schedule = Ok layout ->
  exists states,
    callback_states services sliding_fee_schedule = Ok states /\
    Permutation (map fst states) (map fst (inputs_of layout)) /\
    Forall (fun d => snd d = "value") states /\
    incl (map fst (callback_outputs ++ callback_inputs)) (ids_of layout).
Proof.
  intros Hb.
  assert (Hok : forallb (service_ok sliding_fee_schedule) services = true).
  { apply build_layout_Ok_iff. now exists layout. }
  unfold build_layout in Hb. apply bind_Ok_inv in Hb.
  destruct Hb as [cs [Hcs Hb]]. inversion Hb; subst layout. clear Hb.
  unfold callback_states.
  rewrite !(tier_states_Ok _ _ _ (service_ok_found _ _ Hok)). cbn [bind].
  eexists. split; [reflexivity |]. split; [| split].
  - unfold app_layout. cbn [inputs_of flat_map app map fst].
    rewrite app_nil_r, (service_inputs_ids _ _ _ Hcs).
    rewrite !map_app, !concat_map, !map_map. cbn [map fst].
    rewrite !app_assoc. apply Permutation_sym, Permutation_cons_app.
    rewrite app_nil_r, <- !app_assoc. apply Permutation_sym.
    apply (Permutation_count_occ string_dec). intros x.
    rewrite <- count_occ_states.
    assert (Hp : forall field : string,
               map (fun s : service T =>
                      map fst
                        (map (fun tier =>
                                (tier_id (service_name s) tier field, "value"))
                             (keys_of sliding_fee_schedule s))) services
               = map (fun s =>
                        map (fun tier => tier_id (service_name s) tier field)
                            (keys_of sliding_fee_schedule s)) services).
    { intros field. apply map_ext. intros s. now rewrite map_map. }
    rewrite !Hp. reflexivity.
  - rewrite !Forall_app. repeat split.
    + apply Forall_map, Forall_forall. reflexivity.
    + apply Forall_map, Forall_forall. reflexivity.
    + apply Forall_concat, Forall_map, Forall_forall. intros s _.
      apply Forall_map, Forall_forall. reflexivity.
    + apply Forall_concat, Forall_map, Forall_forall. intros s _.
      apply Forall_map, Forall_forall. reflexivity.
    + constructor; [reflexivity | constructor].
  - unfold app_layout. cbn [ids_of flat_map app].
    intros x Hx. right. apply in_or_app. right.
    cbn [callback_outputs callback_inputs app map fst] in Hx.
    destruct Hx as [<- | [<- | [<- | []]]]; simpl; tauto.
Qed.

(** *** Where each [State] stands *)

Lemma length_concat_uniform {A : Type} (m : nat) (ls : list (list A)) :
  Forall (fun l => List.length l = m) ls ->
  List.length (List.concat ls) = List.length ls * m.
Proof.
  induction 1 as [|l ls Hl _ IH]; [reflexivity |].
  cbn [List.concat List.length]. rewrite length_app, IH, Hl. reflexivity.
Qed.

Lemma nth_error_concat_uniform {A : Type} (m : nat) (ls : list (list A)) :
  Forall (fun l => List.length l = m) ls ->
  forall i j l,
    nth_error ls i = Some l -> j < m ->
    nth_error (List.concat ls) (i * m + j) = nth_error l j.
Proof.
  induction 1 as [|l0 ls Hl _ IH]; intros i j l Hi Hj.
  - destruct i; discriminate.
  - destruct i as [|i]; cbn [nth_error List.concat] in *.
    + inversion Hi; subst l0. cbn [Nat.mul Nat.add].
      apply nth_error_app1. lia.
    + rewrite nth_error_app2 by (cbn [Nat.mul]; lia).
      replace (S i * m + j - List.length l0) with (i * m + j)
        by (cbn [Nat.mul]; lia).
      now apply IH.
Qed.

Lemma callback_states_positions m services sliding_fee_schedule :
  uniform_tiers m services sliding_fee_schedule ->
  let n := List.length services in
  exists states,
    callback_states services sliding_fee_schedule = Ok states /\
    List.length states = 2 * n + 2 * (n * m) + 1 /\
    nth_error states (2 * n + 2 * (n * m)) = Some ("fixed-cost-input", "value") /\
    forall i s,
      nth_error services i = Some s ->
      nth_error states i = Some (String.append (service_name s) "-volume", "value") /\
      nth_error states (n + i)
      = Some (String.append (service_name s) "-cost", "value") /\
      forall tiers j tier,
        dict_find sliding_fee_schedule (service_name s) = Some tiers ->
        nth_error (dict_keys tiers) j = Some tier ->
        nth_error states (2 * n + i * m + j)
        = Some (tier_id (service_name s) tier "-price", "value") /\
        nth_error states (2 * n + n * m + i * m + j)
        = Some (tier_id (service_name s) tier "-percentage", "value").
Proof.
  intros Huni n.
  assert (Hfound : forall s, In s services ->
                     exists tiers,
                       dict_find sliding_fee_schedule (service_name s) = Some tiers /\
                       List.length tiers = m).
  { unfold uniform_tiers in Huni. rewrite forallb_forall in Huni. intros s Hs.
    specialize (Huni s Hs).
    destruct (dict_find sliding_fee_schedule (service_name s)) as [tiers|];
      [| discriminate].
    exists tiers. split; [reflexivity | now apply Nat.eqb_eq]. }
  unfold callback_states. rewrite !tier_states_Ok.
  2,3: intros s Hs; destruct (Hfound s Hs) as [tiers [-> _]]; discriminate.
  cbn [bind]. eexists. split; [reflexivity |]. unfold dependency.
  set (V := map (fun s : service T =>
                   (String.append (service_name s) "-volume", "value")) services).
  set (C := map (fun s : service T =>
                   (String.append (service_name s) "-cost", "value")) services).
  set (P := map (fun s : service T =>
                   map (fun tier => (tier_id (service_name s) tier "-price", "value"))
                       (keys_of sliding_fee_schedule s)) services).
  set (Q := map (fun s : service T =>
                   map (fun tier =>
                          (tier_id (service_name s) tier "-percentage", "value"))
                       (keys_of sliding_fee_schedule s)) services).
  assert (HV : List.length V = n) by apply length_map.
  assert (HC : List.length C = n) by apply length_map.
  assert (HPu : Forall (fun l => List.length l = m) P).
  { apply Forall_map, Forall_forall. intros s Hs.
    destruct (Hfound s Hs) as [tiers [-> Hm]].
    unfold dict_keys. now rewrite !length_map. }
  assert (HQu : Forall (fun l => List.length l = m) Q).
  { apply Forall_map, Forall_forall. intros s Hs.
    destruct (Hfound s Hs) as [tiers [-> Hm]].
    unfold dict_keys. now rewrite !length_map. }
  assert (HP : List.length (List.concat P) = n * m).
  { rewrite (length_concat_uniform m P HPu). unfold P. now rewrite length_map. }
  assert (HQ : List.length (List.concat Q) = n * m).
  { rewrite (length_concat_uniform m Q HQu). unfold Q. now rewrite length_map. }
  split; [| split].
  - rewrite !length_app, HV, HC, HP, HQ. cbn [List.length]. lia.
  - rewrite nth_error_app2 by lia. rewrite nth_error_app2 by lia.
    rewrite nth_error_app2 by lia. rewrite nth_error_app2 by lia.
    rewrite HV, HC, HP, HQ.
    replace (2 * n + 2 * (n * m) - n - n - n * m - n * m) with 0 by lia.
    reflexivity.
  - intros i s Hi.
    assert (Hlt : i < n) by (apply nth_error_Some; congruence).
    split; [| split].
    + rewrite nth_error_app1 by lia. unfold V. rewrite nth_error_map, Hi. reflexivity.
    + rewrite nth_error_app2 by lia. rewrite HV.
      replace (n + i - n) with i by lia.
      rewrite nth_error_app1 by lia. unfold C. rewrite nth_error_map, Hi. reflexivity.
    + intros tiers j tier Hf Hj.
      assert (Hm : List.length tiers = m).
      { destruct (Hfound s (nth_error_In _ _ Hi)) as [tiers' [Hf' Hm]]. congruence. }
      assert (Hjm : j < m).
      { rewrite <- Hm. replace (List.length tiers) with (List.length (dict_keys tiers))
          by (unfold dict_keys; apply length_map).
        apply nth_error_Some. congruence. }
      assert (Him : i * m + j < n * m) by nia.
      split.
      * rewrite nth_error_app2 by lia. rewrite nth_error_app2 by lia.
        rewrite HV, HC. replace (2 * n + i * m + j - n - n) with (i * m + j) by lia.
        rewrite nth_error_app1 by lia.
        rewrite (nth_error_concat_uniform m P HPu i j _
                   ltac:(unfold P; rewrite nth_error_map, Hi; reflexivity) Hjm).
        rewrite Hf, nth_error_map, Hj. reflexivity.
      * rewrite nth_error_app2 by lia. rewrite nth_error_app2 by lia.
        rewrite nth_error_app2 by lia. rewrite HV, HC, HP.
        replace (2 * n + n * m + i * m + j - n - n - n * m) with (i * m + j) by lia.
        rewrite nth_error_app1 by lia.
        rewrite (nth_error_concat_uniform m Q HQu i j _
                   ltac:(unfold Q; rewrite nth_error_map, Hi; reflexivity) Hjm).
        rewrite Hf, nth_error_map, Hj. reflexivity.
Qed.

(** X11: When every service has [m] tiers, the callback declares
    [2n + 2nm + 1] [State]s: at position [i] the volume field of
    service [i], at [n + i] its cost field, at [2n + i*m + j] the price
    field of its tier [j], at [2n + n*m + i*m + j] the percentage field
    of that tier, and last the fixed-cost field.  These are the
    positions at which [update_graph] reads its arguments. *)
Theorem state_positions m services sliding_fee_schedule :
  uniform_tiers m services sliding_fee_schedule ->
  let n := List.length services in
  exists states,
    callback_states services sliding_fee_schedule = Ok states /\
    List.length states = 2 * n + 2 * (n * m) + 1 /\
    nth_error states (2 * n + 2 * (n * m)) = Some ("fixed-cost-input", "value") /\
    forall i s,
      nth_error services i = Some s ->
      nth_error states i = Some (String.append (service_name s) "-volume", "value") /\
      nth_error states (n + i)
      = Some (String.append (service_name s) "-cost", "value") /\
      forall tiers j tier,
        dict_find sliding_fee_schedule (service_name s) = Some tiers ->
        nth_error (dict_keys tiers) j = Some tier ->
        nth_error states (2 * n + i * m + j)
        = Some (tier_id (service_name s) tier "-price", "value") /\
        nth_error states (2 * n + n * m + i * m + j)
        = Some (tier_id (service_name s) tier "-percentage", "value").
Proof. exact (callback_states_positions m services sliding_fee_schedule). Qed.

End Layout.

(** ** The chart of a table *)

Section Chart.

Context {T : Type} {NT : Number T}.

Implicit Types (services : list (service T)) (sliding_fee_schedule : schedule T).

Lemma df_series_Ok (df : DataFrame T) c :
  In c (columns df) -> df_series df c = Ok (df_column df c).
Proof.
  intros H. unfold df_series. apply mem_In in H. now rewrite H.
Qed.

Lemma cvp_columns services sliding_fee_schedule total_fixed_costs df :
  cvp_analysis_with_full_sliding_fee services sliding_fee_schedule total_fixed_costs
  = Ok df ->
  In "Service" (columns df) /\ In "Profit" (columns df).
Proof.
  intros H. apply cvp_Ok_inv in H. destruct H as [_ [rs [tr [_ [_ ->]]]]].
  cbn [columns table]. split.
  - now left.
  - apply In_totals_column_order. simpl. tauto.
Qed.

Lemma df_column_nth (df : DataFrame T) i c x :
  df_loc df i c = Some x -> nth_error (df_column df c) i = Some x.
Proof.
  unfold df_loc, df_column. rewrite nth_error_map.
  destruct (nth_error (data df) i) as [row|]; [| discriminate].
  cbn [option_map]. now intros ->.
Qed.

Lemma cvp_charted services sliding_fee_schedule total_fixed_costs df :
  no_tier_named "Service" sliding_fee_schedule ->
  cvp_analysis_with_full_sliding_fee services sliding_fee_schedule total_fixed_costs
  = Ok df ->
  df_series df "Service" = Ok (map (fun s => CStr (service_name s)) services) /\
  df_series df "Profit" = Ok (df_column df "Profit") /\
  forall i s,
    nth_error services i = Some s ->
    exists tiers revs,
      dict_find sliding_fee_schedule (service_name s) = Some tiers /\
      mapM (fun it => tier_revenue (volume s) (snd it)) tiers = Ok revs /\
      nth_error (df_column df "Profit") i
      = Some (CNum (sub (sum_list revs)
                        (add (mul (variable_cost_per_unit s) (volume s))
                             (truediv total_fixed_costs
                                      (of_int (List.length services)))))).
Proof.
  intros Hs Hdf. destruct (cvp_columns _ _ _ _ Hdf) as [Hcs Hcp].
  split; [| split].
  - rewrite (df_series_Ok _ _ Hcs). now rewrite (service_column _ _ _ _ Hs Hdf).
  - exact (df_series_Ok _ _ Hcp).
  - intros i s Hi.
    destruct (cvp_rows _ _ _ _ _ _ Hdf Hi) as [tiers [revs [Hf [Hr [_ [_ [_ [_ Hp]]]]]]]].
    exists tiers, revs. split; [exact Hf |]. split; [exact Hr |].
    now apply df_column_nth.
Qed.

(** X8: The chart of the table of a valid input, when no tier is named
    like the columns it reads: [plot_profit_per_product] does not
    raise, and draws one bar per service, in the order of [services],
    labelled with the name of the service and as high as its total
    revenue less its variable costs and its share of the fixed costs. *)
Theorem chart_has_a_bar_per_service services sliding_fee_schedule total_fixed_costs :
  valid_input services sliding_fee_schedule ->
  no_tier_named "Service" sliding_fee_schedule ->
  no_tier_named "Profit" sliding_fee_schedule ->
  exists df chart,
    cvp_analysis_with_full_sliding_fee services sliding_fee_schedule total_fixed_costs
    = Ok df /\
    plot_profit_per_product df = Ok chart /\
    bar_x chart = map (fun s => CStr (service_name s)) services /\
    List.length (bar_height chart) = List.length services /\
    forall i s,
      nth_error services i = Some s ->
      exists tiers revs,
        dict_find sliding_fee_schedule (service_name s) = Some tiers /\
        mapM (fun it => tier_revenue (volume s) (snd it)) tiers = Ok revs /\
        nth_error (bar_height chart) i
        = Some (CNum (sub (sum_list revs)
                          (add (mul (variable_cost_per_unit s) (volume s))
                               (truediv total_fixed_costs
                                        (of_int (List.length services)))))).
Proof.
  intros Hvalid Hs _.
  destruct (valid_input_Ok _ _ total_fixed_costs Hvalid) as [df Hdf].
  destruct (cvp_charted _ _ _ _ Hs Hdf) as [Hx [Hy Hbars]].
  exists df. eexists. split; [exact Hdf |]. split.
  - unfold plot_profit_per_product. rewrite Hx, Hy. cbn [bind]. reflexivity.
  - cbn [bar_x bar_height]. split; [reflexivity |]. split; [| exact Hbars].
    unfold df_column. rewrite length_map. exact (cvp_row_count _ _ _ _ Hdf).
Qed.

End Chart.

(** ** The dashboard: what [update_graph] writes *)

Section Update.

Context {T : Type} {NT : Number T}.

Variable money : T -> string.

Variable Series_sum : list (cell T) -> T.

Implicit Types (services : list (service T)) (sliding_fee_schedule : schedule T).
Implicit Types (args : list T).

(** *** The shape of the schedule is kept *)

Lemma tier_le_refl (it : string * dict T) : tier_le it it.
Proof. split; [reflexivity | auto]. Qed.

Lemma Forall2_same {A : Type} (R : A -> A -> Prop) (xs : list A) :
  (forall x, R x x) -> Forall2 R xs xs.
Proof. intros H. induction xs; constructor; auto. Qed.

Lemma Forall2_chain {A : Type} (R : A -> A -> Prop) (xs ys zs : list A) :
  (forall x y z, R x y -> R y z -> R x z) ->
  Forall2 R xs ys -> Forall2 R ys zs -> Forall2 R xs zs.
Proof.
  intros Ht H. revert zs. induction H as [|x y xs ys Hxy _ IH]; intros zs Hz.
  - inversion Hz. constructor.
  - inversion Hz; subst. constructor; eauto.
Qed.

Lemma entry_le_refl (e : string * tier_set T) : entry_le e e.
Proof. split; [reflexivity | apply Forall2_same, tier_le_refl]. Qed.

Lemma schedule_le_refl sliding_fee_schedule :
  schedule_le sliding_fee_schedule sliding_fee_schedule.
Proof. apply Forall2_same, entry_le_refl. Qed.

Lemma tier_le_trans (a b c : string * dict T) : tier_le a b -> tier_le b c -> tier_le a c.
Proof. intros [H1 H2] [H3 H4]. split; [congruence | auto]. Qed.

Lemma entry_le_trans (a b c : string * tier_set T) :
  entry_le a b -> entry_le b c -> entry_le a c.
Proof.
  intros [H1 H2] [H3 H4]. split; [congruence |].
  exact (Forall2_chain _ _ _ _ tier_le_trans H2 H4).
Qed.

Lemma schedule_le_trans (a b c : schedule T) :
  schedule_le a b -> schedule_le b c -> schedule_le a c.
Proof. apply Forall2_chain, entry_le_trans. Qed.

Lemma Forall2_dict_set {V : Type} (R : string * V -> string * V -> Prop)
    (d : dict V) k v0 v :
  (forall it, R it it) ->
  dict_find d k = Some v0 ->
  R (k, v0) (k, v) ->
  Forall2 R d (dict_set d k v).
Proof.
  intros Hrefl. induction d as [|[k' v'] d IH]; cbn [dict_find dict_set]; intros Hf HR.
  - discriminate.
  - destruct (String.eqb k k') eqn:E.
    + apply String.eqb_eq in E. subst k'. inversion Hf; subst v'.
      constructor; [assumption | now apply Forall2_same].
    + constructor; [apply Hrefl | now apply IH].
Qed.

Lemma has_key_set (values : dict T) f x k :
  has_key values k = true -> has_key (dict_set values f x) k = true.
Proof.
  unfold has_key. destruct (String.eqb k f) eqn:E.
  - apply String.eqb_eq in E. subst k. now rewrite dict_find_set_same.
  - apply String.eqb_neq in E. now rewrite (dict_find_set_other _ _ _ _ E).
Qed.

Lemma set_field_le sliding_fee_schedule name tier f x schedule' :
  set_field sliding_fee_schedule name tier f x = Ok schedule' ->
  schedule_le sliding_fee_schedule schedule'.
Proof.
  unfold set_field, dict_get. intros H.
  destruct (dict_find sliding_fee_schedule name) as [tiers|] eqn:Hn;
    cbn [bind] in H; [| discriminate].
  destruct (dict_find tiers tier) as [values|] eqn:Ht; cbn [bind] in H;
    [| discriminate].
  inversion H. apply (Forall2_dict_set _ _ _ _ _ entry_le_refl Hn).
  split; [reflexivity |]. cbn [snd].
  apply (Forall2_dict_set _ _ _ _ _ tier_le_refl Ht).
  split; [reflexivity |]. cbn [snd]. intros k. apply has_key_set.
Qed.

Lemma update_tier_le args n i j name tier sliding_fee_schedule :
  schedule_le sliding_fee_schedule
    (snd (update_tier args n i j name tier sliding_fee_schedule)).
Proof.
  unfold update_tier.
  destruct (of_result (tier_count sliding_fee_schedule name)) as [m|f];
    [| apply schedule_le_refl].
  destruct (arg args _) as [price|f]; [| apply schedule_le_refl].
  destruct (set_field sliding_fee_schedule name tier "price" price)
    as [schedule1|e] eqn:H1; cbn [of_result]; [| apply schedule_le_refl].
  apply set_field_le in H1.
  destruct (of_result (tier_count schedule1 name)) as [m1|f]; [| exact H1].
  destruct (arg args _) as [percentage|f]; [| exact H1].
  destruct (set_field schedule1 name tier "percentage" percentage)
    as [schedule2|e] eqn:H2; cbn [of_result snd]; [| exact H1].
  apply set_field_le in H2. exact (schedule_le_trans _ _ _ H1 H2).
Qed.

Lemma update_tiers_le args n i name tiers :
  forall j sliding_fee_schedule,
    schedule_le sliding_fee_schedule
      (snd (update_tiers args n i j name tiers sliding_fee_schedule)).
Proof.
  induction tiers as [|tier tiers IH]; intros j sliding_fee_schedule;
    cbn [update_tiers].
  - apply schedule_le_refl.
  - pose proof (update_tier_le args n i j name tier sliding_fee_schedule) as H.
    destruct (update_tier args n i j name tier sliding_fee_schedule) as [[u|f] schedule1];
      cbn [snd] in *; [| exact H].
    exact (schedule_le_trans _ _ _ H (IH _ _)).
Qed.

Lemma update_schedule_le args n names :
  forall i sliding_fee_schedule,
    schedule_le sliding_fee_schedule
      (snd (update_schedule args n i names sliding_fee_schedule)).
Proof.
  induction names as [|name names IH]; intros i sliding_fee_schedule;
    cbn [update_schedule].
  - apply schedule_le_refl.
  - destruct (of_result (dict_get sliding_fee_schedule name)) as [tiers|f];
      [| apply schedule_le_refl].
    pose proof (update_tiers_le args n i name (dict_keys tiers) 0 sliding_fee_schedule)
      as H.
    destruct (update_tiers args n i 0 name (dict_keys tiers) sliding_fee_schedule)
      as [[u|f] schedule1]; cbn [snd] in *; [| exact H].
    exact (schedule_le_trans _ _ _ H (IH _ _)).
Qed.

Lemma update_services_names args n :
  forall services arg_index,
    map service_name (snd (update_services args n arg_index services))
    = map service_name services.
Proof.
  induction services as [|s services IH]; intros arg_index; cbn [update_services].
  - reflexivity.
  - destruct (arg args arg_index) as [v|f]; [| reflexivity].
    destruct (arg args (n + arg_index)) as [c|f]; [| reflexivity].
    specialize (IH (S arg_index)).
    destruct (update_services args n (S arg_index) services) as [r rest'].
    cbn [snd map service_name] in *. now rewrite IH.
Qed.

Lemma tiers_le_keys (tiers tiers' : tier_set T) :
  Forall2 tier_le tiers tiers' -> dict_keys tiers' = dict_keys tiers.
Proof.
  induction 1 as [|it it' tiers tiers' [Hk _] _ IH]; [reflexivity |].
  unfold dict_keys in *. cbn [map]. now rewrite Hk, IH.
Qed.

Lemma tiers_le_ok (tiers tiers' : tier_set T) :
  Forall2 tier_le tiers tiers' ->
  forallb (fun it => tier_ok (snd it)) tiers = true ->
  forallb (fun it => tier_ok (snd it)) tiers' = true.
Proof.
  induction 1 as [|it it' tiers tiers' [_ Hh] _ IH]; [reflexivity |].
  cbn [forallb]. rewrite !andb_true_iff. intros [H1 H2]. split; [| now apply IH].
  unfold tier_ok in *. apply andb_true_iff in H1. destruct H1 as [Ha Hb].
  now rewrite (Hh _ Ha), (Hh _ Hb).
Qed.

Lemma schedule_le_keys (a b : schedule T) : schedule_le a b -> dict_keys b = dict_keys a.
Proof.
  induction 1 as [|e e' a b [Hk _] _ IH]; [reflexivity |].
  unfold dict_keys in *. cbn [map]. now rewrite Hk, IH.
Qed.

Lemma schedule_le_find (a b : schedule T) name :
  schedule_le a b ->
  match dict_find a name with
  | Some tiers =>
      exists tiers', dict_find b name = Some tiers' /\ Forall2 tier_le tiers tiers'
  | None => dict_find b name = None
  end.
Proof.
  induction 1 as [|[k tiers] [k' tiers'] a b [Hk Ht] _ IH]; cbn [dict_find].
  - reflexivity.
  - cbn [fst snd] in Hk, Ht. subst k'. destruct (String.eqb name k); [| exact IH].
    now exists tiers'.
Qed.

Lemma schedule_le_service_ok (a b : schedule T) s :
  schedule_le a b -> service_ok a s = true -> service_ok b s = true.
Proof.
  intros Hle. unfold service_ok.
  pose proof (schedule_le_find a b (service_name s) Hle) as H.
  destruct (dict_find a (service_name s)) as [tiers|]; [| discriminate].
  destruct H as [tiers' [-> Ht]]. now apply tiers_le_ok.
Qed.

Lemma service_ok_name (a : schedule T) s s' :
  service_name s' = service_name s -> service_ok a s' = service_ok a s.
Proof. unfold service_ok. now intros ->. Qed.

Lemma update_graph_globals n_clicks args services sliding_fee_schedule :
  let g' := snd (update_graph money Series_sum n_clicks args (services, sliding_fee_schedule)) in
  map service_name (fst g') = map service_name services /\
  schedule_le sliding_fee_schedule (snd g').
Proof.
  unfold update_graph. destruct (Nat.eqb n_clicks 0).
  { split; [reflexivity | apply schedule_le_refl]. }
  pose proof (update_services_names args (List.length services) services 0) as Hn.
  destruct (update_services args (List.length services) 0 services)
    as [[u|f] services1]; cbn [snd] in Hn.
  2:{ split; [exact Hn | apply schedule_le_refl]. }
  pose proof (update_schedule_le args (List.length services)
                (map service_name services1) 0 sliding_fee_schedule) as Hs.
  destruct (update_schedule args (List.length services) 0
              (map service_name services1) sliding_fee_schedule)
    as [[u'|f] schedule1]; cbn [snd] in Hs.
  2:{ split; [exact Hn | exact Hs]. }
  destruct (last_arg args) as [fixed_costs|f]; split; assumption.
Qed.

(** X12: Whatever it is passed and whether it returns or raises,
    [update_graph] leaves the services, the schedule entries and the
    tiers what they were, in number, name and order: it only
    overwrites numbers.  Data on which every service has a well-formed
    schedule entry stays so. *)
Theorem update_graph_keeps_the_structure n_clicks args (g : globals T) :
  let g' := snd (update_graph money Series_sum n_clicks args g) in
  map service_name (fst g') = map service_name (fst g) /\
  dict_keys (snd g') = dict_keys (snd g) /\
  (forall name,
     option_map dict_keys (dict_find (snd g') name)
     = option_map dict_keys (dict_find (snd g) name)) /\
  (forallb (service_ok (snd g)) (fst g) = true ->
   forallb (service_ok (snd g')) (fst g') = true).
Proof.
  destruct g as [services sliding_fee_schedule].
  destruct (update_graph_globals n_clicks args services sliding_fee_schedule)
    as [Hn Hle].
  cbv zeta. cbn [fst snd].
  set (g' := snd (update_graph money Series_sum n_clicks args (services, sliding_fee_schedule)))
    in *.
  split; [exact Hn |]. split; [now apply schedule_le_keys |]. split.
  - intros name. pose proof (schedule_le_find _ _ name Hle) as H.
    destruct (dict_find sliding_fee_schedule name) as [tiers|].
    + destruct H as [tiers' [-> Ht]]. cbn [option_map].
      now rewrite (tiers_le_keys _ _ Ht).
    + now rewrite H.
  - rewrite !forallb_forall. intros Hall s' Hs'.
    assert (Hin : In (service_name s') (map service_name services)).
    { rewrite <- Hn. now apply in_map. }
    apply in_map_iff in Hin. destruct Hin as [s [Hname Hs]].
    rewrite <- (service_ok_name _ s' s Hname).
    apply (schedule_le_service_ok _ _ _ Hle). now apply Hall.
Qed.

(** *** What is written where *)

Lemma update_services_writes args n :
  forall services a,
    n + a + List.length services <= List.length args ->
    fst (update_services args n a services) = Done tt /\
    forall k s,
      nth_error services k = Some s ->
      exists s',
        nth_error (snd (update_services args n a services)) k = Some s' /\
        service_name s' = service_name s /\
        nth_error args (a + k) = Some (volume s') /\
        nth_error args (n + (a + k)) = Some (variable_cost_per_unit s').
Proof.
  induction services as [|s0 services IH]; intros a Hlen; cbn [update_services].
  - split; [reflexivity |]. intros [|k] s H; discriminate.
  - cbn [List.length] in Hlen. unfold arg.
    destruct (nth_error args a) as [v|] eqn:Hv.
    2:{ apply nth_error_None in Hv. lia. }
    destruct (nth_error args (n + a)) as [c|] eqn:Hc.
    2:{ apply nth_error_None in Hc. lia. }
    destruct (IH (S a)) as [Hd Hk]; [lia |].
    destruct (update_services args n (S a) services) as [r rest'].
    cbn [fst snd] in *. split; [exact Hd |].
    intros [|k] s Hs; cbn [nth_error] in *.
    + inversion Hs; subst s0. eexists. split; [reflexivity |].
      cbn [service_name volume variable_cost_per_unit].
      rewrite Nat.add_0_r. now repeat split.
    + destruct (Hk k s Hs) as [s' [H1 [H2 [H3 H4]]]].
      exists s'. replace (a + S k) with (S a + k) by lia. now repeat split.
Qed.

Lemma schedule_field_set sliding_fee_schedule name tier f x tiers values
    name' tier' f' :
  dict_find sliding_fee_schedule name = Some tiers ->
  dict_find tiers tier = Some values ->
  schedule_field
    (dict_set sliding_fee_schedule name (dict_set tiers tier (dict_set values f x)))
    name' tier' f'
  = if String.eqb name' name && String.eqb tier' tier && String.eqb f' f
    then Some x
    else schedule_field sliding_fee_schedule name' tier' f'.
Proof.
  intros Hn Ht. unfold schedule_field.
  destruct (String.eqb name' name) eqn:En; cbn [andb].
  - apply String.eqb_eq in En. subst name'. rewrite dict_find_set_same, Hn.
    destruct (String.eqb tier' tier) eqn:Et; cbn [andb].
    + apply String.eqb_eq in Et. subst tier'. rewrite dict_find_set_same, Ht.
      destruct (String.eqb f' f) eqn:Ef.
      * apply String.eqb_eq in Ef. subst f'. apply dict_find_set_same.
      * apply String.eqb_neq in Ef. now apply dict_find_set_other.
    + apply String.eqb_neq in Et. now rewrite (dict_find_set_other _ _ _ _ Et).
  - apply String.eqb_neq in En. now rewrite (dict_find_set_other _ _ _ _ En).
Qed.

Lemma dict_set_length {V : Type} (d : dict V) k v v0 :
  dict_find d k = Some v0 -> List.length (dict_set d k v) = List.length d.
Proof.
  induction d as [|[k' v'] d IH]; cbn [dict_find dict_set]; [discriminate |].
  destruct (String.eqb k k'); cbn [List.length]; [reflexivity |].
  intros H. now rewrite IH.
Qed.

Lemma update_tier_writes args n i j name tier sliding_fee_schedule tiers p c :
  dict_find sliding_fee_schedule name = Some tiers ->
  In tier (dict_keys tiers) ->
  nth_error args (2 * n + i * List.length tiers + j) = Some p ->
  nth_error args (2 * n + n * List.length tiers + i * List.length tiers + j) = Some c ->
  exists schedule',
    update_tier args n i j name tier sliding_fee_schedule = (Done tt, schedule') /\
    schedule_field schedule' name tier "price" = Some p /\
    schedule_field schedule' name tier "percentage" = Some c /\
    forall name' tier' f',
      name' <> name \/ tier' <> tier ->
      schedule_field schedule' name' tier' f'
      = schedule_field sliding_fee_schedule name' tier' f'.
Proof.
  intros Hn Hin Hp Hc.
  apply dict_find_In_keys in Hin.
  destruct (dict_find tiers tier) as [values|] eqn:Ht; [clear Hin | congruence].
  unfold update_tier, tier_count, set_field, dict_get.
  rewrite Hn. cbn [bind of_result]. unfold arg. rewrite Hp, Ht. cbn [bind of_result].
  rewrite dict_find_set_same. cbn [bind of_result].
  rewrite (dict_set_length _ _ _ _ Ht), Hc, dict_find_set_same.
  cbn [bind of_result].
  eexists. split; [reflexivity |].
  set (tiers1 := dict_set tiers tier (dict_set values "price" p)).
  set (schedule1 := dict_set sliding_fee_schedule name tiers1).
  assert (Hn1 : dict_find schedule1 name = Some tiers1) by apply dict_find_set_same.
  assert (Ht1 : dict_find tiers1 tier = Some (dict_set values "price" p))
    by apply dict_find_set_same.
  split; [| split].
  - rewrite (schedule_field_set schedule1 name tier "percentage" c _ _ _ _ _ Hn1 Ht1).
    rewrite !String.eqb_refl. cbn [andb String.eqb Ascii.eqb Bool.eqb].
    unfold schedule1, tiers1.
    rewrite (schedule_field_set _ name tier "price" p _ _ _ _ _ Hn Ht).
    now rewrite !String.eqb_refl.
  - rewrite (schedule_field_set schedule1 name tier "percentage" c _ _ _ _ _ Hn1 Ht1).
    now rewrite !String.eqb_refl.
  - intros name' tier' f' Hne.
    assert (E : String.eqb name' name && String.eqb tier' tier = false).
    { apply andb_false_iff.
      destruct Hne as [H | H]; [left | right]; now apply String.eqb_neq. }
    rewrite (schedule_field_set schedule1 name tier "percentage" c _ _ _ _ _ Hn1 Ht1).
    rewrite E. cbn [andb]. unfold schedule1, tiers1.
    rewrite (schedule_field_set _ name tier "price" p _ _ _ _ _ Hn Ht).
    now rewrite E.
Qed.

Lemma nth_error_Some_lt {A : Type} (xs : list A) i :
  i < List.length xs -> exists x, nth_error xs i = Some x.
Proof.
  intros H. destruct (nth_error xs i) as [x|] eqn:E; [now exists x |].
  apply nth_error_None in E. lia.
Qed.

Lemma update_tiers_writes args n i name :
  forall ks j sliding_fee_schedule tiers,
    dict_find sliding_fee_schedule name = Some tiers ->
    incl ks (dict_keys tiers) ->
    NoDup ks ->
    2 * n + n * List.length tiers + i * List.length tiers + j + List.length ks
    <= List.length args ->
    exists schedule',
      update_tiers args n i j name ks sliding_fee_schedule = (Done tt, schedule') /\
      (forall k tier,
         nth_error ks k = Some tier ->
         schedule_field schedule' name tier "price"
         = nth_error args (2 * n + i * List.length tiers + (j + k)) /\
         schedule_field schedule' name tier "percentage"
         = nth_error args (2 * n + n * List.length tiers + i * List.length tiers
                           + (j + k))) /\
      (forall name' tier' f',
         name' <> name \/ ~ In tier' ks ->
         schedule_field schedule' name' tier' f'
         = schedule_field sliding_fee_schedule name' tier' f').
Proof.
  induction ks as [|tier ks IH]; intros j sliding_fee_schedule tiers Hn Hincl Hnd Hlen;
    cbn [update_tiers].
  - eexists. split; [reflexivity |]. split; [| reflexivity].
    intros [|k] tier H; discriminate.
  - cbn [List.length] in Hlen. set (m := List.length tiers) in *.
    destruct (nth_error_Some_lt args (2 * n + i * m + j)) as [p Hp]; [lia |].
    destruct (nth_error_Some_lt args (2 * n + n * m + i * m + j)) as [c Hc]; [lia |].
    assert (Hin : In tier (dict_keys tiers)) by (apply Hincl; now left).
    destruct (update_tier_writes args n i j name tier sliding_fee_schedule tiers p c
                Hn Hin Hp Hc) as [schedule1 [Hrun [Hwp [Hwc Hframe]]]].
    rewrite Hrun.
    pose proof (update_tier_le args n i j name tier sliding_fee_schedule) as Hle.
    rewrite Hrun in Hle. cbn [snd] in Hle.
    pose proof (schedule_le_find _ _ name Hle) as Hfind. rewrite Hn in Hfind.
    destruct Hfind as [tiers1 [Hn1 Ht1]].
    assert (Hm1 : List.length tiers1 = m).
    { symmetry. exact (Forall2_length Ht1). }
    apply NoDup_cons_iff in Hnd. destruct Hnd as [Hnotin Hnd'].
    destruct (IH (S j) schedule1 tiers1 Hn1) as [schedule' [Hrun' [Hw' Hframe']]].
    { rewrite (tiers_le_keys _ _ Ht1). intros x Hx. apply Hincl. now right. }
    { exact Hnd'. }
    { rewrite Hm1. lia. }
    rewrite Hm1 in Hw'.
    exists schedule'. split; [exact Hrun' |]. split.
    + intros [|k] tier' Hk; cbn [nth_error] in Hk.
      * inversion Hk; subst tier'. rewrite Nat.add_0_r.
        rewrite !(Hframe' name tier) by (right; exact Hnotin).
        rewrite Hwp, Hwc, Hp, Hc. now split.
      * destruct (Hw' k tier' Hk) as [H1 H2].
        replace (j + S k) with (S j + k) by lia. now split.
    + intros name' tier' f' Hne. rewrite Hframe'.
      * apply Hframe. destruct Hne as [H | H]; [now left | right].
        intros ->. apply H. now left.
      * destruct Hne as [H | H]; [now left | right].
        intros Hin'. apply H. now right.
Qed.

(** The entries of the given names have [m] tiers each, of distinct
    names. *)
Local Abbreviation entries_of sliding_fee_schedule names m :=
  (forall name, In name names ->
     exists tiers,
       dict_find sliding_fee_schedule name = Some tiers /\
       List.length tiers = m /\ NoDup (dict_keys tiers)) (only parsing).

Lemma update_schedule_writes args n m :
  forall names i sliding_fee_schedule,
    NoDup names ->
    entries_of sliding_fee_schedule names m ->
    2 * n + n * m + (i + List.length names) * m <= List.length args ->
    exists schedule',
      update_schedule args n i names sliding_fee_schedule = (Done tt, schedule') /\
      (forall k name tiers j tier,
         nth_error names k = Some name ->
         dict_find sliding_fee_schedule name = Some tiers ->
         nth_error (dict_keys tiers) j = Some tier ->
         schedule_field schedule' name tier "price"
         = nth_error args (2 * n + (i + k) * m + j) /\
         schedule_field schedule' name tier "percentage"
         = nth_error args (2 * n + n * m + (i + k) * m + j)) /\
      (forall name' tier' f',
         ~ In name' names ->
         schedule_field schedule' name' tier' f'
         = schedule_field sliding_fee_schedule name' tier' f').
Proof.
  induction names as [|name names IH]; intros i sliding_fee_schedule Hnd Hall Hlen;
    cbn [update_schedule].
  - eexists. split; [reflexivity |]. split; [| reflexivity].
    intros [|k] name tiers j tier H; discriminate.
  - cbn [List.length] in Hlen.
    destruct (Hall name (or_introl eq_refl)) as [tiers [Hn [Hm Hkeys]]].
    unfold dict_get. rewrite Hn. cbn [of_result].
    assert (Hmul : (i + S (List.length names)) * m
                   = i * m + m + List.length names * m) by lia.
    destruct (update_tiers_writes args n i name (dict_keys tiers) 0
                sliding_fee_schedule tiers Hn (incl_refl _) Hkeys)
      as [schedule1 [Hrun [Hw Hframe]]].
    { rewrite Hm. unfold dict_keys. rewrite length_map, Hm. lia. }
    rewrite Hrun. rewrite Hm in Hw.
    pose proof (update_tiers_le args n i name (dict_keys tiers) 0 sliding_fee_schedule)
      as Hle.
    rewrite Hrun in Hle. cbn [snd] in Hle.
    apply NoDup_cons_iff in Hnd. destruct Hnd as [Hnotin Hnd'].
    destruct (IH (S i) schedule1 Hnd') as [schedule' [Hrun' [Hw' Hframe']]].
    { intros name' Hin'.
      destruct (Hall name' (or_intror Hin')) as [tiers' [Hn' [Hm' Hkeys']]].
      pose proof (schedule_le_find _ _ name' Hle) as Hfind. rewrite Hn' in Hfind.
      destruct Hfind as [tiers1 [Hn1 Ht1]]. exists tiers1.
      split; [exact Hn1 |]. split.
      - rewrite <- (Forall2_length Ht1). exact Hm'.
      - now rewrite (tiers_le_keys _ _ Ht1). }
    { replace ((S i + List.length names) * m)
        with ((i + S (List.length names)) * m) by (f_equal; lia).
      exact Hlen. }
    exists schedule'. split; [exact Hrun' |]. split.
    + intros [|k] name' tiers' j tier Hk Hn' Hj; cbn [nth_error] in Hk.
      * inversion Hk; subst name'. rewrite Hn in Hn'. inversion Hn'; subst tiers'.
        rewrite !(Hframe' name tier) by exact Hnotin.
        rewrite Nat.add_0_r. destruct (Hw j tier Hj) as [H1 H2].
        cbn [Nat.add] in H1, H2. now split.
      * pose proof (schedule_le_find _ _ name' Hle) as Hfind. rewrite Hn' in Hfind.
        destruct Hfind as [tiers1 [Hn1 Ht1]].
        rewrite <- (tiers_le_keys _ _ Ht1) in Hj.
        destruct (Hw' k name' tiers1 j tier Hk Hn1 Hj) as [H1 H2].
        replace (i + S k) with (S i + k) by lia. now split.
    + intros name' tier' f' Hne. rewrite Hframe'.
      * apply Hframe. left. intros ->. apply Hne. now left.
      * intros Hin'. apply Hne. now right.
Qed.

Lemma uniform_tiers_find m services sliding_fee_schedule s :
  uniform_tiers m services sliding_fee_schedule ->
  In s services ->
  exists tiers,
    dict_find sliding_fee_schedule (service_name s) = Some tiers /\
    List.length tiers = m.
Proof.
  unfold uniform_tiers. rewrite forallb_forall. intros H Hs. specialize (H s Hs).
  destruct (dict_find sliding_fee_schedule (service_name s)) as [tiers|];
    [| discriminate].
  exists tiers. split; [reflexivity |]. now apply Nat.eqb_eq.
Qed.

(** X13: When every service has [m] tiers, no two services share a name,
    and [update_graph] is passed a value for each [State], then after
    it each value is where its position says: position [i] is the
    volume of service [i], position [n + i] its variable cost,
    position [2n + i*m + j] the price of its tier [j] and position
    [2n + n*m + i*m + j] the percentage of that tier. *)
Theorem update_graph_writes_each_value
    m n_clicks args services sliding_fee_schedule :
  n_clicks <> 0 ->
  uniform_tiers m services sliding_fee_schedule ->
  schedule_wf sliding_fee_schedule ->
  NoDup (map service_name services) ->
  let n := List.length services in
  List.length args = 2 * n + 2 * (n * m) + 1 ->
  let g' := snd (update_graph money Series_sum n_clicks args (services, sliding_fee_schedule)) in
  forall i s,
    nth_error services i = Some s ->
    exists s',
      nth_error (fst g') i = Some s' /\
      service_name s' = service_name s /\
      nth_error args i = Some (volume s') /\
      nth_error args (n + i) = Some (variable_cost_per_unit s') /\
      forall tiers j tier,
        dict_find sliding_fee_schedule (service_name s) = Some tiers ->
        nth_error (dict_keys tiers) j = Some tier ->
        schedule_field (snd g') (service_name s) tier "price"
        = nth_error args (2 * n + i * m + j) /\
        schedule_field (snd g') (service_name s) tier "percentage"
        = nth_error args (2 * n + n * m + i * m + j).
Proof.
  intros Hclick Huni Hwf Hnd n Hlen g' i s Hi. subst g'.
  unfold update_graph. apply Nat.eqb_neq in Hclick. rewrite Hclick. fold n.
  destruct (update_services_writes args n services 0) as [Hd Hk]; [lia |].
  pose proof (update_services_names args n services 0) as Hnames.
  destruct (update_services args n 0 services) as [r services1].
  cbn [fst snd] in Hd, Hk, Hnames. subst r. rewrite Hnames.
  destruct (update_schedule_writes args n m (map service_name services) 0
              sliding_fee_schedule Hnd) as [schedule1 [Hrun [Hw _]]].
  { intros name Hin. apply in_map_iff in Hin. destruct Hin as [s0 [<- Hs0]].
    destruct (uniform_tiers_find _ _ _ _ Huni Hs0) as [tiers [Hf Hm]].
    exists tiers. split; [exact Hf |]. split; [exact Hm |].
    exact (schedule_wf_find _ _ _ Hwf Hf). }
  { rewrite length_map. fold n. cbn [Nat.add]. lia. }
  rewrite Hrun.
  destruct (Hk i s Hi) as [s' [H1 [H2 [H3 H4]]]]. cbn [Nat.add] in H3, H4.
  assert (Hw' : forall tiers j tier,
             dict_find sliding_fee_schedule (service_name s) = Some tiers ->
             nth_error (dict_keys tiers) j = Some tier ->
             schedule_field schedule1 (service_name s) tier "price"
             = nth_error args (2 * n + i * m + j) /\
             schedule_field schedule1 (service_name s) tier "percentage"
             = nth_error args (2 * n + n * m + i * m + j)).
  { intros tiers j tier Hf Hj.
    apply (Hw i (service_name s) tiers j tier); [| exact Hf | exact Hj].
    rewrite nth_error_map, Hi. reflexivity. }
  destruct (last_arg args); cbn [fst snd]; exists s';
    repeat (split; [assumption |]); exact Hw'.
Qed.

(** *** Values that are not there *)

Lemma update_services_fails args n :
  forall services a f,
    fst (update_services args n a services) = Failed f -> f = IndexError.
Proof.
  induction services as [|s services IH]; intros a f; cbn [update_services].
  - discriminate.
  - unfold arg.
    destruct (nth_error args a); [| cbn [fst]; congruence].
    destruct (nth_error args (n + a)); [| cbn [fst]; congruence].
    specialize (IH (S a) f).
    destruct (update_services args n (S a) services) as [r rest'].
    exact IH.
Qed.

Lemma update_tier_reads args n i j name tier sliding_fee_schedule tiers :
  dict_find sliding_fee_schedule name = Some tiers ->
  In tier (dict_keys tiers) ->
  match fst (update_tier args n i j name tier sliding_fee_schedule) with
  | Done _ =>
      2 * n + n * List.length tiers + i * List.length tiers + j < List.length args
  | Failed f => f = IndexError
  end.
Proof.
  intros Hn Hin. apply dict_find_In_keys in Hin.
  destruct (dict_find tiers tier) as [values|] eqn:Ht; [clear Hin | congruence].
  unfold update_tier, tier_count, set_field, dict_get.
  rewrite Hn. cbn [bind of_result]. unfold arg.
  destruct (nth_error args (2 * n + i * List.length tiers + j)) as [p|];
    [| reflexivity].
  rewrite Ht. cbn [bind of_result]. rewrite dict_find_set_same. cbn [bind of_result].
  rewrite (dict_set_length _ _ _ _ Ht), dict_find_set_same.
  destruct (nth_error args _) as [c|] eqn:Hc; cbn [bind of_result fst];
    [| reflexivity].
  apply nth_error_Some. congruence.
Qed.

Lemma update_tiers_reads args n i name :
  forall ks j sliding_fee_schedule tiers,
    dict_find sliding_fee_schedule name = Some tiers ->
    incl ks (dict_keys tiers) ->
    match fst (update_tiers args n i j name ks sliding_fee_schedule) with
    | Done _ =>
        forall k, k < List.length ks ->
          2 * n + n * List.length tiers + i * List.length tiers + (j + k)
          < List.length args
    | Failed f => f = IndexError
    end.
Proof.
  induction ks as [|tier ks IH]; intros j sliding_fee_schedule tiers Hn Hincl;
    cbn [update_tiers].
  - cbn [fst List.length]. intros k Hk. lia.
  - assert (Hin : In tier (dict_keys tiers)) by (apply Hincl; now left).
    pose proof (update_tier_reads args n i j name tier sliding_fee_schedule tiers
                  Hn Hin) as Hread.
    pose proof (update_tier_le args n i j name tier sliding_fee_schedule) as Hle.
    destruct (update_tier args n i j name tier sliding_fee_schedule)
      as [[u|f] schedule1]; cbn [fst snd] in *; [| exact Hread].
    pose proof (schedule_le_find _ _ name Hle) as Hfind. rewrite Hn in Hfind.
    destruct Hfind as [tiers1 [Hn1 Ht1]].
    specialize (IH (S j) schedule1 tiers1 Hn1).
    rewrite (tiers_le_keys _ _ Ht1), <- (Forall2_length Ht1) in IH.
    specialize (IH (fun x Hx => Hincl x (or_intror Hx))).
    destruct (fst (update_tiers args n i (S j) name ks schedule1)); [| exact IH].
    intros [|k] Hk.
    + now rewrite Nat.add_0_r.
    + replace (j + S k) with (S j + k) by lia. apply IH. cbn [List.length] in Hk. lia.
Qed.

Lemma update_schedule_reads args n :
  forall names i sliding_fee_schedule,
    (forall name, In name names -> dict_find sliding_fee_schedule name <> None) ->
    match fst (update_schedule args n i names sliding_fee_schedule) with
    | Done _ =>
        forall k name tiers j,
          nth_error names k = Some name ->
          dict_find sliding_fee_schedule name = Some tiers ->
          j < List.length tiers ->
          2 * n + n * List.length tiers + (i + k) * List.length tiers + j
          < List.length args
    | Failed f => f = IndexError
    end.
Proof.
  induction names as [|name names IH]; intros i sliding_fee_schedule Hall;
    cbn [update_schedule].
  - cbn [fst]. intros [|k] name tiers j H; discriminate.
  - pose proof (Hall name (or_introl eq_refl)) as Hfound. unfold dict_get.
    destruct (dict_find sliding_fee_schedule name) as [tiers|] eqn:Hn; [| congruence].
    clear Hfound. cbn [of_result].
    pose proof (update_tiers_reads args n i name (dict_keys tiers) 0
                  sliding_fee_schedule tiers Hn (incl_refl _)) as Hread.
    pose proof (update_tiers_le args n i name (dict_keys tiers) 0 sliding_fee_schedule)
      as Hle.
    destruct (update_tiers args n i 0 name (dict_keys tiers) sliding_fee_schedule)
      as [[u|f] schedule1]; cbn [fst snd] in *; [| exact Hread].
    specialize (IH (S i) schedule1).
    assert (Hall1 : forall name', In name' names -> dict_find schedule1 name' <> None).
    { intros name' Hin'. pose proof (schedule_le_find _ _ name' Hle) as Hfind.
      pose proof (Hall name' (or_intror Hin')) as Hf'.
      destruct (dict_find sliding_fee_schedule name'); [| congruence].
      destruct Hfind as [tiers1 [-> _]]. discriminate. }
    specialize (IH Hall1).
    destruct (fst (update_schedule args n (S i) names schedule1)); [| exact IH].
    intros [|k] name' tiers' j Hk Hn' Hj; cbn [nth_error] in Hk.
    + inversion Hk; subst name'. rewrite Hn in Hn'. inversion Hn'; subst tiers'.
      rewrite Nat.add_0_r. specialize (Hread j). cbn [Nat.add] in Hread.
      apply Hread. unfold dict_keys. now rewrite length_map.
    + pose proof (schedule_le_find _ _ name' Hle) as Hfind. rewrite Hn' in Hfind.
      destruct Hfind as [tiers1 [Hn1 Ht1]].
      specialize (IH k name' tiers1 j Hk Hn1).
      rewrite <- (Forall2_length Ht1) in IH.
      replace (i + S k) with (S i + k) by lia. now apply IH.
Qed.

(** X14: [update_graph] computes the position of a percentage from the
    number of tiers of the service it is at.  When that position is
    beyond the values passed, for some tier of some service, a click
    raises [IndexError]; with a value for each [State] this happens
    when the last service has more tiers than the services have on
    average. *)
Theorem position_beyond_the_values_raises
    n_clicks args services sliding_fee_schedule i s tiers j :
  n_clicks <> 0 ->
  (forall s', In s' services ->
     dict_find sliding_fee_schedule (service_name s') <> None) ->
  nth_error services i = Some s ->
  dict_find sliding_fee_schedule (service_name s) = Some tiers ->
  j < List.length tiers ->
  let n := List.length services in
  List.length args <= 2 * n + n * List.length tiers + i * List.length tiers + j ->
  fst (update_graph money Series_sum n_clicks args (services, sliding_fee_schedule))
  = Failed IndexError.
Proof.
  intros Hclick Hall Hi Hf Hj n Hlen.
  unfold update_graph. apply Nat.eqb_neq in Hclick. rewrite Hclick. fold n.
  pose proof (update_services_fails args n services 0) as Hfail.
  pose proof (update_services_names args n services 0) as Hnames.
  destruct (update_services args n 0 services) as [[u|f] services1];
    cbn [fst snd] in *.
  2:{ now rewrite (Hfail f eq_refl). }
  rewrite Hnames.
  pose proof (update_schedule_reads args n (map service_name services) 0
                sliding_fee_schedule) as Hread.
  assert (Hall' : forall name, In name (map service_name services) ->
                    dict_find sliding_fee_schedule name <> None).
  { intros name Hin. apply in_map_iff in Hin. destruct Hin as [s' [<- Hs']].
    now apply Hall. }
  specialize (Hread Hall').
  destruct (update_schedule args n 0 (map service_name services) sliding_fee_schedule)
    as [[u'|f] schedule1]; cbn [fst snd] in *.
  - exfalso.
    assert (Hk : nth_error (map service_name services) i = Some (service_name s))
      by (rewrite nth_error_map, Hi; reflexivity).
    specialize (Hread i (service_name s) tiers j Hk Hf Hj). cbn [Nat.add] in Hread.
    lia.
  - now rewrite Hread.
Qed.

(** *** What is returned *)

Lemma no_tier_named_le c (a b : schedule T) :
  schedule_le a b -> no_tier_named c a -> no_tier_named c b.
Proof.
  unfold no_tier_named.
  induction 1 as [|e e' a b [_ Ht] _ IH]; [reflexivity |].
  cbn [forallb]. rewrite !andb_true_iff. intros [H1 H2]. split; [| now apply IH].
  rewrite <- H1. do 2 f_equal. exact (tiers_le_keys _ _ Ht).
Qed.

(** X15: With a value for each [State], every service with [m] well-formed
    tiers, no two services of one name and no tier named like the
    columns read, a click makes [update_graph] return and not raise.
    The analysis it runs is that of the updated data, with the last
    value as fixed costs; the figure has the names of the services as x
    and the "Profit" column of that analysis as y.  The text returned
    with it is "$" followed by what the format makes of what
    [Series.sum()] makes of that column; both are parameters here, and
    nothing is stated of what they compute. *)
Theorem update_graph_returns_the_figure
    m n_clicks args services sliding_fee_schedule :
  n_clicks <> 0 ->
  valid_input services sliding_fee_schedule ->
  uniform_tiers m services sliding_fee_schedule ->
  schedule_wf sliding_fee_schedule ->
  NoDup (map service_name services) ->
  no_tier_named "Service" sliding_fee_schedule ->
  no_tier_named "Profit" sliding_fee_schedule ->
  let n := List.length services in
  List.length args = 2 * n + 2 * (n * m) + 1 ->
  let run :=
    update_graph money Series_sum n_clicks args (services, sliding_fee_schedule) in
  exists fixed_costs df fig,
    nth_error args (2 * n + 2 * (n * m)) = Some fixed_costs /\
    cvp_analysis_with_full_sliding_fee (fst (snd run)) (snd (snd run)) fixed_costs
    = Ok df /\
    fst run
    = Done (Updated fig (String.append "$" (money (Series_sum (df_column df "Profit")))))
    /\
    fig_x fig = map (fun s => CStr (service_name s)) services /\
    fig_y fig = df_column df "Profit".
Proof.
  intros Hclick Hvalid Huni Hwf Hnd Hns _ n Hlen run.
  destruct (update_graph_globals n_clicks args services sliding_fee_schedule)
    as [Hnames Hle].
  fold run in Hnames, Hle. subst run.
  unfold update_graph in *. apply Nat.eqb_neq in Hclick. rewrite Hclick in *.
  fold n in Hnames, Hle |- *.
  destruct (update_services_writes args n services 0) as [Hd _]; [lia |].
  pose proof (update_services_names args n services 0) as Hnames1.
  destruct (update_services args n 0 services) as [r services1].
  cbn [fst snd] in Hd, Hnames1. subst r. rewrite Hnames1 in *.
  destruct (update_schedule_writes args n m (map service_name services) 0
              sliding_fee_schedule Hnd) as [schedule1 [Hrun _]].
  { intros name Hin. apply in_map_iff in Hin. destruct Hin as [s0 [<- Hs0]].
    destruct (uniform_tiers_find _ _ _ _ Huni Hs0) as [tiers [Hf Hm]].
    exists tiers. split; [exact Hf |]. split; [exact Hm |].
    exact (schedule_wf_find _ _ _ Hwf Hf). }
  { rewrite length_map. fold n. cbn [Nat.add]. lia. }
  rewrite Hrun in *.
  destruct (nth_error_Some_lt args (2 * n + 2 * (n * m))) as [fixed_costs Hfixed];
    [lia |].
  assert (Hlast : last_arg args = Done fixed_costs).
  { unfold last_arg, arg. destruct args as [|a args']; [cbn in Hlen; lia |].
    rewrite Hlen. replace (2 * n + 2 * (n * m) + 1 - 1) with (2 * n + 2 * (n * m))
      by lia.
    now rewrite Hfixed. }
  rewrite Hlast in *. cbn [fst snd] in *.
  assert (Hvalid1 : valid_input services1 schedule1).
  { destruct Hvalid as [Hne Hall]. split.
    - intros ->. destruct services; [congruence | discriminate].
    - rewrite forallb_forall in *. intros s' Hs'.
      assert (Hin : In (service_name s') (map service_name services)).
      { rewrite <- Hnames1. now apply in_map. }
      apply in_map_iff in Hin. destruct Hin as [s [Hname Hs]].
      rewrite <- (service_ok_name _ s' s Hname).
      apply (schedule_le_service_ok _ _ _ Hle). now apply Hall. }
  destruct (valid_input_Ok _ _ fixed_costs Hvalid1) as [df Hdf].
  destruct (cvp_charted _ _ _ _ (no_tier_named_le _ _ _ Hle Hns) Hdf)
    as [Hx [Hy _]].
  exists fixed_costs, df. eexists. split; [exact Hfixed |]. split; [exact Hdf |].
  unfold recompute. cbn [fst snd]. rewrite Hdf. cbn [bind]. rewrite Hx, Hy.
  cbn [bind of_result fig_x fig_y]. split; [reflexivity |]. split; [| reflexivity].
  rewrite <- !map_map with (f := service_name) (g := CStr). now rewrite Hnames1.
Qed.

End Update.

(** ** The dashboard: a click before any edit *)

Set Warnings "-abstract-large-number".

Section RoundTrip.

Context {T : Type} {NT : Number T}.

Variable money : T -> string.

Variable Series_sum : list (cell T) -> T.

Implicit Types (services : list (service T)) (sliding_fee_schedule : schedule T).
Implicit Types (args : list T).

Local Abbreviation tier_id name tier field :=
  (String.append name (String.append "-" (String.append tier field))) (only parsing).

Lemma dict_set_same_value {V : Type} (d : dict V) k v :
  dict_find d k = Some v -> dict_set d k v = d.
Proof.
  induction d as [|[k' v'] d IH]; cbn [dict_find dict_set]; [discriminate |].
  destruct (String.eqb k k') eqn:E.
  - intros H. inversion H. reflexivity.
  - intros H. now rewrite IH.
Qed.

Lemma update_services_same args n :
  forall services a,
    (forall k s,
       nth_error services k = Some s ->
       nth_error args (a + k) = Some (volume s) /\
       nth_error args (n + (a + k)) = Some (variable_cost_per_unit s)) ->
    update_services args n a services = (Done tt, services).
Proof.
  induction services as [|s services IH]; intros a H; cbn [update_services].
  - reflexivity.
  - destruct (H 0 s eq_refl) as [Hv Hc]. rewrite Nat.add_0_r in Hv, Hc.
    unfold arg. rewrite Hv, Hc. rewrite (IH (S a)).
    + destruct s. reflexivity.
    + intros k s' Hk. destruct (H (S k) s' Hk) as [H1 H2].
      replace (S a + k) with (a + S k) by lia. now split.
Qed.

Lemma update_tier_same args n i j name tier sliding_fee_schedule tiers values p c :
  dict_find sliding_fee_schedule name = Some tiers ->
  dict_find tiers tier = Some values ->
  dict_find values "price" = Some p ->
  dict_find values "percentage" = Some c ->
  nth_error args (2 * n + i * List.length tiers + j) = Some p ->
  nth_error args (2 * n + n * List.length tiers + i * List.length tiers + j) = Some c ->
  update_tier args n i j name tier sliding_fee_schedule
  = (Done tt, sliding_fee_schedule).
Proof.
  intros Hn Ht Hp Hc Hap Hac.
  unfold update_tier, tier_count, set_field, dict_get, arg.
  rewrite Hn. cbn [bind of_result]. rewrite Hap, Ht. cbn [bind of_result].
  rewrite (dict_set_same_value _ _ _ Hp), (dict_set_same_value _ _ _ Ht),
    (dict_set_same_value _ _ _ Hn).
  rewrite Hn. cbn [bind of_result]. rewrite Hac, Ht. cbn [bind of_result].
  rewrite (dict_set_same_value _ _ _ Hc), (dict_set_same_value _ _ _ Ht),
    (dict_set_same_value _ _ _ Hn).
  reflexivity.
Qed.

Lemma update_tiers_same args n i name sliding_fee_schedule tiers :
  dict_find sliding_fee_schedule name = Some tiers ->
  forall ks j,
    (forall k tier,
       nth_error ks k = Some tier ->
       exists values p c,
         dict_find tiers tier = Some values /\
         dict_find values "price" = Some p /\
         dict_find values "percentage" = Some c /\
         nth_error args (2 * n + i * List.length tiers + (j + k)) = Some p /\
         nth_error args (2 * n + n * List.length tiers + i * List.length tiers
                         + (j + k)) = Some c) ->
    update_tiers args n i j name ks sliding_fee_schedule
    = (Done tt, sliding_fee_schedule).
Proof.
  intros Hn. induction ks as [|tier ks IH]; intros j H; cbn [update_tiers].
  - reflexivity.
  - destruct (H 0 tier eq_refl) as [values [p [c [Ht [Hp [Hc [Hap Hac]]]]]]].
    rewrite Nat.add_0_r in Hap, Hac.
    rewrite (update_tier_same _ _ _ _ _ _ _ _ _ _ _ Hn Ht Hp Hc Hap Hac).
    apply IH. intros k tier' Hk.
    destruct (H (S k) tier' Hk) as [values' [p' [c' H']]].
    exists values', p', c'. replace (S j + k) with (j + S k) by lia. exact H'.
Qed.

Lemma update_schedule_same args n sliding_fee_schedule :
  forall names i,
    (forall k name,
       nth_error names k = Some name ->
       exists tiers,
         dict_find sliding_fee_schedule name = Some tiers /\
         forall j tier,
           nth_error (dict_keys tiers) j = Some tier ->
           exists values p c,
             dict_find tiers tier = Some values /\
             dict_find values "price" = Some p /\
             dict_find values "percentage" = Some c /\
             nth_error args (2 * n + (i + k) * List.length tiers + j) = Some p /\
             nth_error args (2 * n + n * List.length tiers
                             + (i + k) * List.length tiers + j) = Some c) ->
    update_schedule args n i names sliding_fee_schedule
    = (Done tt, sliding_fee_schedule).
Proof.
  induction names as [|name names IH]; intros i H; cbn [update_schedule].
  - reflexivity.
  - destruct (H 0 name eq_refl) as [tiers [Hn Ht]]. rewrite Nat.add_0_r in Ht.
    unfold dict_get. rewrite Hn. cbn [of_result].
    rewrite (update_tiers_same args n i name _ tiers Hn (dict_keys tiers) 0 Ht).
    apply IH. intros k name' Hk.
    destruct (H (S k) name' Hk) as [tiers' H'].
    exists tiers'. replace (S i + k) with (i + S k) by lia. exact H'.
Qed.

(** *** What the input fields show *)

Lemma inputs_unique {V : Type} (d : dict V) k x y :
  NoDup (dict_keys d) -> In (k, x) d -> In (k, y) d -> x = y.
Proof.
  intros Hnd Hx Hy.
  pose proof (dict_find_NoDup_In _ _ _ Hnd Hx) as H1.
  pose proof (dict_find_NoDup_In _ _ _ Hnd Hy) as H2. congruence.
Qed.

Lemma mapM_In_Ok {A B : Type} (f : A -> result B) xs ys x :
  mapM f xs = Ok ys -> In x xs -> exists y, f x = Ok y /\ In y ys.
Proof.
  intros Hm Hin. apply In_nth_error in Hin. destruct Hin as [i Hi].
  destruct (mapM_nth_error _ _ _ _ _ Hm Hi) as [y [Hy Hf]].
  exists y. split; [exact Hf |]. exact (nth_error_In _ _ Hy).
Qed.

Lemma layout_shows services sliding_fee_schedule layout :
  build_layout services sliding_fee_schedule = Ok layout ->
  In ("fixed-cost-input", of_int 500000) (inputs_of layout) /\
  forall s,
    In s services ->
    In (String.append (service_name s) "-volume", volume s) (inputs_of layout) /\
    In (String.append (service_name s) "-cost", variable_cost_per_unit s)
       (inputs_of layout) /\
    forall tiers tier values,
      dict_find sliding_fee_schedule (service_name s) = Some tiers ->
      In (tier, values) tiers ->
      exists p c,
        dict_find values "price" = Some p /\
        dict_find values "percentage" = Some c /\
        In (tier_id (service_name s) tier "-price", p) (inputs_of layout) /\
        In (tier_id (service_name s) tier "-percentage", c) (inputs_of layout).
Proof.
  unfold build_layout. intros H. apply bind_Ok_inv in H.
  destruct H as [cs [Hcs H]]. inversion H; subst layout. clear H.
  unfold app_layout. cbn [inputs_of flat_map app]. rewrite app_nil_r.
  split; [now left |]. intros s Hs.
  destruct (mapM_In_Ok _ _ _ _ Hcs Hs) as [comp [Hcomp Hin]].
  assert (Hsub : forall x, In x (inputs_of comp) ->
                   In x (("fixed-cost-input", of_int 500000)
                         :: flat_map inputs_of cs)).
  { intros x Hx. right. apply in_flat_map. now exists comp. }
  unfold create_service_inputs, dict_get in Hcomp.
  destruct (dict_find sliding_fee_schedule (service_name s)) as [tiers|] eqn:Hn;
    cbn [bind] in Hcomp; [| discriminate].
  apply bind_Ok_inv in Hcomp. destruct Hcomp as [fields [Hfields Hcomp]].
  inversion Hcomp as [Hc]. rewrite <- Hc in Hsub.
  cbn [inputs_of flat_map app] in Hsub. rewrite app_nil_r in Hsub.
  split; [apply Hsub; now left |]. split; [apply Hsub; right; now left |].
  intros tiers' tier values Heq Hit. inversion Heq; subst tiers'.
  destruct (mapM_In_Ok _ _ _ _ Hfields Hit) as [field [Hfield Hinf]].
  unfold tier_inputs, dict_get in Hfield.
  destruct (dict_find values "price") as [p|]; cbn [bind] in Hfield; [| discriminate].
  destruct (dict_find values "percentage") as [c|]; cbn [bind] in Hfield;
    [| discriminate].
  inversion Hfield as [Hf]. exists p, c. split; [reflexivity |]. split; [reflexivity |].
  split; apply Hsub; right; right; apply in_flat_map; exists field;
    (split; [exact Hinf |]); rewrite <- Hf; cbn [inputs_of flat_map app].
  - now left.
  - right. now left.
Qed.

Lemma state_values_nth (layout : component T) states args k d :
  state_values layout states = Ok args ->
  nth_error states k = Some d ->
  exists x, nth_error args k = Some x /\ In (fst d, x) (inputs_of layout).
Proof.
  intros Hm Hk. destruct (mapM_nth_error _ _ _ _ _ Hm Hk) as [x [Hx Hf]].
  exists x. split; [exact Hx |]. unfold dict_get in Hf.
  destruct (dict_find (inputs_of layout) (fst d)) as [v|] eqn:E; [| discriminate].
  inversion Hf; subst v. now apply dict_find_In.
Qed.

(** X16: A click before any edit changes nothing.  When the ids of the
    input fields are distinct and every service has [m] tiers, the
    values the callback is passed for its [State]s from the layout as
    it was built are those of the module data, and [update_graph]
    writes each one back where it came from: the services and the
    schedule after the click are those before it.  The analysis it
    then runs has the fixed costs 500000 of the layout. *)
Theorem click_before_edit_changes_nothing
    m n_clicks services sliding_fee_schedule layout states args :
  build_layout services sliding_fee_schedule = Ok layout ->
  NoDup (map fst (inputs_of layout)) ->
  uniform_tiers m services sliding_fee_schedule ->
  callback_states services sliding_fee_schedule = Ok states ->
  state_values layout states = Ok args ->
  n_clicks <> 0 ->
  update_graph money Series_sum n_clicks args (services, sliding_fee_schedule)
  = (of_result
       (recompute money Series_sum (of_int 500000) (services, sliding_fee_schedule)),
     (services, sliding_fee_schedule)).
Proof.
  intros Hb Hnd Huni Hstates Hargs Hclick.
  destruct (callback_states_positions m services sliding_fee_schedule Huni)
    as [states' [Hs' [Hlen [Hfixed Hpos]]]].
  rewrite Hstates in Hs'. inversion Hs'; subst states'. clear Hs'.
  destruct (layout_shows _ _ _ Hb) as [Hshown_fixed Hshown].
  set (n := List.length services) in *.
  assert (Hval : forall k id x,
             nth_error states k = Some (id, "value") ->
             In (id, x) (inputs_of layout) ->
             nth_error args k = Some x).
  { intros k id x Hk Hin.
    destruct (state_values_nth _ _ _ _ _ Hargs Hk) as [y [Hy Hin']].
    cbn [fst] in Hin'. now rewrite (inputs_unique _ _ _ _ Hnd Hin Hin'). }
  assert (Hargs_len : List.length args = 2 * n + 2 * (n * m) + 1).
  { pose proof (mapM_length _ _ _ Hargs) as Hl. rewrite Hl. exact Hlen. }
  unfold update_graph. apply Nat.eqb_neq in Hclick. rewrite Hclick. fold n.
  rewrite (update_services_same args n services 0).
  2:{ intros k s Hk. destruct (Hpos k s Hk) as [Hv [Hc _]].
      destruct (Hshown s (nth_error_In _ _ Hk)) as [Hsv [Hsc _]].
      cbn [Nat.add]. split; [exact (Hval _ _ _ Hv Hsv) | exact (Hval _ _ _ Hc Hsc)]. }
  rewrite (update_schedule_same args n sliding_fee_schedule
             (map service_name services) 0).
  2:{ intros k name Hk. rewrite nth_error_map in Hk.
      destruct (nth_error services k) as [s|] eqn:Hs; [| discriminate].
      inversion Hk; subst name. clear Hk.
      destruct (uniform_tiers_find _ _ _ _ Huni (nth_error_In _ _ Hs))
        as [tiers [Hn Hm]].
      exists tiers. split; [exact Hn |]. intros j tier Hj. rewrite Hm.
      assert (Hin : In tier (dict_keys tiers)) by exact (nth_error_In _ _ Hj).
      apply dict_find_In_keys in Hin.
      destruct (dict_find tiers tier) as [values|] eqn:Ht; [clear Hin | congruence].
      destruct (Hshown s (nth_error_In _ _ Hs)) as [_ [_ Htiers]].
      destruct (Htiers tiers tier values Hn (dict_find_In _ _ _ Ht))
        as [p [c [Hp [Hc [Hip Hic]]]]].
      destruct (Hpos k s Hs) as [_ [_ Hpt]].
      destruct (Hpt tiers j tier Hn Hj) as [Hpp Hpc].
      exists values, p, c. cbn [Nat.add]. repeat split; try assumption.
      - exact (Hval _ _ _ Hpp Hip).
      - exact (Hval _ _ _ Hpc Hic). }
  assert (Hlast : last_arg args = Done (of_int 500000)).
  { unfold last_arg, arg. destruct args as [|a args']; [cbn in Hargs_len; lia |].
    rewrite Hargs_len.
    replace (2 * n + 2 * (n * m) + 1 - 1) with (2 * n + 2 * (n * m)) by lia.
    now rewrite (Hval _ _ _ Hfixed Hshown_fixed). }
  now rewrite Hlast.
Qed.

End RoundTrip.

Set Warnings "+abstract-large-number".

End DashFacts.

(** ** Runs of the properties above *)

Lemma every_failure_is_one_of_three_witness :
  (ex_services = [] /\ KeyError "percentage" = ZeroDivisionError) \/
  (exists s,
     In s ex_services /\
     dict_find malformed_schedule (service_name s) = None /\
     KeyError "percentage" = KeyError (service_name s)) \/
  (exists s tiers tier values,
     In s ex_services /\
     dict_find malformed_schedule (service_name s) = Some tiers /\
     In (tier, values) tiers /\
     tier_ok values = false /\
     KeyError "percentage" = KeyError (missing_field values)).
Proof.
  apply (every_failure_is_one_of_three ex_services malformed_schedule (q 1000 1)).
  reflexivity.
Defined.

Lemma rows_follow_services_witness :
  exists df,
    cvp_analysis_with_full_sliding_fee two_services two_schedule (q 1000 1) = Ok df /\
    df_column df "Service" = [CStr "A"; CStr "B"] /\
    df_column df "Volume" = [CNum (q 100 1); CNum (q 50 1)].
Proof.
  apply (rows_follow_services two_services two_schedule (q 1000 1)).
  - split; [discriminate | reflexivity].
  - reflexivity.
  - reflexivity.
Defined.

Lemma absent_tier_is_NaN_witness :
  exists df,
    cvp_analysis_with_full_sliding_fee two_services two_schedule (q 1000 1) = Ok df /\
    df_loc df 0 "Slide A" = Some NaN.
Proof.
  eexists. split; [vm_compute; reflexivity |].
  apply (absent_tier_is_NaN two_services two_schedule (q 1000 1) _ 0
           {| service_name := "A"; volume := q 100 1; variable_cost_per_unit := q 10 1 |}
           [ ("T1", tier (q 10 1) (q 1 2)); ("T2", tier (q 20 1) (q 1 2)) ]
           "Slide A").
  - reflexivity.
  - reflexivity.
  - reflexivity.
  - simpl. tauto.
  - simpl. intuition discriminate.
  - simpl. intuition discriminate.
Defined.

Lemma zero_volume_row_witness :
  exists df,
    cvp_analysis_with_full_sliding_fee idle_services two_schedule (q 1000 1) = Ok df /\
    df_loc df 1 "Total Revenue" = Some (CNum 0%Qc) /\
    df_loc df 1 "Total Variable Costs" = Some (CNum 0%Qc) /\
    df_loc df 1 "Profit" = Some (CNum (- (q 1000 1 / of_int 2))%Qc).
Proof.
  destruct (valid_input_Ok idle_services two_schedule (q 1000 1)) as [df Hdf].
  { split; [discriminate | reflexivity]. }
  exists df. split; [exact Hdf |].
  apply (zero_volume_row idle_services two_schedule (q 1000 1) df 1
           {| service_name := "B"; volume := q 0 1; variable_cost_per_unit := q 4 1 |}).
  - exact Hdf.
  - reflexivity.
  - apply Qc_is_canon. reflexivity.
Defined.

Lemma fixed_costs_reach_three_columns_witness :
  exists df df',
    cvp_analysis_with_full_sliding_fee two_services two_schedule (q 1000 1) = Ok df /\
    cvp_analysis_with_full_sliding_fee two_services two_schedule (q 2000 1) = Ok df' /\
    columns df' = columns df /\
    forall i c,
      c <> "Fixed Costs" -> c <> "Total Costs" -> c <> "Profit" ->
      df_loc df' i c = df_loc df i c.
Proof.
  do 2 eexists. split; [vm_compute; reflexivity |]. split; [vm_compute; reflexivity |].
  apply (fixed_costs_reach_three_columns two_services two_schedule
           (q 1000 1) (q 2000 1)).
  - reflexivity.
  - reflexivity.
Defined.

Lemma rows_do_not_depend_on_other_services_witness :
  exists df df',
    cvp_analysis_with_full_sliding_fee two_services two_schedule (q 1000 1) = Ok df /\
    cvp_analysis_with_full_sliding_fee idle_services two_schedule (q 1000 1) = Ok df' /\
    df_loc df' 0 "Profit" = df_loc df 0 "Profit".
Proof.
  do 2 eexists. split; [vm_compute; reflexivity |]. split; [vm_compute; reflexivity |].
  apply (rows_do_not_depend_on_other_services two_services idle_services two_schedule
           (q 1000 1) _ _ 0
           {| service_name := "A"; volume := q 100 1; variable_cost_per_unit := q 10 1 |}
           "Profit").
  - reflexivity.
  - reflexivity.
  - reflexivity.
  - reflexivity.
  - reflexivity.
  - simpl. tauto.
  - simpl. tauto.
Defined.

Lemma layout_builds_iff_analysis_returns_witness :
  (exists layout, Dash.build_layout ex_services ex_schedule = Ok layout)
  <->
  (exists df,
     cvp_analysis_with_full_sliding_fee ex_services ex_schedule (q 1000 1) = Ok df).
Proof.
  apply (DashFacts.layout_builds_iff_analysis_returns ex_services ex_schedule (q 1000 1)).
  discriminate.
Defined.

Lemma states_are_the_input_fields_witness :
  exists layout states,
    Dash.build_layout two_services two_schedule = Ok layout /\
    Dash.callback_states two_services two_schedule = Ok states /\
    Permutation (map fst states) (map fst (Dash.inputs_of layout)).
Proof.
  eexists.
  destruct (DashFacts.states_are_the_input_fields two_services two_schedule _ eq_refl)
    as [states [Hs [Hp _]]].
  exists states. split; [reflexivity |]. split; assumption.
Defined.

Lemma state_positions_witness :
  exists states,
    Dash.callback_states ex_services ex_schedule = Ok states /\
    List.length states = 7 /\
    nth_error states 5 = Some ("A-T2-percentage", "value").
Proof.
  destruct (DashFacts.state_positions 2 ex_services ex_schedule eq_refl)
    as [states [Hs [Hlen [_ Hpos]]]].
  exists states. split; [exact Hs |]. split; [exact Hlen |].
  destruct (Hpos 0
              {| service_name := "A"; volume := q 100 1;
                 variable_cost_per_unit := q 10 1 |} eq_refl) as [_ [_ Htiers]].
  destruct (Htiers [ ("T1", tier (q 10 1) (q 1 2)); ("T2", tier (q 20 1) (q 1 2)) ]
              1 "T2" eq_refl eq_refl) as [_ Hq].
  exact Hq.
Defined.

Lemma update_graph_writes_each_value_witness :
  let g' := snd (Dash.update_graph ex_money series_sum 1 ex_args (ex_services, ex_schedule)) in
  exists s',
    nth_error (fst g') 0 = Some s' /\
    service_name s' = "A" /\
    Some (q 120 1) = Some (volume s') /\
    Dash.schedule_field (snd g') "A" "T2" "percentage" = Some (q 3 4).
Proof.
  intros g'.
  destruct (DashFacts.update_graph_writes_each_value ex_money series_sum 2 1 ex_args
              ex_services ex_schedule) with
    (i := 0)
    (s := {| service_name := "A"; volume := q 100 1; variable_cost_per_unit := q 10 1 |})
    as [s' [Hn [Hname [Hv [_ Htiers]]]]].
  - discriminate.
  - reflexivity.
  - reflexivity.
  - constructor; [intros [] | constructor].
  - reflexivity.
  - reflexivity.
  - exists s'. split; [exact Hn |]. split; [exact Hname |]. split; [exact Hv |].
    destruct (Htiers [ ("T1", tier (q 10 1) (q 1 2)); ("T2", tier (q 20 1) (q 1 2)) ]
                1 "T2" eq_refl eq_refl) as [_ Hq].
    exact Hq.
Defined.

Lemma update_graph_returns_the_figure_witness :
  exists df fig total_profitability,
    cvp_analysis_with_full_sliding_fee
      [ {| service_name := "A"; volume := q 120 1; variable_cost_per_unit := q 9 1 |} ]
      [ ("A", [ ("T1", tier (q 12 1) (q 1 4)); ("T2", tier (q 24 1) (q 3 4)) ]) ]
      (q 500 1)
    = Ok df /\
    fst (Dash.update_graph ex_money series_sum 1 ex_args (ex_services, ex_schedule))
    = Dash.Done (Dash.Updated fig total_profitability) /\
    Dash.fig_x fig = [CStr "A"] /\
    Dash.fig_y fig = df_column df "Profit" /\
    df_loc df 0 "Profit" = Some (CNum (q 940 1)).
Proof.
  destruct (DashFacts.update_graph_returns_the_figure ex_money series_sum 2 1 ex_args
              ex_services ex_schedule)
    as [fixed_costs [df [fig [Hfixed [Hdf [Hrun [Hx Hy]]]]]]].
  - discriminate.
  - split; [discriminate | reflexivity].
  - reflexivity.
  - reflexivity.
  - constructor; [intros [] | constructor].
  - reflexivity.
  - reflexivity.
  - reflexivity.
  - inversion Hfixed; subst fixed_costs. exists df, fig. eexists.
    split; [exact Hdf |]. split; [exact Hrun |]. split; [exact Hx |].
    split; [exact Hy |].
    vm_compute in Hdf. inversion Hdf. vm_compute. reflexivity.
Defined.

Lemma chart_has_a_bar_per_service_witness :
  exists df chart,
    cvp_analysis_with_full_sliding_fee two_services two_schedule (q 1000 1) = Ok df /\
    Dash.plot_profit_per_product df = Ok chart /\
    Dash.bar_x chart = [CStr "A"; CStr "B"] /\
    List.length (Dash.bar_height chart) = 2.
Proof.
  destruct (DashFacts.chart_has_a_bar_per_service two_services two_schedule (q 1000 1))
    as [df [chart [Hdf [Hplot [Hx [Hlen _]]]]]].
  - split; [discriminate | reflexivity].
  - reflexivity.
  - reflexivity.
  - exists df, chart. repeat split; assumption.
Defined.

Lemma position_beyond_the_values_raises_witness :
  fst (Dash.update_graph ex_money series_sum 1 two_args (two_services, two_schedule))
  = Dash.Failed Dash.IndexError.
Proof.
  apply (DashFacts.position_beyond_the_values_raises ex_money series_sum 1 two_args
           two_services two_schedule 1
           {| service_name := "B"; volume := q 50 1; variable_cost_per_unit := q 4 1 |}
           [ ("Slide A", tier (q 35 1) (q 1 4));
             ("Full Charges", tier (q 80 1) (q 1 2));
             ("Slide B", tier (q 45 1) (q 1 4)) ]
           2).
  - discriminate.
  - intros s' [<- | [<- | []]]; discriminate.
  - reflexivity.
  - reflexivity.
  - apply Nat.leb_le. reflexivity.
  - apply Nat.leb_le. reflexivity.
Defined.

Set Warnings "-abstract-large-number".

Lemma click_before_edit_changes_nothing_witness :
  exists layout states args,
    Dash.build_layout ex_services ex_schedule = Ok layout /\
    Dash.callback_states ex_services ex_schedule = Ok states /\
    Dash.state_values layout states = Ok args /\
    Dash.update_graph ex_money series_sum 1 args (ex_services, ex_schedule)
    = (Dash.of_result
         (Dash.recompute ex_money series_sum (of_int 500000) (ex_services, ex_schedule)),
       (ex_services, ex_schedule)).
Proof.
  do 3 eexists. split; [reflexivity |]. split; [reflexivity |].
  split; [reflexivity |].
  eapply DashFacts.click_before_edit_changes_nothing with (m := 2).
  - reflexivity.
  - apply distinct_NoDup. reflexivity.
  - reflexivity.
  - reflexivity.
  - reflexivity.
  - discriminate.
Defined.

Set Warnings "+abstract-large-number".
